(** * Allegro autoresponder: the polling-and-decision engine

    A shallow embedding of [app/rules.py], [app/config.py], the polling
    code of [app/main.py] and the access-token code of [app/allegro.py], and
    the properties of the decision engine, of the thread and issue
    processors, of the poll scheduler, of the settings and of the token
    cache.

    Conventions of the embedding.
    - A Python [str] is a Rocq [string] holding its UTF-8 encoding; the
      byte-wise lexicographic order of UTF-8 is the code-point order Python
      compares strings with.
    - A [datetime] is a timezone-aware instant, in microseconds since the
      epoch (every [now] of the program is [datetime.now(timezone.utc)]);
      a [timedelta] is a number of microseconds.
    - A decoded JSON payload is a [json] value; JSON objects are Python
      dicts, embedded as finite maps.  Floating-point numbers are left out.
    - A Python exception is a [Raise e] result; effects (the API
      collaborator, the clock, [print], [asyncio.sleep]) are threaded
      through a state-and-trace monad over an arbitrary backend. *)

From stdpp Require Import base option list gmap strings fin_maps.
From Stdlib Require Import ZArith String Ascii List Bool Lia Sorting.Sorted
  Sorting.Permutation.
Import ListNotations.

#[local] Open Scope Z_scope.
#[local] Open Scope string_scope.

(** ** Python values and exceptions *)

(** The exceptions the polling code can meet: those Python raises on a
    value of the wrong kind, and the failures of the API collaborator.  All
    are subclasses of [Exception]. *)
Inductive exn : Type :=
| AttributeError
| TypeError
| ValueError
| IndexError
| HTTPError (status : Z)
| TransportError (what : string).

Inductive result (A : Type) : Type :=
| Return (a : A)
| Raise (e : exn).
Arguments Return {A} a.
Arguments Raise {A} e.

(** Sequencing of code that may raise: an exception skips what follows. *)
Definition bind {A B : Type} (m : result A) (f : A -> result B) : result B :=
  match m with
  | Return a => f a
  | Raise e => Raise e
  end.

Notation "'let?' x := m 'in' k" := (bind m (fun x => k))
  (at level 10, x name, m at level 100, k at level 200).

#[warnings="-register-all"]
Inductive json : Type :=
| JNull
| JBool (b : bool)
| JInt (z : Z)
| JStr (s : string)
| JList (l : list json)
| JDict (m : gmap string json).

Definition datetime : Type := Z.
Definition timedelta : Type := Z.

(** [timedelta(minutes=n)], in microseconds. *)
Definition timedelta_minutes (n : Z) : timedelta := n * 60 * 1000000.

(** Truth value of a decoded JSON value ([bool(x)], [not x], [x or y]). *)
Definition truthy (j : json) : bool :=
  match j with
  | JNull => false
  | JBool b => b
  | JInt z => negb (z =? 0)%Z
  | JStr s => negb (s =? "")%string
  | JList l => match l with [] => false | _ :: _ => true end
  | JDict m => negb (bool_decide (m = ∅))
  end.

(** [x or y] when [y] has no effect and cannot raise. *)
Definition py_or (x y : json) : json := if truthy x then x else y.

(** [d.get(key, default)]: only a dict has the method. *)
Definition py_get (d : json) (key : string) (dflt : json) : result json :=
  match d with
  | JDict m => Return (default dflt (m !! key))
  | _ => Raise AttributeError
  end.

(** [x == "literal"] for a string literal. *)
Definition eq_str (x : json) (lit : string) : bool :=
  match x with
  | JStr s => (s =? lit)%string
  | _ => false
  end.

(** Number of code points of a UTF-8 string: the bytes that are not
    continuation bytes [10xxxxxx]. *)
Fixpoint utf8_length (s : string) : Z :=
  match s with
  | EmptyString => 0
  | String c s' =>
      (if (Z.land (Z.of_N (N_of_ascii c)) 192 =? 128)%Z then 0 else 1) + utf8_length s'
  end.

(** [len(x)] *)
Definition py_len (x : json) : result Z :=
  match x with
  | JStr s => Return (utf8_length s)
  | JList l => Return (Z.of_nat (length l))
  | JDict m => Return (Z.of_nat (size m))
  | _ => Raise TypeError
  end.

(** The items a [for] loop draws from [x].  A string yields its characters
    and a dict its keys; the loop bodies below raise on the first such item,
    so neither their exact text nor their order is observable. *)
Definition py_iter (x : json) : result (list json) :=
  match x with
  | JList l => Return l
  | JStr s => Return (map (fun c => JStr (String c EmptyString)) (list_ascii_of_string s))
  | JDict m => Return (map (fun kv => JStr (fst kv)) (map_to_list m))
  | _ => Raise TypeError
  end.

(** [a < b] as [list.sort] evaluates it on two keys: strings compare with
    strings, numbers (and [True]) with numbers, and every other pair raises
    [TypeError].  (Python orders two list-valued keys element by element;
    list-valued sort keys are not ordered by the embedding.) *)
Definition py_lt (a b : json) : result bool :=
  match a, b with
  | JStr s, JStr t => Return (String.ltb s t)
  | JInt x, JInt y => Return (x <? y)%Z
  | JInt x, JBool y => Return (x <? Z.b2z y)%Z
  | JBool x, JInt y => Return (Z.b2z x <? y)%Z
  | JBool x, JBool y => Return (Z.b2z x <? Z.b2z y)%Z
  | _, _ => Raise TypeError
  end.

(** Insertion of a decorated item [(key, item)] in front of the first
    element whose key is not smaller: the order of equal keys is kept. *)
Fixpoint sort_insert (x : json * json) (l : list (json * json))
  : result (list (json * json)) :=
  match l with
  | [] => Return [x]
  | y :: l' =>
      let? b := py_lt (fst y) (fst x) in
      if b : bool then let? r := sort_insert x l' in Return (y :: r)
      else Return (x :: y :: l')
  end.

Fixpoint sort_decorated (l : list (json * json)) : result (list (json * json)) :=
  match l with
  | [] => Return []
  | x :: l' => let? r := sort_decorated l' in sort_insert x r
  end.

Fixpoint map_result {A B : Type} (f : A -> result B) (l : list A) : result (list B) :=
  match l with
  | [] => Return []
  | x :: l' => let? y := f x in let? r := map_result f l' in Return (y :: r)
  end.

(** [l.sort(key=key)]: the keys of all items are computed first, then the
    items are stably sorted on them with [<]; an exception of the key
    function or of a comparison propagates. *)
Definition list_sort (key : json -> result json) (l : list json) : result (list json) :=
  let? keys := map_result key l in
  let? sorted := sort_decorated (combine keys l) in
  Return (map snd sorted).

(** [x.sort(key=key)] on a decoded value: only a list has the method. *)
Definition py_sort (key : json -> result json) (x : json) : result (list json) :=
  match x with
  | JList l => list_sort key l
  | _ => Raise AttributeError
  end.

(** [l[-1]] *)
Fixpoint py_last (l : list json) : result json :=
  match l with
  | [] => Raise IndexError
  | [x] => Return x
  | _ :: l' => py_last l'
  end.

(** [try: m except (classes): handler], for code without effects. *)
Definition catch {A : Type} (m : result A) (handler : exn -> result A) : result A :=
  match m with
  | Return a => Return a
  | Raise e => handler e
  end.

(** [s.replace(old, new)] for a one-character [old]. *)
Fixpoint str_replace (old : ascii) (new : string) (s : string) : string :=
  match s with
  | EmptyString => EmptyString
  | String c s' =>
      if Ascii.eqb c old then new ++ str_replace old new s'
      else String c (str_replace old new s')
  end.

(** ** app/config.py *)

Module config.

Record Settings : Type := {
  client_id : string;
  client_secret : string;
  refresh_token : string;
  environment : string;
  poll_interval_seconds : Z;
  max_threads_per_poll : Z;
  max_issues_per_poll : Z;
  tz : string;
  work_hours_start : Z;
  work_hours_end : Z;
  autoresponse_message : string;
  autoresponse_issue : string;
  reply_outside_working_hours : bool;
  reply_only_first_message : bool;
  process_issues : bool
}.

End config.

(** ** app/rules.py *)

Module rules.
Import config.

Record Decision : Type := {
  should_reply : bool;
  message : option string;
  reason : string
}.

(** [Decision(should_reply, message=None, reason)] *)
Definition mkDecision (sr : bool) (msg : option string) (why : string) : Decision :=
  {| should_reply := sr; message := msg; reason := why |}.

Section working_time.
(** [now.astimezone(tz).hour] comes from the time-zone database. *)
Variable local_hour : string -> datetime -> Z.

End working_time.

Definition decide_autoreply (now msg_time : datetime) (settings : Settings)
    (is_issue : bool) : Decision :=
  if (timedelta_minutes 10 <? now - msg_time)%Z then
    mkDecision false None "message too old"
  else if is_issue then
    mkDecision true (Some (autoresponse_issue settings)) "issue"
  else
    mkDecision true (Some (autoresponse_message settings)) "ask message".

End rules.

(** ** app/main.py *)

Module main.
Import config rules.

(** What a run does to the outside, in order: the calls to the API
    collaborator with their results, the [print] of a caught exception, and
    the sleep between two cycles. *)
Inductive event : Type :=
| CallListThreads (limit offset : Z) (r : result json)
| CallListMessages (thread_id : json) (r : result json)
| CallPostMessage (thread_id : json) (text : string) (r : result json)
| CallListIssues (limit offset : Z) (r : result json)
| CallListIssueMessages (issue_id : json) (r : result json)
| CallPostIssueMessage (issue_id : json) (text : string) (r : result json)
| Print (line : string) (e : exn)
| Sleep (seconds : Z).

(** The collaborators of the polling code: the clock, the [AllegroClient]
    methods it calls and [asyncio.sleep].  A call may return or raise, and
    may change the state of the outside world. *)
Record Backend : Type := {
  World : Type;
  utcnow : World -> datetime * World;
  list_threads : Z -> Z -> World -> result json * World;
  list_messages : json -> World -> result json * World;
  post_message : json -> string -> World -> result json * World;
  list_issues : Z -> Z -> World -> result json * World;
  list_issue_messages : json -> World -> result json * World;
  post_issue_message : json -> string -> World -> result json * World;
  sleep : Z -> World -> World
}.

Record outcome (W A : Type) : Type := {
  value : result A;
  world : W;
  trace : list event
}.
Arguments value {W A} o.
Arguments world {W A} o.
Arguments trace {W A} o.

Definition M (W A : Type) : Type := W -> outcome W A.

Definition ret {W A : Type} (a : A) : M W A :=
  fun w => {| value := Return a; world := w; trace := [] |}.

Definition lift {W A : Type} (r : result A) : M W A :=
  fun w => {| value := r; world := w; trace := [] |}.

Definition bindM {W A B : Type} (m : M W A) (f : A -> M W B) : M W B :=
  fun w =>
    let o := m w in
    match value o with
    | Return a =>
        let o' := f a (world o) in
        {| value := value o'; world := world o'; trace := trace o ++ trace o' |}
    | Raise e => {| value := Raise e; world := world o; trace := trace o |}
    end.

Notation "x <- m ;; k" := (bindM m (fun x => k))
  (at level 100, m at next level, right associativity).
Notation "m ;;; k" := (bindM m (fun _ => k))
  (at level 100, right associativity).

(** [try: m except Exception as e: handler e] *)
Definition try_except {W : Type} (m : M W unit) (handler : exn -> M W unit) : M W unit :=
  fun w =>
    let o := m w in
    match value o with
    | Return a => o
    | Raise e =>
        let o' := handler e (world o) in
        {| value := value o'; world := world o'; trace := trace o ++ trace o' |}
    end.

(** The outcome [o] after the events [evs]. *)
Definition prepend {W A : Type} (evs : list event) (o : outcome W A) : outcome W A :=
  {| value := value o; world := world o; trace := evs ++ trace o |}.

Definition emit {W : Type} (ev : event) : M W unit :=
  fun w => {| value := Return tt; world := w; trace := [ev] |}.

(** A call to the collaborator, recorded with its result. *)
Definition call {W : Type} (f : W -> result json * W) (ev : result json -> event)
  : M W json :=
  fun w => let rw := f w in {| value := fst rw; world := snd rw; trace := [ev (fst rw)] |}.

(** [for x in l: body x]: an exception of the body leaves the loop. *)
Fixpoint for_each {W : Type} (body : json -> M W unit) (l : list json) : M W unit :=
  match l with
  | [] => ret tt
  | x :: l' => body x ;;; for_each body l'
  end.

Section polling.
(** [datetime.fromisoformat]; [None] stands for its [ValueError].  Its
    results are instants: a text without a UTC offset, which Python reads
    as a naive datetime, is outside the embedding. *)
Variable fromisoformat : string -> option datetime.
Variable B : Backend.
Variable settings : Settings.

Definition py_replace (x : json) (old : ascii) (new : string) : result string :=
  match x with
  | JStr s => Return (str_replace old new s)
  | _ => Raise AttributeError
  end.

Definition py_fromisoformat (s : string) : result datetime :=
  match fromisoformat s with
  | Some d => Return d
  | None => Raise ValueError
  end.

Definition parse_timestamp (timestamp_str : json) (fallback : datetime)
  : result datetime :=
  if negb (truthy timestamp_str) then Return fallback
  else
    catch
      (let? replaced := py_replace timestamp_str "Z" "+00:00" in
       py_fromisoformat replaced)
      (fun e =>
         match e with
         | ValueError | AttributeError => Return fallback
         | _ => Raise e
         end).

Definition now_utc : M (World B) datetime :=
  fun w => let dw := utcnow B w in
           {| value := Return (fst dw); world := snd dw; trace := [] |}.

(** The sort key of both processors. *)
Definition _ts (m : json) : result json :=
  let? a := py_get m "createdAt" JNull in
  if truthy a then Return a
  else
    let? b := py_get m "created" JNull in
    if truthy b then Return b
    else
      let? c := py_get m "creationDate" JNull in
      Return (py_or c (JStr "")).

(** [th.get("id") or th.get("thread", {}).get("id")] *)
Definition thread_id_of (th : json) : result json :=
  let? a := py_get th "id" JNull in
  if truthy a then Return a
  else
    let? t := py_get th "thread" (JDict ∅) in
    py_get t "id" JNull.

(** [p.get(k1, []) or p.get(k2, []) or []] *)
Definition get_or_get (p : json) (k1 k2 : string) : result json :=
  let? a := py_get p k1 (JList []) in
  if truthy a then Return a
  else
    let? b := py_get p k2 (JList []) in
    Return (py_or b (JList [])).

(** Lines 127-133 and 208-214, [if decision.should_reply and
    decision.message:], a message that is [None] or empty being false; the
    reply is posted inside its own [try]. *)
Definition post_reply (decision : Decision)
    (post : string -> M (World B) json) (line : string) : M (World B) unit :=
  match message decision with
  | Some text =>
      if should_reply decision && negb (text =? "")%string then
        try_except (post text ;;; ret tt) (fun e => emit (Print line e))
      else ret tt
  | None => ret tt
  end.

(** Lines 97-133: what the loop of [process_threads] does once it holds
    the last message; [ret tt] before the end is its [continue]. *)
Definition thread_reply (thread_id : json) (now : datetime) (last_message : json)
  : M (World B) unit :=
  author <- lift (py_get last_message "author" (JDict ∅)) ;;
  is_from_interlocutor <- lift (py_get author "isInterlocutor" (JBool false)) ;;
  type <- lift (py_get last_message "type" (JStr "")) ;;
  let is_ask_type := eq_str type "ASK_QUESTION" in
  if negb (truthy is_from_interlocutor) then ret tt
  else if negb is_ask_type then ret tt
  else
    created_at <- lift (py_get last_message "createdAt" JNull) ;;
    msg_time <- lift (parse_timestamp created_at now) ;;
    let decision := decide_autoreply now msg_time settings false in
    post_reply decision
      (fun text => call (post_message B thread_id text)
                        (CallPostMessage thread_id text))
      "post_message error".

(** Lines 75-96: the body of the loop of [process_threads]. *)
Definition process_thread (th : json) : M (World B) unit :=
  now <- now_utc ;;
  thread_id <- lift (thread_id_of th) ;;
  if negb (truthy thread_id) then ret tt
  else
    msgs_payload <- call (list_messages B thread_id) (CallListMessages thread_id) ;;
    messages <- lift (get_or_get msgs_payload "messages" "items") ;;
    if negb (truthy messages) then ret tt
    else
      sorted <- lift (py_sort _ts messages) ;;
      last_message <- lift (py_last sorted) ;;
      thread_reply thread_id now last_message.

Definition process_threads (now : datetime) : M (World B) unit :=
  threads_payload <- call (list_threads B (max_threads_per_poll settings) 0)
                          (CallListThreads (max_threads_per_poll settings) 0) ;;
  threads <- lift (get_or_get threads_payload "threads" "items") ;;
  _ <- lift (py_len threads) ;;
  items <- lift (py_iter threads) ;;
  for_each process_thread items.

(** Lines 187-214: what the loop of [process_issues] does once it holds
    the last message. *)
Definition issue_reply (issue_id : json) (now : datetime) (last_message : json)
  : M (World B) unit :=
  author <- lift (py_get last_message "author" (JDict ∅)) ;;
  role <- lift (py_get author "role" JNull) ;;
  let is_from_buyer := eq_str role "BUYER" in
  if negb is_from_buyer then ret tt
  else
    created_at <- lift (py_get last_message "createdAt" JNull) ;;
    msg_time <- lift (parse_timestamp created_at now) ;;
    let decision := decide_autoreply now msg_time settings true in
    post_reply decision
      (fun text => call (post_issue_message B issue_id text)
                        (CallPostIssueMessage issue_id text))
      "post_issue_message error".

(** [msgs_payload.get("chat", []) or []] *)
Definition chat_of (msgs_payload : json) : result json :=
  let? chat := py_get msgs_payload "chat" (JList []) in
  Return (py_or chat (JList [])).

(** Lines 161-187: what the loop of [process_issues] runs inside its
    outer [try]. *)
Definition process_issue_chat (issue_id : json) (now : datetime) : M (World B) unit :=
  msgs_payload <- call (list_issue_messages B issue_id) (CallListIssueMessages issue_id) ;;
  messages <- lift (chat_of msgs_payload) ;;
  if negb (truthy messages) then ret tt
  else
    n <- lift (py_len messages) ;;
    if (2 <? n)%Z then ret tt
    else
      sorted <- lift (py_sort _ts messages) ;;
      last_message <- lift (py_last sorted) ;;
      issue_reply issue_id now last_message.

(** Lines 152-153: [issue.get("currentState")], then
    [current_state.get("status") if current_state else None]. *)
Definition status_of (issue : json) : result json :=
  let? current_state := py_get issue "currentState" JNull in
  if truthy current_state then py_get current_state "status" JNull
  else Return JNull.

(** Lines 145-217: the body of the loop of [process_issues]. *)
Definition process_issue (issue : json) : M (World B) unit :=
  now <- now_utc ;;
  issue_id <- lift (py_get issue "id" JNull) ;;
  if negb (truthy issue_id) then ret tt
  else
    status <- lift (status_of issue) ;;
    if negb (eq_str status "DISPUTE_ONGOING") then ret tt
    else
      try_except (process_issue_chat issue_id now)
                 (fun e => emit (Print "processing error" e)).

Definition process_issues (now : datetime) : M (World B) unit :=
  issues_payload <- call (list_issues B (max_issues_per_poll settings) 0)
                         (CallListIssues (max_issues_per_poll settings) 0) ;;
  got <- lift (py_get issues_payload "issues" (JList [])) ;;
  let issues := py_or got (JList []) in
  _ <- lift (py_len issues) ;;
  items <- lift (py_iter issues) ;;
  for_each process_issue items.

Definition process_once : M (World B) unit :=
  now <- now_utc ;;
  process_threads now ;;;
  if config.process_issues settings then process_issues now else ret tt.

(** [asyncio.sleep(interval)] *)
Definition sleep_for (interval : Z) : M (World B) unit :=
  fun w => {| value := Return tt; world := sleep B interval w;
              trace := [Sleep interval] |}.

(** One turn of the [while True] loop of [poll_loop]. *)
Definition poll_iteration (interval : Z) : M (World B) unit :=
  try_except process_once (fun e => emit (Print "[poll] error" e)) ;;;
  sleep_for interval.

(** The first [turns] turns of [poll_loop], which never returns. *)
Fixpoint poll_turns (interval : Z) (turns : nat) : M (World B) unit :=
  match turns with
  | O => ret tt
  | S n => poll_iteration interval ;;; poll_turns interval n
  end.

Definition poll_loop (turns : nat) : M (World B) unit :=
  let interval := poll_interval_seconds settings in
  poll_turns interval turns.

End polling.

(** ** Vocabulary of the statements *)

(** The message a processor inspects: the last one of the fetched list once
    sorted on [_ts], when there is one. *)
Definition last_message_of (messages : json) : option json :=
  match py_sort _ts messages with
  | Return sorted =>
      match py_last sorted with
      | Return m => Some m
      | Raise _ => None
      end
  | Raise _ => None
  end.

Definition thread_last_message (msgs_payload : json) : option json :=
  match get_or_get msgs_payload "messages" "items" with
  | Return messages => if truthy messages then last_message_of messages else None
  | Raise _ => None
  end.

Definition issue_last_message (msgs_payload : json) : option json :=
  match chat_of msgs_payload with
  | Return messages => if truthy messages then last_message_of messages else None
  | Raise _ => None
  end.

(** The issues a fetched page holds ([issues_payload.get("issues", []) or
    []], as the loop of [process_issues] goes through it). *)
Definition issues_of (issues_payload : json) : list json :=
  match py_get issues_payload "issues" (JList []) with
  | Return got =>
      match py_iter (py_or got (JList [])) with
      | Return items => items
      | Raise _ => []
      end
  | Raise _ => []
  end.

(** Number of messages of an issue chat, when it has a length. *)
Definition chat_length (msgs_payload : json) : option Z :=
  match chat_of msgs_payload with
  | Return messages =>
      match py_len messages with
      | Return n => Some n
      | Raise _ => None
      end
  | Raise _ => None
  end.

(** The author of the message is flagged as the interlocutor: there is an
    [isInterlocutor] entry and it is true. *)
Definition flagged_as_interlocutor (m : json) : bool :=
  match py_get m "author" (JDict ∅) with
  | Return author =>
      match py_get author "isInterlocutor" (JBool false) with
      | Return flag => truthy flag
      | Raise _ => false
      end
  | Raise _ => false
  end.

Definition has_type (m : json) (t : string) : bool :=
  match py_get m "type" (JStr "") with
  | Return v => eq_str v t
  | Raise _ => false
  end.

Definition author_role_is (m : json) (r : string) : bool :=
  match py_get m "author" (JDict ∅) with
  | Return author =>
      match py_get author "role" JNull with
      | Return v => eq_str v r
      | Raise _ => false
      end
  | Raise _ => false
  end.

Definition status_is (issue : json) (st : string) : bool :=
  match status_of issue with
  | Return v => eq_str v st
  | Raise _ => false
  end.

(** The [createdAt] entry of a message ([None] in Python when absent). *)
Definition created_at_of (m : json) : json :=
  match py_get m "createdAt" JNull with
  | Return v => v
  | Raise _ => JNull
  end.

(** The sort key, when it is a string. *)
Definition ts_string (m : json) : option string :=
  match _ts m with
  | Return (JStr s) => Some s
  | _ => None
  end.

(** Messages in the order of their sort keys. *)
Definition ts_le (a b : json) : Prop :=
  exists s t, ts_string a = Some s /\ ts_string b = Some t /\ String.leb s t = true.

(** A decorated item of [list_sort] whose key is the string key of its
    message, and the order of such items. *)
Definition decorated (p : json * json) : Prop :=
  exists s, fst p = JStr s /\ ts_string (snd p) = Some s.

Definition dec_le (p q : json * json) : Prop := ts_le (snd p) (snd q).

(** The message time as the specification words it: the parsed creation
    timestamp when the string is present and parseable, with [Z] read as
    [+00:00], and the cycle's [now] otherwise. *)
Definition msg_time_spec (fromisoformat : string -> option datetime)
    (timestamp : json) (now : datetime) : datetime :=
  match timestamp with
  | JStr (String c s) =>
      match fromisoformat (str_replace "Z" "+00:00" (String c s)) with
      | Some t => t
      | None => now
      end
  | _ => now
  end.

(** Two configurations that differ at most in the business time zone, the
    work-hour window and the two reply toggles. *)
Definition same_but_hours_and_toggles (s1 s2 : Settings) : Prop :=
  client_id s1 = client_id s2 /\
  client_secret s1 = client_secret s2 /\
  refresh_token s1 = refresh_token s2 /\
  environment s1 = environment s2 /\
  poll_interval_seconds s1 = poll_interval_seconds s2 /\
  max_threads_per_poll s1 = max_threads_per_poll s2 /\
  max_issues_per_poll s1 = max_issues_per_poll s2 /\
  autoresponse_message s1 = autoresponse_message s2 /\
  autoresponse_issue s1 = autoresponse_issue s2 /\
  config.process_issues s1 = config.process_issues s2.

(** The fetch of the page of threads. *)
Definition is_list_threads (ev : event) : bool :=
  match ev with
  | CallListThreads _ _ _ => true
  | _ => false
  end.

(** What [print] shows when the guarded code raised. *)
Definition print_of {A : Type} (line : string) (r : result A) : list event :=
  match r with
  | Return _ => []
  | Raise e => [Print line e]
  end.

End main.

(** ** Sample data *)

Module samples.
Import config rules main.

Definition sample_settings : Settings := {|
  client_id := "id";
  client_secret := "secret";
  refresh_token := "token";
  environment := "production";
  poll_interval_seconds := 60;
  max_threads_per_poll := 5;
  max_issues_per_poll := 5;
  tz := "Europe/Warsaw";
  work_hours_start := 9;
  work_hours_end := 17;
  autoresponse_message := "Dziekujemy za kontakt!";
  autoresponse_issue := "Dziekujemy za zgloszenie problemu.";
  reply_outside_working_hours := true;
  reply_only_first_message := true;
  config.process_issues := true
|}.

(** The same configuration with another time zone, window and toggles. *)
Definition night_settings : Settings := {|
  client_id := "id";
  client_secret := "secret";
  refresh_token := "token";
  environment := "production";
  poll_interval_seconds := 60;
  max_threads_per_poll := 5;
  max_issues_per_poll := 5;
  tz := "America/New_York";
  work_hours_start := 22;
  work_hours_end := 23;
  autoresponse_message := "Dziekujemy za kontakt!";
  autoresponse_issue := "Dziekujemy za zgloszenie problemu.";
  reply_outside_working_hours := false;
  reply_only_first_message := false;
  config.process_issues := true
|}.

(** [TEMPLATE_FIRST_CONTACT] and [TEMPLATE_ISSUE] set to the empty string. *)
Definition silent_settings : Settings := {|
  client_id := "id";
  client_secret := "secret";
  refresh_token := "token";
  environment := "production";
  poll_interval_seconds := 60;
  max_threads_per_poll := 5;
  max_issues_per_poll := 5;
  tz := "Europe/Warsaw";
  work_hours_start := 9;
  work_hours_end := 17;
  autoresponse_message := "";
  autoresponse_issue := "";
  reply_outside_working_hours := true;
  reply_only_first_message := true;
  config.process_issues := true
|}.

(** 2024-01-01T12:00:00Z, in microseconds since the epoch. *)
Definition noon : datetime := 1704110400000000.

(** A table standing for [datetime.fromisoformat] on the sample strings. *)
Definition sample_fromisoformat (s : string) : option datetime :=
  if (s =? "2024-01-01T12:00:00+00:00")%string then Some noon
  else if (s =? "2024-01-01T11:50:00+00:00")%string then Some (noon - timedelta_minutes 10)
  else if (s =? "2024-01-01T11:00:00+00:00")%string then Some (noon - timedelta_minutes 60)
  else None.

Definition thread (id : string) : json := JDict {[ "id" := JStr id ]}.

Definition author (interlocutor : bool) : json :=
  JDict {[ "isInterlocutor" := JBool interlocutor; "login" := JStr "someone" ]}.

Definition question (created_at : string) (interlocutor : bool) : json :=
  JDict {[ "createdAt" := JStr created_at;
           "author" := author interlocutor;
           "type" := JStr "ASK_QUESTION";
           "text" := JStr "Czy produkt jest dostepny?" ]}.

Definition chat_message (created_at role : string) : json :=
  JDict {[ "createdAt" := JStr created_at;
           "author" := JDict {[ "role" := JStr role ]};
           "text" := JStr "Paczka nie dotarla." ]}.

Definition issue (id status : string) : json :=
  JDict {[ "id" := JStr id; "currentState" := JDict {[ "status" := JStr status ]} ]}.

(** A message that has a creation time and nothing else. *)
Definition dated (created_at : string) : json :=
  JDict {[ "createdAt" := JStr created_at ]}.

(** A question whose time is kept under [created] only. *)
Definition legacy_fields (created : string) : gmap string json :=
  {[ "created" := JStr created;
     "author" := author true;
     "type" := JStr "ASK_QUESTION" ]}.

Definition legacy_question (created : string) : json := JDict (legacy_fields created).

(** A scripted server: what each call answers.  The world is the clock,
    which only [asyncio.sleep] moves. *)
Record script : Type := {
  threads_answer : result json;
  messages_answer : json -> result json;
  post_answer : json -> string -> result json;
  issues_answer : result json;
  chat_answer : json -> result json;
  post_issue_answer : json -> string -> result json
}.

Definition scripted (sc : script) : Backend := {|
  World := datetime;
  utcnow := fun w => (w, w);
  list_threads := fun _ _ w => (threads_answer sc, w);
  list_messages := fun id w => (messages_answer sc id, w);
  post_message := fun id text w => (post_answer sc id text, w);
  list_issues := fun _ _ w => (issues_answer sc, w);
  list_issue_messages := fun id w => (chat_answer sc id, w);
  post_issue_message := fun id text w => (post_issue_answer sc id text, w);
  sleep := fun seconds w => w + seconds * 1000000
|}.

Definition posted : result json := Return (JDict {[ "id" := JStr "m-new" ]}).

(** Thread [t1]: a seller message, then the buyer's question at noon.
    Thread [t2]: the buyer's question, then the seller's answer.
    Issue [i1]: an ongoing dispute opened by the buyer at noon.
    Issue [i2]: a closed dispute. *)
Definition shop : script := {|
  threads_answer := Return (JDict {[ "threads" := JList [thread "t1"; thread "t2"] ]});
  messages_answer := fun id =>
    if eq_str id "t1" then
      Return (JDict {[ "messages" :=
        JList [question "2024-01-01T12:00:00Z" true; question "2024-01-01T11:00:00Z" false] ]})
    else
      Return (JDict {[ "messages" :=
        JList [question "2024-01-01T12:00:00Z" false; question "2024-01-01T11:50:00Z" true] ]});
  post_answer := fun _ _ => posted;
  issues_answer := Return (JDict {[ "issues" :=
    JList [issue "i1" "DISPUTE_ONGOING"; issue "i2" "DISPUTE_CLOSED"] ]});
  chat_answer := fun _ =>
    Return (JDict {[ "chat" := JList [chat_message "2024-01-01T12:00:00Z" "BUYER"] ]});
  post_issue_answer := fun _ _ => posted
|}.

(** The same shop when the messages of thread [t1] cannot be fetched. *)
Definition shop_fetch_down : script := {|
  threads_answer := threads_answer shop;
  messages_answer := fun id =>
    if eq_str id "t1" then Raise (HTTPError 500) else messages_answer shop id;
  post_answer := post_answer shop;
  issues_answer := issues_answer shop;
  chat_answer := chat_answer shop;
  post_issue_answer := post_issue_answer shop
|}.

(** The same shop when every post is refused. *)
Definition shop_post_down : script := {|
  threads_answer := threads_answer shop;
  messages_answer := messages_answer shop;
  post_answer := fun _ _ => Raise (HTTPError 503);
  issues_answer := issues_answer shop;
  chat_answer := chat_answer shop;
  post_issue_answer := fun _ _ => Raise (HTTPError 503)
|}.

(** The same shop when the chat of every issue has three messages, the last
    one written by the buyer at noon. *)
Definition shop_long_chat : script := {|
  threads_answer := threads_answer shop;
  messages_answer := messages_answer shop;
  post_answer := post_answer shop;
  issues_answer := issues_answer shop;
  chat_answer := fun _ =>
    Return (JDict {[ "chat" :=
      JList [chat_message "2024-01-01T11:00:00Z" "BUYER";
             chat_message "2024-01-01T11:50:00Z" "SELLER";
             chat_message "2024-01-01T12:00:00Z" "BUYER"] ]});
  post_issue_answer := post_issue_answer shop
|}.

(** The same shop when thread [t1] holds one question, dated 1999 under
    [created]. *)
Definition shop_legacy : script := {|
  threads_answer := threads_answer shop;
  messages_answer := fun _ =>
    Return (JDict {[ "messages" := JList [legacy_question "1999-12-31T23:59:59Z"] ]});
  post_answer := post_answer shop;
  issues_answer := issues_answer shop;
  chat_answer := chat_answer shop;
  post_issue_answer := post_issue_answer shop
|}.

(** Five minutes past noon. *)
Definition five_past : datetime := noon + timedelta_minutes 5.

(** One pass of each processor over a scripted server, at the time [w]. *)
Definition run_threads (sc : script) (st : Settings) (w : datetime) :=
  process_threads sample_fromisoformat (scripted sc) st w w.

Definition run_issues (sc : script) (st : Settings) (w : datetime) :=
  process_issues sample_fromisoformat (scripted sc) st w w.

End samples.

(** ** Observations on traces *)

Module observations.
Import config rules main.

(** Calls to the messaging endpoints, and what the thread processor prints. *)
Definition is_thread_event (ev : event) : bool :=
  match ev with
  | CallListThreads _ _ _ | CallListMessages _ _ | CallPostMessage _ _ _ => true
  | Print line _ => (line =? "post_message error")%string
  | _ => false
  end.

(** Calls to the issue endpoints, and what the issue processor prints. *)
Definition is_issue_event (ev : event) : bool :=
  match ev with
  | CallListIssues _ _ _ | CallListIssueMessages _ _ | CallPostIssueMessage _ _ _ => true
  | Print line _ =>
      (line =? "post_issue_message error")%string || (line =? "processing error")%string
  | _ => false
  end.

Definition is_sleep (ev : event) : bool :=
  match ev with
  | Sleep _ => true
  | _ => false
  end.

(** A reply posted to a thread or to an issue. *)
Definition is_post (ev : event) : bool :=
  match ev with
  | CallPostMessage _ _ _ | CallPostIssueMessage _ _ _ => true
  | _ => false
  end.

(** A fetch of the messages of a thread or of the chat of an issue. *)
Definition is_fetch (ev : event) : bool :=
  match ev with
  | CallListMessages _ _ | CallListIssueMessages _ _ => true
  | _ => false
  end.

Definition count (p : event -> bool) (tr : list event) : nat :=
  length (filter p tr).

(** The text of a posted reply, when the event is one. *)
Definition posted_text (ev : event) : option string :=
  match ev with
  | CallPostMessage _ text _ | CallPostIssueMessage _ text _ => Some text
  | _ => None
  end.

(** What a turn of the thread loop may do: fetch messages, post the
    first-contact template when it is not empty, print a failed post. *)
Definition thread_turn_event (settings : Settings) (ev : event) : Prop :=
  match ev with
  | CallListMessages _ _ => True
  | CallPostMessage _ text _ => text = autoresponse_message settings /\ text <> ""
  | Print line _ => line = "post_message error"
  | _ => False
  end.

(** What a turn of the issue loop may do: fetch a chat, post the issue
    template when it is not empty, print a failed post or a failed turn. *)
Definition issue_turn_event (settings : Settings) (ev : event) : Prop :=
  match ev with
  | CallListIssueMessages _ _ => True
  | CallPostIssueMessage _ text _ => text = autoresponse_issue settings /\ text <> ""
  | Print line _ => line = "post_issue_message error" \/ line = "processing error"
  | _ => False
  end.

(** What a cycle may do: the turns, and the fetch of the first page of
    threads and of issues, of the configured sizes. *)
Definition cycle_event (settings : Settings) (ev : event) : Prop :=
  match ev with
  | CallListThreads limit offset _ =>
      limit = max_threads_per_poll settings /\ offset = 0
  | CallListIssues limit offset _ =>
      limit = max_issues_per_poll settings /\ offset = 0
  | CallListMessages _ _ | CallPostMessage _ _ _ => thread_turn_event settings ev
  | CallListIssueMessages _ _ | CallPostIssueMessage _ _ _ => issue_turn_event settings ev
  | Print _ _ => thread_turn_event settings ev \/ issue_turn_event settings ev
  | Sleep _ => False
  end.

(** What the poll loop may do: the cycles, the print of a failed cycle and
    the sleep of the configured interval. *)
Definition poll_event (settings : Settings) (ev : event) : Prop :=
  match ev with
  | Sleep seconds => seconds = poll_interval_seconds settings
  | Print line _ => line = "[poll] error" \/ cycle_event settings ev
  | _ => cycle_event settings ev
  end.

(** An issue whose identifier and status can be read (lines 146-153). *)
Definition readable_issue (issue : json) : Prop :=
  exists id status, py_get issue "id" JNull = Return id /\ status_of issue = Return status.

End observations.

(** ** app/main.py: the on-demand trigger *)

Module triggers.
Import config rules main.

Section triggers.
Variable fromisoformat : string -> option datetime.
Variable B : Backend.
Variable settings : Settings.

(** [run_once]: one cycle, then the answer of the endpoint. *)
Definition run_once : M (World B) json :=
  process_once fromisoformat B settings ;;;
  ret (JDict {[ "ran" := JBool true ]}).

End triggers.

End triggers.

(** ** More sample data *)

Module more_samples.
Import config rules main samples.



(** The same shop when thread [t1] has no message yet. *)
Definition shop_quiet : script := {|
  threads_answer := threads_answer shop;
  messages_answer := fun _ => Return (JDict {[ "messages" := JList [] ]});
  post_answer := post_answer shop;
  issues_answer := issues_answer shop;
  chat_answer := chat_answer shop;
  post_issue_answer := post_issue_answer shop
|}.

(** The same shop when the chats of the issues cannot be fetched. *)
Definition shop_chat_down : script := {|
  threads_answer := threads_answer shop;
  messages_answer := messages_answer shop;
  post_answer := post_answer shop;
  issues_answer := issues_answer shop;
  chat_answer := fun _ => Raise (HTTPError 502);
  post_issue_answer := post_issue_answer shop
|}.

(** The sample settings with the issue processor switched off. *)
Definition threads_only_settings : Settings := {|
  client_id := "id";
  client_secret := "secret";
  refresh_token := "token";
  environment := "production";
  poll_interval_seconds := 60;
  max_threads_per_poll := 5;
  max_issues_per_poll := 5;
  tz := "Europe/Warsaw";
  work_hours_start := 9;
  work_hours_end := 17;
  autoresponse_message := "Dziekujemy za kontakt!";
  autoresponse_issue := "Dziekujemy za zgloszenie problemu.";
  reply_outside_working_hours := true;
  reply_only_first_message := true;
  config.process_issues := false
|}.

(** A quarter past noon. *)
Definition quarter_past : datetime := noon + timedelta_minutes 15.

End more_samples.

(** ** app/config.py: the settings read from the environment *)

Module environment.
Import config.

(** [os.environ], once [load_dotenv()] has run. *)
Definition environ : Type := gmap string string.

(** [os.getenv(key, default)] *)
Definition getenv (env : environ) (key dflt : string) : string :=
  default dflt (env !! key).

(** [s.lower()], on the ASCII letters.  The bytes of the other characters
    are kept; the two uses of [lower] in the program compare its result
    with ["true"] and look for ["sandbox"] at its start, and no character
    outside ASCII lowers to one of their letters. *)
Definition lower_byte (c : ascii) : ascii :=
  let n := N_of_ascii c in
  if (65 <=? n)%N && (n <=? 90)%N then ascii_of_N (n + 32) else c.

Fixpoint lower (s : string) : string :=
  match s with
  | EmptyString => EmptyString
  | String c s' => String (lower_byte c) (lower s')
  end.

(** [s.startswith(prefix)] *)
Definition startswith (s prefix : string) : bool := String.prefix prefix s.

Definition default_autoresponse_message : string :=
  "Dziękujemy za kontakt! Wkrótce wrócimy z odpowiedzią.                 Wiadomość automatyczna)".

Definition default_autoresponse_issue : string :=
  "Dziękujemy za zgłoszenie problemu. Sprawdzimy sprawę i wkrótce się                 z Tobą skontaktujemy.".

Section get_settings.
(** [int(s)] on a string: the number it denotes, or [ValueError]. *)
Variable py_int : string -> option Z.

(** [int(os.getenv(key, default))] *)
Definition int_getenv (env : environ) (key dflt : string) : result Z :=
  match py_int (getenv env key dflt) with
  | Some n => Return n
  | None => Raise ValueError
  end.

(** [os.getenv(key, "true").lower() == "true"] *)
Definition flag_getenv (env : environ) (key : string) : bool :=
  (lower (getenv env key "true") =? "true")%string.

(** [get_settings]: a [Settings] made from the environment, each field by
    its default factory, in the order of the fields.  The default of [tz]
    is not made here: the zone named by [BUSINESS_TZ] is looked up once,
    when the class is defined, and [tz] is that zone. *)
Definition get_settings (tz : string) (env : environ) : result Settings :=
  let? poll_interval_seconds := int_getenv env "POLL_INTERVAL" "60" in
  let? max_threads_per_poll := int_getenv env "MAX_THREADS" "5" in
  let? max_issues_per_poll := int_getenv env "MAX_ISSUES" "5" in
  let? work_hours_start := int_getenv env "WORK_START_H" "9" in
  let? work_hours_end := int_getenv env "WORK_END_H" "17" in
  Return {|
    client_id := getenv env "ALLEGRO_CLIENT_ID" "";
    client_secret := getenv env "ALLEGRO_CLIENT_SECRET" "";
    refresh_token := getenv env "ALLEGRO_REFRESH_TOKEN" "";
    environment := getenv env "ALLEGRO_ENV" "production";
    poll_interval_seconds := poll_interval_seconds;
    max_threads_per_poll := max_threads_per_poll;
    max_issues_per_poll := max_issues_per_poll;
    tz := tz;
    work_hours_start := work_hours_start;
    work_hours_end := work_hours_end;
    autoresponse_message := getenv env "TEMPLATE_FIRST_CONTACT" default_autoresponse_message;
    autoresponse_issue := getenv env "TEMPLATE_ISSUE" default_autoresponse_issue;
    reply_outside_working_hours := flag_getenv env "REPLY_AFTER_HOURS";
    reply_only_first_message := flag_getenv env "REPLY_ONLY_FIRST";
    config.process_issues := flag_getenv env "PROCESS_ISSUES"
  |}.

End get_settings.

End environment.

(** ** app/allegro.py: the client and its access token *)

(** [a == b] on decoded JSON values: numbers and booleans by their value,
    lists item by item, dicts key by key; values of different kinds are
    different. *)
Fixpoint py_eq (a b : json) {struct a} : bool :=
  match a, b with
  | JNull, JNull => true
  | JBool x, JBool y => Bool.eqb x y
  | JBool x, JInt y => (Z.b2z x =? y)%Z
  | JInt x, JBool y => (x =? Z.b2z y)%Z
  | JInt x, JInt y => (x =? y)%Z
  | JStr s, JStr t => (s =? t)%string
  | JList l, JList l' =>
      (fix items (l l' : list json) {struct l} : bool :=
         match l, l' with
         | [], [] => true
         | x :: r, y :: r' => py_eq x y && items r r'
         | _, _ => false
         end) l l'
  | JDict m, JDict n =>
      (size m =? size n)%nat
      && map_fold (fun k v acc =>
                     acc && match n !! k with
                            | Some v' => py_eq v v'
                            | None => false
                            end) true m
  | _, _ => false
  end.

(** The digits of Base64. *)
Definition b64_digit (n : N) : ascii :=
  if (n <? 26)%N then ascii_of_N (65 + n)
  else if (n <? 52)%N then ascii_of_N (97 + (n - 26))
  else if (n <? 62)%N then ascii_of_N (48 + (n - 52))
  else if (n =? 62)%N then "+"%char
  else "/"%char.

(** [base64.b64encode(s).decode()] on the bytes of [s]. *)
Fixpoint b64encode (s : string) : string :=
  match s with
  | EmptyString => EmptyString
  | String a EmptyString =>
      let x := N_of_ascii a in
      String (b64_digit (x / 4)) (String (b64_digit (x mod 4 * 16)) "==")
  | String a (String b EmptyString) =>
      let x := N_of_ascii a in
      let y := N_of_ascii b in
      String (b64_digit (x / 4))
        (String (b64_digit (x mod 4 * 16 + y / 16))
           (String (b64_digit (y mod 16 * 4)) "="))
  | String a (String b (String c s')) =>
      let x := N_of_ascii a in
      let y := N_of_ascii b in
      let z := N_of_ascii c in
      String (b64_digit (x / 4))
        (String (b64_digit (x mod 4 * 16 + y / 16))
           (String (b64_digit (y mod 16 * 4 + z / 64))
              (String (b64_digit (z mod 64)) (b64encode s'))))
  end.

Module allegro.
Import config environment.

(** What the code of the client can meet: the exceptions of the HTTP
    exchange and of wrong kinds of values, those of a missing key, of a
    date out of range and of a failed [assert], and those of the file
    system. *)
Inductive failure : Type :=
| Raised (e : exn)
| KeyError (key : string)
| OverflowError
| AssertionError (message : string)
| OSError (what : string).

(** The client object.  [settings_refresh_token] is [settings.refresh_token]:
    the one field of the shared settings that the client assigns, with
    whatever value the token response holds, so it is kept as a JSON value
    beside the settings the client was made from. *)
Record AllegroClient : Type := {
  settings : Settings;
  settings_refresh_token : json;
  _token : json;
  _token_expiry : datetime;
  api_base : string;
  oauth_base : string
}.

(** What the client does to the outside: the POST to the token endpoint
    (its URL, its [Authorization] header and the [refresh_token] of its
    form; the other header and [grant_type] are constants), the write of
    [ALLEGRO_REFRESH_TOKEN] to the [.env] file, and the log lines. *)
Inductive effect : Type :=
| PostToken (url authorization : string) (refresh_token : json) (r : result json)
| SetKey (value : json) (r : failure + unit)
| LogInfo (line : string)
| LogWarning (line : string) (f : failure).

(** The outside of the client: the clock, the token endpoint (the POST, the
    check of its status and the decoding of its body) and [set_key]. *)
Record Outside : Type := {
  State : Type;
  datetime_now : State -> datetime * State;
  client_post : string -> string -> json -> State -> result json * State;
  set_key : json -> State -> (failure + unit) * State
}.

Record run (W A : Type) : Type := {
  answer : failure + A;
  self : AllegroClient;
  outside : W;
  effects : list effect
}.
Arguments answer {W A} r.
Arguments self {W A} r.
Arguments outside {W A} r.
Arguments effects {W A} r.

(** A method: it starts from the client and the outside as they are, and
    leaves them as it made them, whether it returns or raises. *)
Definition Method (W A : Type) : Type := AllegroClient -> W -> run W A.

Definition pure {W A : Type} (a : A) : Method W A :=
  fun c w => {| answer := inr a; self := c; outside := w; effects := [] |}.

Definition raise {W A : Type} (f : failure) : Method W A :=
  fun c w => {| answer := inl f; self := c; outside := w; effects := [] |}.

Definition and_then {W A B : Type} (m : Method W A) (k : A -> Method W B) : Method W B :=
  fun c w =>
    let r := m c w in
    match answer r with
    | inr a =>
        let r' := k a (self r) (outside r) in
        {| answer := answer r'; self := self r'; outside := outside r';
           effects := effects r ++ effects r' |}
    | inl f =>
        {| answer := inl f; self := self r; outside := outside r; effects := effects r |}
    end.

#[local] Notation "x <- m ;; k" := (and_then m (fun x => k))
  (at level 100, m at next level, right associativity).
#[local] Notation "m ;;; k" := (and_then m (fun _ => k))
  (at level 100, right associativity).

(** [self.field] *)
Definition get {W A : Type} (field : AllegroClient -> A) : Method W A :=
  fun c w => {| answer := inr (field c); self := c; outside := w; effects := [] |}.

(** [self._token = token] *)
Definition set_token {W : Type} (token : json) : Method W unit :=
  fun c w =>
    {| answer := inr tt;
       self := {| settings := settings c;
                  settings_refresh_token := settings_refresh_token c;
                  _token := token;
                  _token_expiry := _token_expiry c;
                  api_base := api_base c;
                  oauth_base := oauth_base c |};
       outside := w; effects := [] |}.

(** [self._token_expiry = expiry] *)
Definition set_token_expiry {W : Type} (expiry : datetime) : Method W unit :=
  fun c w =>
    {| answer := inr tt;
       self := {| settings := settings c;
                  settings_refresh_token := settings_refresh_token c;
                  _token := _token c;
                  _token_expiry := expiry;
                  api_base := api_base c;
                  oauth_base := oauth_base c |};
       outside := w; effects := [] |}.

(** [self.settings.refresh_token = value] *)
Definition set_refresh_token {W : Type} (value : json) : Method W unit :=
  fun c w =>
    {| answer := inr tt;
       self := {| settings := settings c;
                  settings_refresh_token := value;
                  _token := _token c;
                  _token_expiry := _token_expiry c;
                  api_base := api_base c;
                  oauth_base := oauth_base c |};
       outside := w; effects := [] |}.

Definition log_info {W : Type} (line : string) : Method W unit :=
  fun c w => {| answer := inr tt; self := c; outside := w; effects := [LogInfo line] |}.

(** Code without effects that may raise. *)
Definition of_result {W A : Type} (r : result A) : Method W A :=
  match r with
  | Return a => pure a
  | Raise e => raise (Raised e)
  end.

Definition of_sum {W A : Type} (r : failure + A) : Method W A :=
  match r with
  | inr a => pure a
  | inl f => raise f
  end.

(** [payload[key]] for a string [key]: only a dict can be indexed by a
    string, and the key has to be there. *)
Definition getitem (payload : json) (key : string) : failure + json :=
  match payload with
  | JDict m =>
      match m !! key with
      | Some v => inr v
      | None => inl (KeyError key)
      end
  | _ => inl (Raised TypeError)
  end.

(** [timedelta(seconds=n)]: the days of a [timedelta] are at most
    999999999 in magnitude. *)
Definition timedelta_seconds (n : Z) : failure + timedelta :=
  if (-999999999 <=? n / 86400)%Z && (n / 86400 <=? 999999999)%Z
  then inr (n * 1000000)%Z
  else inl OverflowError.

(** 0001-01-01T00:00:00 and 9999-12-31T23:59:59.999999, UTC. *)
Definition datetime_min : datetime := -62135596800000000.
Definition datetime_max : datetime := 253402300799999999.

(** [t + d] for a [datetime] in UTC: the years of a [datetime] are 1 to
    9999. *)
Definition datetime_add (t : datetime) (d : timedelta) : failure + datetime :=
  if (datetime_min <=? t + d)%Z && (t + d <=? datetime_max)%Z
  then inr (t + d)%Z
  else inl OverflowError.

Section client.
(** [int(s)] on a string: the number it denotes, or [ValueError]. *)
Variable py_int : string -> option Z.
Variable O : Outside.

(** [int(v)] on a decoded JSON value. *)
Definition int_of (v : json) : failure + Z :=
  match v with
  | JInt n => inr n
  | JBool b => inr (Z.b2z b)
  | JStr s =>
      match py_int s with
      | Some n => inr n
      | None => inl (Raised ValueError)
      end
  | _ => inl (Raised TypeError)
  end.

(** [settings.environment.lower().startswith("sandbox")] *)
Definition sandbox (st : Settings) : bool :=
  startswith (lower (environment st)) "sandbox".

(** [AllegroClient(settings)] *)
Definition __init__ (st : Settings) (w : State O) : AllegroClient * State O :=
  let now := datetime_now O w in
  ({| settings := st;
      settings_refresh_token := JStr (refresh_token st);
      _token := JNull;
      _token_expiry := fst now;
      api_base := if sandbox st then "https://api.allegro.pl.allegrosandbox.pl"
                  else "https://api.allegro.pl";
      oauth_base := if sandbox st then "https://allegro.pl.allegrosandbox.pl/auth/oauth"
                    else "https://allegro.pl/auth/oauth" |},
   snd now).

(** [datetime.now(timezone.utc)] *)
Definition now_utc : Method (State O) datetime :=
  fun c w =>
    let now := datetime_now O w in
    {| answer := inr (fst now); self := c; outside := snd now; effects := [] |}.

(** The POST to the token endpoint, [r.raise_for_status()] and
    [r.json()]. *)
Definition post_token (url authorization : string) (refresh_token : json)
  : Method (State O) json :=
  fun c w =>
    let r := client_post O url authorization refresh_token w in
    {| answer := match fst r with
                 | Return payload => inr payload
                 | Raise e => inl (Raised e)
                 end;
       self := c; outside := snd r;
       effects := [PostToken url authorization refresh_token (fst r)] |}.

(** The [try] of lines 71-77: the write to the [.env] file and the log
    line of its success or of its failure. *)
Definition persist (value : json) : Method (State O) unit :=
  fun c w =>
    let r := set_key O value w in
    {| answer := inr tt; self := c; outside := snd r;
       effects := [SetKey value (fst r);
                   match fst r with
                   | inr _ => LogInfo "_ensure_token: Updated refresh token in .env file"
                   | inl f =>
                       LogWarning "_ensure_token: Failed to update refresh token in .env" f
                   end] |}.

(** [self._token and datetime.now(timezone.utc) < self._token_expiry]: the
    clock is read only when there is a token. *)
Definition token_is_fresh : Method (State O) bool :=
  token <- get _token ;;
  if truthy token then
    now <- now_utc ;;
    expiry <- get _token_expiry ;;
    pure (now <? expiry)%Z
  else pure false.

(** Lines 43-81 of [_ensure_token]: a new access token is asked for with
    the refresh token, and the client keeps it, the time it is good until
    and the next refresh token. *)
Definition request_token : Method (State O) json :=
  st <- get settings ;;
  let basic := b64encode (client_id st ++ ":" ++ client_secret st) in
  refresh_token <- get settings_refresh_token ;;
  base <- get oauth_base ;;
  payload <- post_token (base ++ "/token") ("Basic " ++ basic) refresh_token ;;
  token <- of_sum (getitem payload "access_token") ;;
  set_token token ;;;
  now <- now_utc ;;
  expires_in <- of_result (py_get payload "expires_in" (JInt 3600)) ;;
  seconds <- of_sum (int_of expires_in) ;;
  delta <- of_sum (timedelta_seconds (seconds - 120)) ;;
  expiry <- of_sum (datetime_add now delta) ;;
  set_token_expiry expiry ;;;
  new_refresh_token <- of_result (py_get payload "refresh_token" JNull) ;;
  current <- get settings_refresh_token ;;
  (if truthy new_refresh_token && negb (py_eq new_refresh_token current)
   then set_refresh_token new_refresh_token ;;; persist new_refresh_token
   else pure tt) ;;;
  token <- get _token ;;
  if truthy token then
    log_info "_ensure_token: Obtained new access token" ;;;
    get _token
  else raise (AssertionError "Failed to obtain access token").

Definition _ensure_token : Method (State O) json :=
  fresh <- token_is_fresh ;;
  if fresh : bool then get _token else request_token.

End client.

End allegro.


(** ** Vocabulary for the settings and the client *)

Module client_observations.
Import config environment allegro.

(** [s] is [word] up to the case of its letters ([word] in lower case). *)
Fixpoint any_case (word s : string) : Prop :=
  match word, s with
  | EmptyString, EmptyString => True
  | String a word', String c s' =>
      (c = a \/ (N_of_ascii c + 32 = N_of_ascii a)%N) /\ any_case word' s'
  | _, _ => False
  end.

(** Made of the letters [a] to [z] only. *)
Fixpoint lower_case_word (word : string) : bool :=
  match word with
  | EmptyString => true
  | String a word' =>
      (97 <=? N_of_ascii a)%N && (N_of_ascii a <=? 122)%N && lower_case_word word'
  end.

(** A switch of the environment that is left unset, or set to [true] in
    any case. *)
Definition says_true (v : option string) : Prop :=
  match v with
  | None => True
  | Some t => any_case "true" t
  end.

(** The variables that hold numbers, with their defaults. *)
Definition numeric_variables : list (string * string) :=
  [ ("POLL_INTERVAL", "60"); ("MAX_THREADS", "5"); ("MAX_ISSUES", "5");
    ("WORK_START_H", "9"); ("WORK_END_H", "17") ].

Definition is_post_token (ef : effect) : bool :=
  match ef with
  | PostToken _ _ _ _ => true
  | _ => false
  end.

Definition is_set_key (ef : effect) : bool :=
  match ef with
  | SetKey _ _ => true
  | _ => false
  end.

(** The [expires_in] of a token response, 3600 when it has none. *)
Definition expires_in_of (m : gmap string json) : json :=
  default (JInt 3600) (m !! "expires_in").

(** The [refresh_token] of a token response, [None] when it has none. *)
Definition refresh_token_of (m : gmap string json) : json :=
  default JNull (m !! "refresh_token").

(** The request [request_token] sends from the client [c]. *)
Definition token_url (c : AllegroClient) : string := oauth_base c ++ "/token".

Definition token_authorization (c : AllegroClient) : string :=
  "Basic " ++ b64encode (client_id (settings c) ++ ":" ++ client_secret (settings c)).

(** The time a token response is good until, for a client that read the
    clock at [issued]: its [expires_in] less two minutes, as
    [request_token] computes it. *)
Definition good_until (py_int : string -> option Z) (m : gmap string json)
    (issued : datetime) : failure + datetime :=
  match int_of py_int (expires_in_of m) with
  | inr seconds =>
      match timedelta_seconds (seconds - 120) with
      | inr delta => datetime_add issued delta
      | inl f => inl f
      end
  | inl f => inl f
  end.

(** The client [c] with another token, expiry and refresh token. *)
Definition with_token (c : AllegroClient) (token : json) (expiry : datetime)
    (refresh_token : json) : AllegroClient :=
  {| settings := settings c;
     settings_refresh_token := refresh_token;
     _token := token;
     _token_expiry := expiry;
     api_base := api_base c;
     oauth_base := oauth_base c |}.

(** The run [r] after the effects [efs]. *)
Definition preceded {W A : Type} (efs : list effect) (r : run W A) : run W A :=
  {| answer := answer r; self := self r; outside := outside r;
     effects := efs ++ effects r |}.

Section exchanges.
Variable O : Outside.

(** The POST [request_token] makes from the client [c], the effect it
    leaves, and the read of the clock that follows it. *)
Definition exchange (c : AllegroClient) (w : State O) : result json * State O :=
  client_post O (token_url c) (token_authorization c) (settings_refresh_token c) w.

Definition sent (c : AllegroClient) (w : State O) : effect :=
  PostToken (token_url c) (token_authorization c) (settings_refresh_token c)
    (fst (exchange c w)).

Definition issued (c : AllegroClient) (w : State O) : datetime * State O :=
  datetime_now O (snd (exchange c w)).

End exchanges.

(** A token response brings a refresh token that is not the one of the
    client. *)
Definition rotates (m : gmap string json) (c : AllegroClient) : bool :=
  truthy (refresh_token_of m)
  && negb (py_eq (refresh_token_of m) (settings_refresh_token c)).

End client_observations.

(** ** Sample environment and token endpoint *)

Module client_samples.
Import config environment allegro.

(** A table standing for [int] on the sample strings. *)
Definition sample_int (s : string) : option Z :=
  if (s =? "60")%string then Some 60
  else if (s =? "5")%string then Some 5
  else if (s =? "9")%string then Some 9
  else if (s =? "17")%string then Some 17
  else if (s =? "30")%string then Some 30
  else if (s =? "3600")%string then Some 3600
  else None.

(** A deployment on the sandbox that polls every 30 seconds and has the
    issue processor switched off. *)
Definition sample_environ : environ :=
  {[ "ALLEGRO_CLIENT_ID" := "id";
     "ALLEGRO_CLIENT_SECRET" := "secret";
     "ALLEGRO_REFRESH_TOKEN" := "r0";
     "ALLEGRO_ENV" := "Sandbox";
     "POLL_INTERVAL" := "30";
     "REPLY_ONLY_FIRST" := "TRUE";
     "PROCESS_ISSUES" := "no";
     "TEMPLATE_FIRST_CONTACT" := "" ]}.

(** The settings of that deployment, in the zone [Europe/Warsaw]. *)
Definition sample_deployment : Settings := {|
  client_id := "id";
  client_secret := "secret";
  refresh_token := "r0";
  environment := "Sandbox";
  poll_interval_seconds := 30;
  max_threads_per_poll := 5;
  max_issues_per_poll := 5;
  tz := "Europe/Warsaw";
  work_hours_start := 9;
  work_hours_end := 17;
  autoresponse_message := "";
  autoresponse_issue := default_autoresponse_issue;
  reply_outside_working_hours := true;
  reply_only_first_message := true;
  config.process_issues := false
|}.

(** A scripted token endpoint: what the POST answers and what the write to
    the [.env] file does.  The state of the outside is the clock. *)
Record token_script : Type := {
  token_answer : result json;
  set_key_answer : failure + unit
}.

Definition scripted_outside (sc : token_script) : Outside := {|
  State := datetime;
  datetime_now := fun w => (w, w);
  client_post := fun _ _ _ w => (token_answer sc, w);
  set_key := fun _ w => (set_key_answer sc, w)
|}.

(** A token good for an hour, with the next refresh token. *)
Definition token_fields : gmap string json :=
  {[ "access_token" := JStr "a1";
     "expires_in" := JInt 3600;
     "refresh_token" := JStr "r1" ]}.

Definition token_response : json := JDict token_fields.

(** A token whose lifetime is not a number. *)
Definition timeless_fields : gmap string json :=
  {[ "access_token" := JStr "a2"; "expires_in" := JStr "soon" ]}.

Definition endpoint : token_script := {|
  token_answer := Return token_response;
  set_key_answer := inr tt
|}.

(** The same endpoint when the [.env] file cannot be written. *)
Definition endpoint_read_only : token_script := {|
  token_answer := Return token_response;
  set_key_answer := inl (OSError "Read-only file system")
|}.

(** The endpoint when it answers with the token without a lifetime. *)
Definition endpoint_timeless : token_script := {|
  token_answer := Return (JDict timeless_fields);
  set_key_answer := inr tt
|}.

(** The client of the sample deployment, made at noon. *)
Definition new_client : AllegroClient :=
  fst (__init__ (scripted_outside endpoint) sample_deployment samples.noon).

(** The same client after a response with an empty token, good for an
    hour from noon: it holds the empty token and its expiry. *)
Definition client_without_token : AllegroClient := {|
  settings := sample_deployment;
  settings_refresh_token := JStr "r1";
  _token := JStr "";
  _token_expiry := samples.noon + 3480 * 1000000;
  api_base := "https://api.allegro.pl.allegrosandbox.pl";
  oauth_base := "https://allegro.pl.allegrosandbox.pl/auth/oauth"
|}.

End client_samples.

(** * Properties *)

Import config rules main.

(** ** The decision engine *)


(** C2: two configurations that differ only in the business time zone,
    the work-hour window and the two reply toggles get the same decision
    for the same [now], message time and category. *)
Theorem decide_autoreply_ignores_hours_and_toggles :
  forall (s1 s2 : Settings) (now msg_time : datetime) (is_issue : bool),
    same_but_hours_and_toggles s1 s2 ->
    decide_autoreply now msg_time s1 is_issue
    = decide_autoreply now msg_time s2 is_issue.
Proof.
  intros s1 s2 now msg_time is_issue H.
  destruct H as (_ & _ & _ & _ & _ & _ & _ & Hmsg & Hissue & _).
  unfold decide_autoreply. rewrite Hmsg, Hissue. reflexivity.
Qed.

Lemma decide_autoreply_ignores_hours_and_toggles_witness :
  same_but_hours_and_toggles samples.sample_settings samples.night_settings
  /\ tz samples.sample_settings <> tz samples.night_settings
  /\ decide_autoreply samples.five_past samples.noon samples.sample_settings false
     = decide_autoreply samples.five_past samples.noon samples.night_settings false.
Proof.
  split; [ | split ].
  - repeat split.
  - discriminate.
  - apply (decide_autoreply_ignores_hours_and_toggles
             samples.sample_settings samples.night_settings).
    repeat split.
Defined.

(** ** Running the monad *)

(** The trace in [H] holds one event, which is not the one looked for. *)
Ltac only_event H :=
  let E := fresh "E" in destruct H as [ E | [] ]; discriminate E.

Section running.
Context {W : Type}.

Lemma bindM_lift_Return {A C : Type} (a : A) (f : A -> M W C) (w : W) :
  bindM (lift (Return a)) f w = f a w.
Proof. unfold bindM, lift; simpl. destruct (f a w); reflexivity. Qed.

Lemma bindM_call {C : Type} (g : W -> result json * W) (ev : result json -> event)
    (f : json -> M W C) (w : W) :
  bindM (call g ev) f w
  = match fst (g w) with
    | Return a => prepend [ev (Return a)] (f a (snd (g w)))
    | Raise e => {| value := Raise e; world := snd (g w); trace := [ev (Raise e)] |}
    end.
Proof. unfold bindM, call; simpl. destruct (fst (g w)); reflexivity. Qed.

Lemma for_each_cons (body : json -> M W unit) (x : json) (l : list json) (w : W) :
  value (body x w) = Return tt ->
  trace (for_each body (x :: l) w)
  = (trace (body x w) ++ trace (for_each body l (world (body x w))))%list
  /\ value (for_each body (x :: l) w) = value (for_each body l (world (body x w))).
Proof.
  intros H. simpl. unfold bindM. rewrite H. split; reflexivity.
Qed.

(** An event of a loop is an event of one of its turns, and that turn's
    events are all in the trace of the loop. *)
Lemma for_each_event (body : json -> M W unit) (l : list json) (w : W) (ev : event) :
  In ev (trace (for_each body l w)) ->
  exists x w0,
    In x l /\ In ev (trace (body x w0))
    /\ forall ev', In ev' (trace (body x w0)) -> In ev' (trace (for_each body l w)).
Proof.
  revert w. induction l as [ | x l IH ]; intros w H.
  - destruct H.
  - simpl in H |- *. unfold bindM in H |- *.
    destruct (value (body x w)) as [ [] | e ] eqn:Hv; simpl in H |- *.
    + apply in_app_or in H. destruct H as [ H | H ].
      * exists x, w. split; [ left; reflexivity | ]. split; [ exact H | ].
        intros ev' H'. apply in_or_app. left. exact H'.
      * destruct (IH _ H) as (y & w0 & Hy & Hev & Hsub).
        exists y, w0. split; [ right; exact Hy | ]. split; [ exact Hev | ].
        intros ev' H'. apply in_or_app. right. apply Hsub. exact H'.
    + exists x, w. split; [ left; reflexivity | ]. split; [ exact H | ].
      intros ev' H'. exact H'.
Qed.

Lemma try_except_value (m : M W unit) (line : string) (w : W) :
  value (try_except m (fun e => emit (Print line e)) w) = Return tt.
Proof.
  unfold try_except, emit. destruct (m w) as [ [ [] | e ] w' tr ]; reflexivity.
Qed.
End running.

(** ** The reply to the last message *)

Section replying.
Variable fromisoformat : string -> option datetime.
Variable B : Backend.
Variable settings : Settings.

(** The timestamp parser never raises and computes the message time of
    the specification. *)
Lemma parse_timestamp_msg_time (v : json) (now : datetime) :
  parse_timestamp fromisoformat v now = Return (msg_time_spec fromisoformat v now).
Proof.
  unfold parse_timestamp, msg_time_spec.
  destruct v as [ | b | z | s | l | m ]; simpl.
  - reflexivity.
  - destruct b; reflexivity.
  - destruct (z =? 0)%Z; reflexivity.
  - destruct s as [ | c s ]; simpl; [ reflexivity | ].
    unfold py_fromisoformat.
    destruct (fromisoformat _); reflexivity.
  - destruct l; reflexivity.
  - destruct (bool_decide (m = ∅)); reflexivity.
Qed.

Lemma post_reply_value (d : Decision) (post : string -> M (World B) json)
    (line : string) (w : World B) :
  value (post_reply B d post line w) = Return tt.
Proof.
  unfold post_reply. destruct (message d) as [ text | ]; [ | reflexivity ].
  destruct (should_reply d && negb (text =? "")%string); [ | reflexivity ].
  apply try_except_value.
Qed.

(** What a reply leaves in the trace: one call of the post method with the
    text of the decision, and a [print] when that call raised. *)
Lemma post_reply_trace (d : Decision) (g : string -> World B -> result json * World B)
    (ev : string -> result json -> event) (line : string) (w : World B) :
  trace (post_reply B d (fun text => call (g text) (ev text)) line w)
  = match message d with
    | Some text =>
        if should_reply d && negb (text =? "")%string
        then ev text (fst (g text w)) :: print_of line (fst (g text w))
        else []
    | None => []
    end.
Proof.
  unfold post_reply. destruct (message d) as [ text | ]; [ | reflexivity ].
  destruct (should_reply d && negb (text =? "")%string); [ | reflexivity ].
  unfold try_except, bindM, call, emit, ret; simpl.
  destruct (fst (g text w)); reflexivity.
Qed.

Lemma thread_reply_eligible (id : json) (now : datetime) (last : json) (w : World B) :
  flagged_as_interlocutor last = true ->
  has_type last "ASK_QUESTION" = true ->
  thread_reply fromisoformat B settings id now last w
  = post_reply B
      (decide_autoreply now (msg_time_spec fromisoformat (created_at_of last) now)
         settings false)
      (fun text => call (post_message B id text) (CallPostMessage id text))
      "post_message error" w.
Proof.
  unfold flagged_as_interlocutor, has_type, created_at_of, thread_reply.
  intros Hflag Htype.
  destruct last as [ | | | | | m ]; try discriminate Hflag.
  simpl in Hflag, Htype |- *. rewrite bindM_lift_Return.
  destruct (py_get (default (JDict ∅) (m !! "author")) "isInterlocutor" (JBool false))
    as [ flag | ]; [ | discriminate ].
  rewrite !bindM_lift_Return. rewrite Hflag, Htype. simpl.
  rewrite bindM_lift_Return, parse_timestamp_msg_time, bindM_lift_Return.
  reflexivity.
Qed.

Lemma thread_reply_ineligible (id : json) (now : datetime) (last : json) (w : World B) :
  flagged_as_interlocutor last = false \/ has_type last "ASK_QUESTION" = false ->
  trace (thread_reply fromisoformat B settings id now last w) = [].
Proof.
  unfold flagged_as_interlocutor, has_type, thread_reply.
  intros H.
  destruct (py_get last "author" (JDict ∅)) as [ author | ]; [ | reflexivity ].
  rewrite bindM_lift_Return.
  destruct (py_get author "isInterlocutor" (JBool false)) as [ flag | ];
    [ | reflexivity ].
  rewrite bindM_lift_Return.
  destruct (py_get last "type" (JStr "")) as [ type | ]; [ | reflexivity ].
  rewrite bindM_lift_Return.
  destruct (truthy flag); simpl; [ | reflexivity ].
  destruct (eq_str type "ASK_QUESTION"); simpl; [ | reflexivity ].
  destruct H; discriminate.
Qed.

(** A reply to a thread is posted to that thread, and only when its last
    message is a question of the interlocutor. *)
Lemma thread_reply_post (id : json) (now : datetime) (last : json) (w : World B)
    (id' : json) (text : string) (r : result json) :
  In (CallPostMessage id' text r)
     (trace (thread_reply fromisoformat B settings id now last w)) ->
  id' = id
  /\ flagged_as_interlocutor last = true
  /\ has_type last "ASK_QUESTION" = true.
Proof.
  intros H.
  destruct (flagged_as_interlocutor last) eqn:Hflag;
    [ | rewrite thread_reply_ineligible in H by (left; exact Hflag); destruct H ].
  destruct (has_type last "ASK_QUESTION") eqn:Htype;
    [ | rewrite thread_reply_ineligible in H by (right; exact Htype); destruct H ].
  rewrite thread_reply_eligible in H by assumption.
  rewrite post_reply_trace in H.
  destruct (message _) as [ text0 | ]; [ | destruct H ].
  destruct (should_reply _ && _); [ | destruct H ].
  destruct H as [ H | H ].
  - inversion H. auto.
  - destruct (fst _); simpl in H; [ destruct H | ].
    destruct H as [ H | [] ]. discriminate.
Qed.
End replying.

(** ** The thread processor *)

Section threads.
Variable fromisoformat : string -> option datetime.
Variable B : Backend.
Variable settings : Settings.

Lemma bindM_now {C : Type} (f : datetime -> M (World B) C) (w : World B) :
  bindM (now_utc B) f w = f (fst (utcnow B w)) (snd (utcnow B w)).
Proof. unfold bindM, now_utc; simpl. destruct (f _ _); reflexivity. Qed.

(** The turn of the loop for a thread with an identifier, fetched
    messages and a last message: the fetch, then the reply to the last
    message, decided at the [now] read at the start of the turn. *)
Lemma process_thread_run (th : json) (w : World B) (id payload last : json) :
  thread_id_of th = Return id ->
  truthy id = true ->
  fst (list_messages B id (snd (utcnow B w))) = Return payload ->
  thread_last_message payload = Some last ->
  process_thread fromisoformat B settings th w
  = prepend [CallListMessages id (Return payload)]
      (thread_reply fromisoformat B settings id (fst (utcnow B w)) last
         (snd (list_messages B id (snd (utcnow B w))))).
Proof.
  intros Hid Htruthy Hfetch Hlast.
  unfold process_thread. rewrite bindM_now, Hid, bindM_lift_Return, Htruthy. simpl.
  rewrite bindM_call, Hfetch.
  unfold thread_last_message, last_message_of in Hlast.
  destruct (get_or_get payload "messages" "items") as [ messages | ];
    [ | discriminate ].
  rewrite bindM_lift_Return.
  destruct (truthy messages); [ | discriminate ]. simpl.
  destruct (py_sort _ts messages) as [ sorted | ]; [ | discriminate ].
  rewrite bindM_lift_Return.
  destruct (py_last sorted) as [ m | ]; [ | discriminate ].
  rewrite bindM_lift_Return. congruence.
Qed.

(** A turn of the loop either reaches the reply to a last message or
    posts nothing. *)
Lemma process_thread_cases (th : json) (w : World B) :
  (exists id payload last,
      thread_id_of th = Return id /\ truthy id = true
      /\ fst (list_messages B id (snd (utcnow B w))) = Return payload
      /\ thread_last_message payload = Some last)
  \/ (forall id text r,
         ~ In (CallPostMessage id text r)
              (trace (process_thread fromisoformat B settings th w))).
Proof.
  destruct (thread_id_of th) as [ tid | ] eqn:Hid;
    [ | right; intros id text r H; unfold process_thread in H;
        rewrite bindM_now, Hid in H; destruct H ].
  destruct (truthy tid) eqn:Htruthy;
    [ | right; intros id text r H; unfold process_thread in H;
        rewrite bindM_now, Hid, bindM_lift_Return, Htruthy in H; destruct H ].
  destruct (fst (list_messages B tid (snd (utcnow B w)))) as [ payload | e ] eqn:Hfetch;
    [ | right; intros id text r H; unfold process_thread in H;
        rewrite bindM_now, Hid, bindM_lift_Return, Htruthy in H; simpl in H;
        rewrite bindM_call, Hfetch in H; only_event H ].
  destruct (thread_last_message payload) as [ last | ] eqn:Hlast;
    [ left; exists tid, payload, last; auto | ].
  right. intros id text r H. unfold process_thread in H.
  rewrite bindM_now, Hid, bindM_lift_Return, Htruthy in H; simpl in H.
  rewrite bindM_call, Hfetch in H.
  unfold thread_last_message, last_message_of in Hlast.
  destruct (get_or_get payload "messages" "items") as [ messages | ];
    [ | only_event H ].
  rewrite bindM_lift_Return in H.
  destruct (truthy messages);
    [ | only_event H ].
  simpl in H.
  destruct (py_sort _ts messages) as [ sorted | ];
    [ | only_event H ].
  rewrite bindM_lift_Return in H.
  destruct (py_last sorted) as [ m | ];
    [ discriminate | only_event H ].
Qed.

(** A post in the turn of a thread comes after a successful fetch of the
    messages of the same thread, whose last message is a question of the
    interlocutor; and the turn then ends without an exception. *)
Lemma process_thread_post (th : json) (w : World B)
    (id : json) (text : string) (r : result json) :
  In (CallPostMessage id text r) (trace (process_thread fromisoformat B settings th w)) ->
  value (process_thread fromisoformat B settings th w) = Return tt
  /\ exists payload last,
    In (CallListMessages id (Return payload))
       (trace (process_thread fromisoformat B settings th w))
    /\ thread_last_message payload = Some last
    /\ flagged_as_interlocutor last = true
    /\ has_type last "ASK_QUESTION" = true.
Proof.
  intros H.
  destruct (process_thread_cases th w)
    as [ (tid & payload & last & Hid & Htruthy & Hfetch & Hlast) | Hnone ];
    [ | destruct (Hnone _ _ _ H) ].
  rewrite (process_thread_run th w tid payload last) in H |- * by assumption.
  simpl in H |- *. destruct H as [ H | H ]; [ discriminate | ].
  apply thread_reply_post in H. destruct H as (-> & Hflag & Htype).
  split.
  - rewrite thread_reply_eligible by assumption. apply post_reply_value.
  - exists payload, last. auto.
Qed.

(** The events of [process_threads] after the fetch of the thread list
    are events of the turns of its loop. *)
Lemma process_threads_event (now : datetime) (w : World B) (ev : event) :
  In ev (trace (process_threads fromisoformat B settings now w)) ->
  is_list_threads ev = true
  \/ exists th w0,
       In ev (trace (process_thread fromisoformat B settings th w0))
       /\ forall ev', In ev' (trace (process_thread fromisoformat B settings th w0)) ->
                      In ev' (trace (process_threads fromisoformat B settings now w)).
Proof.
  unfold process_threads. rewrite bindM_call.
  destruct (fst (list_threads B _ 0 w)) as [ payload | e ];
    [ | intros [ <- | [] ]; left; reflexivity ].
  destruct (get_or_get payload "threads" "items") as [ threads | e ];
    [ | intros [ <- | [] ]; left; reflexivity ].
  rewrite bindM_lift_Return.
  destruct (py_len threads) as [ n | e ];
    [ | intros [ <- | [] ]; left; reflexivity ].
  rewrite bindM_lift_Return.
  destruct (py_iter threads) as [ items | e ];
    [ | intros [ <- | [] ]; left; reflexivity ].
  rewrite bindM_lift_Return. simpl.
  intros [ <- | H ]; [ left; reflexivity | right ].
  apply for_each_event in H. destruct H as (th & w0 & _ & Hev & Hsub).
  exists th, w0. split; [ exact Hev | ].
  intros ev' H'. right. apply Hsub. exact H'.
Qed.

(** C3: in a cycle of the thread processor, no reply is posted to a
    thread whose last message (the last one of each list fetched for it,
    sorted by creation time) has an author that is not flagged as the
    interlocutor, or has a type other than ASK_QUESTION.  An author
    without [isInterlocutor], or with a false one, is not flagged. *)
Theorem process_threads_skips_ineligible :
  (forall (now : datetime) (w : World B) (id : json),
      (forall payload last,
          In (CallListMessages id (Return payload))
             (trace (process_threads fromisoformat B settings now w)) ->
          thread_last_message payload = Some last ->
          flagged_as_interlocutor last = false \/ has_type last "ASK_QUESTION" = false) ->
      forall (text : string) (r : result json),
        ~ In (CallPostMessage id text r)
             (trace (process_threads fromisoformat B settings now w)))
  /\ (forall m a : gmap string json,
         m !! "author" = None
         \/ (m !! "author" = Some (JDict a)
             /\ (a !! "isInterlocutor" = None
                 \/ a !! "isInterlocutor" = Some (JBool false))) ->
         flagged_as_interlocutor (JDict m) = false)
  /\ (forall (m : gmap string json) (t : string),
         m !! "type" = None
         \/ (m !! "type" = Some (JStr t) /\ t <> "ASK_QUESTION") ->
         has_type (JDict m) "ASK_QUESTION" = false).
Proof.
  split; [ | split ].
  - intros now w id Hskip text r Hpost.
    destruct (process_threads_event now w _ Hpost) as [ H | (th & w0 & Hev & Hsub) ];
      [ discriminate | ].
    destruct (process_thread_post th w0 id text r Hev)
      as (_ & payload & last & Hfetch & Hlast & Hflag & Htype).
    destruct (Hskip payload last (Hsub _ Hfetch) Hlast); congruence.
  - intros m a [ Hnone | (Hauthor & [ Hflag | Hflag ]) ];
      unfold flagged_as_interlocutor; simpl.
    + rewrite Hnone. reflexivity.
    + rewrite Hauthor. simpl. rewrite Hflag. reflexivity.
    + rewrite Hauthor. simpl. rewrite Hflag. reflexivity.
  - intros m t [ Hnone | (Htype & Hne) ]; unfold has_type; simpl.
    + rewrite Hnone. reflexivity.
    + rewrite Htype. simpl. apply String.eqb_neq. exact Hne.
Qed.
End threads.

(** ** The issue processor *)

Section issues.
Variable fromisoformat : string -> option datetime.
Variable B : Backend.
Variable settings : Settings.

Lemma issue_reply_eligible (id : json) (now : datetime) (last : json) (w : World B) :
  author_role_is last "BUYER" = true ->
  issue_reply fromisoformat B settings id now last w
  = post_reply B
      (decide_autoreply now (msg_time_spec fromisoformat (created_at_of last) now)
         settings true)
      (fun text => call (post_issue_message B id text) (CallPostIssueMessage id text))
      "post_issue_message error" w.
Proof.
  unfold author_role_is, created_at_of, issue_reply.
  intros Hrole.
  destruct last as [ | | | | | m ]; try discriminate Hrole.
  simpl in Hrole |- *. rewrite bindM_lift_Return.
  destruct (py_get (default (JDict ∅) (m !! "author")) "role" JNull)
    as [ role | ]; [ | discriminate ].
  rewrite !bindM_lift_Return. rewrite Hrole. simpl.
  rewrite bindM_lift_Return, parse_timestamp_msg_time, bindM_lift_Return.
  reflexivity.
Qed.

Lemma issue_reply_ineligible (id : json) (now : datetime) (last : json) (w : World B) :
  author_role_is last "BUYER" = false ->
  trace (issue_reply fromisoformat B settings id now last w) = [].
Proof.
  unfold author_role_is, issue_reply.
  intros H.
  destruct (py_get last "author" (JDict ∅)) as [ author | ]; [ | reflexivity ].
  rewrite bindM_lift_Return.
  destruct (py_get author "role" JNull) as [ role | ]; [ | reflexivity ].
  rewrite bindM_lift_Return. rewrite H. reflexivity.
Qed.

Lemma issue_reply_post (id : json) (now : datetime) (last : json) (w : World B)
    (id' : json) (text : string) (r : result json) :
  In (CallPostIssueMessage id' text r)
     (trace (issue_reply fromisoformat B settings id now last w)) ->
  id' = id /\ author_role_is last "BUYER" = true.
Proof.
  intros H.
  destruct (author_role_is last "BUYER") eqn:Hrole;
    [ | rewrite issue_reply_ineligible in H by exact Hrole; destruct H ].
  rewrite issue_reply_eligible in H by assumption.
  rewrite post_reply_trace in H.
  destruct (message _) as [ text0 | ]; [ | destruct H ].
  destruct (should_reply _ && _); [ | destruct H ].
  destruct H as [ H | H ].
  - inversion H. auto.
  - destruct (fst _); simpl in H; [ destruct H | ].
    destruct H as [ H | [] ]. discriminate.
Qed.

(** The fetch and inspection of a chat of at most two messages. *)
Lemma process_issue_chat_run (id : json) (now : datetime) (w : World B)
    (payload last : json) (n : Z) :
  fst (list_issue_messages B id w) = Return payload ->
  chat_length payload = Some n ->
  n <= 2 ->
  issue_last_message payload = Some last ->
  process_issue_chat fromisoformat B settings id now w
  = prepend [CallListIssueMessages id (Return payload)]
      (issue_reply fromisoformat B settings id now last
         (snd (list_issue_messages B id w))).
Proof.
  intros Hfetch Hlen Hn Hlast.
  unfold process_issue_chat. rewrite bindM_call, Hfetch.
  unfold issue_last_message, last_message_of in Hlast. unfold chat_length in Hlen.
  destruct (chat_of payload) as [ messages | ]; [ | discriminate ].
  rewrite bindM_lift_Return.
  destruct (truthy messages); [ | discriminate ]. simpl.
  destruct (py_len messages) as [ k | ]; [ | discriminate ].
  rewrite bindM_lift_Return.
  injection Hlen as ->. apply Z.ltb_ge in Hn. rewrite Hn.
  destruct (py_sort _ts messages) as [ sorted | ]; [ | discriminate ].
  rewrite bindM_lift_Return.
  destruct (py_last sorted) as [ m | ]; [ | discriminate ].
  rewrite bindM_lift_Return. congruence.
Qed.

(** A chat of more than two messages is left after its length is taken:
    nothing is sorted, inspected or posted, and nothing is raised. *)
Lemma process_issue_chat_capped (id : json) (now : datetime) (w : World B)
    (payload : json) (n : Z) :
  fst (list_issue_messages B id w) = Return payload ->
  chat_length payload = Some n ->
  2 < n ->
  process_issue_chat fromisoformat B settings id now w
  = {| value := Return tt; world := snd (list_issue_messages B id w);
       trace := [CallListIssueMessages id (Return payload)] |}.
Proof.
  intros Hfetch Hlen Hn.
  unfold process_issue_chat. rewrite bindM_call, Hfetch.
  unfold chat_length in Hlen.
  destruct (chat_of payload) as [ messages | ]; [ | discriminate ].
  rewrite bindM_lift_Return.
  destruct (py_len messages) as [ k | ] eqn:Hk; [ | discriminate ].
  injection Hlen as ->.
  destruct (truthy messages); [ | reflexivity ]. simpl.
  rewrite bindM_lift_Return.
  apply Z.ltb_lt in Hn. rewrite Hn. reflexivity.
Qed.

(** A post in the inspection of a chat comes after a successful fetch of
    a chat of at most two messages whose last message is the buyer's. *)
Lemma process_issue_chat_post (id0 : json) (now : datetime) (w : World B)
    (id : json) (text : string) (r : result json) :
  In (CallPostIssueMessage id text r)
     (trace (process_issue_chat fromisoformat B settings id0 now w)) ->
  id = id0
  /\ exists payload last n,
    In (CallListIssueMessages id (Return payload))
       (trace (process_issue_chat fromisoformat B settings id0 now w))
    /\ chat_length payload = Some n /\ n <= 2
    /\ issue_last_message payload = Some last
    /\ author_role_is last "BUYER" = true.
Proof.
  intros H.
  destruct (fst (list_issue_messages B id0 w)) as [ payload | e ] eqn:Hfetch;
    [ | unfold process_issue_chat in H; rewrite bindM_call, Hfetch in H;
        only_event H ].
  destruct (chat_length payload) as [ n | ] eqn:Hlen.
  - destruct (Z.ltb_spec 2 n) as [ Hn | Hn ].
    + rewrite (process_issue_chat_capped id0 now w payload n) in H by assumption.
      only_event H.
    + destruct (issue_last_message payload) as [ last | ] eqn:Hlast.
      * rewrite (process_issue_chat_run id0 now w payload last n) in H |- *
          by assumption.
        simpl in H |- *. destruct H as [ H | H ]; [ discriminate | ].
        apply issue_reply_post in H. destruct H as (-> & Hrole).
        split; [ reflexivity | ]. exists payload, last, n. auto.
      * exfalso. unfold process_issue_chat in H.
        rewrite bindM_call, Hfetch in H.
        unfold issue_last_message, last_message_of in Hlast.
        unfold chat_length in Hlen.
        destruct (chat_of payload) as [ messages | ]; [ | discriminate ].
        rewrite bindM_lift_Return in H.
        destruct (truthy messages);
          [ | only_event H ].
        simpl in H.
        destruct (py_len messages) as [ k | ]; [ | discriminate ].
        rewrite bindM_lift_Return in H.
        destruct (2 <? k)%Z; [ only_event H | ].
        destruct (py_sort _ts messages) as [ sorted | ];
          [ | only_event H ].
        rewrite bindM_lift_Return in H.
        destruct (py_last sorted) as [ m | ];
          [ discriminate | only_event H ].
  - exfalso. unfold process_issue_chat in H.
    rewrite bindM_call, Hfetch in H. unfold chat_length in Hlen.
    destruct (chat_of payload) as [ messages | ];
      [ | only_event H ].
    rewrite bindM_lift_Return in H.
    destruct (truthy messages);
      [ | only_event H ].
    simpl in H.
    destruct (py_len messages) as [ k | ]; [ discriminate | ].
    only_event H.
Qed.

Lemma try_except_trace_In (m : M (World B) unit) (line : string) (w : World B)
    (ev : event) :
  In ev (trace (try_except m (fun e => emit (Print line e)) w)) ->
  In ev (trace (m w)) \/ exists e, ev = Print line e.
Proof.
  unfold try_except, emit.
  destruct (m w) as [ [ [] | e ] w' tr ]; simpl; [ auto | ].
  intros H. apply in_app_or in H. destruct H as [ H | [ <- | [] ] ]; eauto.
Qed.

Lemma try_except_trace_incl (m : M (World B) unit) (line : string) (w : World B)
    (ev : event) :
  In ev (trace (m w)) ->
  In ev (trace (try_except m (fun e => emit (Print line e)) w)).
Proof.
  unfold try_except, emit.
  destruct (m w) as [ [ [] | e ] w' tr ]; simpl; [ auto | ].
  intros H. apply in_or_app. left. exact H.
Qed.

(** An issue whose status is not the ongoing-dispute value is left before
    any call: its chat is never fetched. *)
Lemma process_issue_not_ongoing (issue : json) (w : World B) :
  status_is issue "DISPUTE_ONGOING" = false ->
  trace (process_issue fromisoformat B settings issue w) = [].
Proof.
  unfold status_is, process_issue. intros H. rewrite bindM_now.
  destruct (py_get issue "id" JNull) as [ id | ]; [ | reflexivity ].
  rewrite bindM_lift_Return.
  destruct (truthy id); [ | reflexivity ]. simpl.
  destruct (status_of issue) as [ status | ]; [ | reflexivity ].
  rewrite bindM_lift_Return, H. reflexivity.
Qed.

Lemma process_issue_post (issue : json) (w : World B)
    (id : json) (text : string) (r : result json) :
  In (CallPostIssueMessage id text r)
     (trace (process_issue fromisoformat B settings issue w)) ->
  py_get issue "id" JNull = Return id
  /\ status_is issue "DISPUTE_ONGOING" = true
  /\ exists payload last n,
    In (CallListIssueMessages id (Return payload))
       (trace (process_issue fromisoformat B settings issue w))
    /\ chat_length payload = Some n /\ n <= 2
    /\ issue_last_message payload = Some last
    /\ author_role_is last "BUYER" = true.
Proof.
  intros H.
  destruct (status_is issue "DISPUTE_ONGOING") eqn:Hst;
    [ | rewrite process_issue_not_ongoing in H by exact Hst; destruct H ].
  unfold status_is in Hst. unfold process_issue in H |- *.
  rewrite bindM_now in H |- *.
  destruct (py_get issue "id" JNull) as [ id0 | ]; [ | destruct H ].
  rewrite bindM_lift_Return in H |- *.
  destruct (truthy id0); [ | destruct H ]. simpl in H |- *.
  destruct (status_of issue) as [ status | ]; [ | destruct H ].
  rewrite bindM_lift_Return in H |- *. rewrite Hst in H |- *. simpl in H |- *.
  apply try_except_trace_In in H. destruct H as [ H | [ e H ] ]; [ | discriminate ].
  apply process_issue_chat_post in H.
  destruct H as (-> & payload & last & n & Hfetch & Hlen & Hn & Hlast & Hrole).
  split; [ reflexivity | ]. split; [ reflexivity | ].
  exists payload, last, n. split; [ | auto ].
  apply try_except_trace_incl. exact Hfetch.
Qed.

Lemma process_issues_event (now : datetime) (w : World B) (ev : event) :
  In ev (trace (process_issues fromisoformat B settings now w)) ->
  (exists limit offset r, ev = CallListIssues limit offset r)
  \/ exists page issue w0,
       In (CallListIssues (max_issues_per_poll settings) 0 (Return page))
          (trace (process_issues fromisoformat B settings now w))
       /\ In issue (issues_of page)
       /\ In ev (trace (process_issue fromisoformat B settings issue w0))
       /\ forall ev', In ev' (trace (process_issue fromisoformat B settings issue w0)) ->
                      In ev' (trace (process_issues fromisoformat B settings now w)).
Proof.
  unfold process_issues. rewrite bindM_call.
  destruct (fst (list_issues B _ 0 w)) as [ page | e ];
    [ | intros [ <- | [] ]; left; eauto ].
  destruct (py_get page "issues" (JList [])) as [ got | e ] eqn:Hgot;
    [ | intros [ <- | [] ]; left; eauto ].
  rewrite bindM_lift_Return.
  destruct (py_len (py_or got (JList []))) as [ n | e ];
    [ | intros [ <- | [] ]; left; eauto ].
  rewrite bindM_lift_Return.
  destruct (py_iter (py_or got (JList []))) as [ items | e ] eqn:Hitems;
    [ | intros [ <- | [] ]; left; eauto ].
  rewrite bindM_lift_Return. simpl.
  intros [ <- | H ]; [ left; eauto | right ].
  apply for_each_event in H. destruct H as (issue & w0 & Hin & Hev & Hsub).
  exists page, issue, w0.
  split; [ left; reflexivity | ].
  split; [ unfold issues_of; rewrite Hgot, Hitems; exact Hin | ].
  split; [ exact Hev | ].
  intros ev' H'. right. apply Hsub. exact H'.
Qed.

(** C4: a reply is posted to an issue only if that issue, one of the
    fetched page, has a status that is exactly DISPUTE_ONGOING and the
    author role of the last message of its chat, sorted by creation time,
    is exactly BUYER; an issue with another status is left before its chat
    is fetched. *)
Theorem process_issues_requires_ongoing_buyer :
  (forall (now : datetime) (w : World B) (id : json) (text : string) (r : result json),
      In (CallPostIssueMessage id text r)
         (trace (process_issues fromisoformat B settings now w)) ->
      exists page issue payload last,
        In (CallListIssues (max_issues_per_poll settings) 0 (Return page))
           (trace (process_issues fromisoformat B settings now w))
        /\ In issue (issues_of page)
        /\ py_get issue "id" JNull = Return id
        /\ status_is issue "DISPUTE_ONGOING" = true
        /\ In (CallListIssueMessages id (Return payload))
              (trace (process_issues fromisoformat B settings now w))
        /\ issue_last_message payload = Some last
        /\ author_role_is last "BUYER" = true)
  /\ (forall (issue : json) (w : World B),
         status_is issue "DISPUTE_ONGOING" = false ->
         trace (process_issue fromisoformat B settings issue w) = [])
  /\ (forall (issue last : json) (st role : string),
         (status_is issue st = true ->
          exists m cs, issue = JDict m
                       /\ m !! "currentState" = Some (JDict cs)
                       /\ cs !! "status" = Some (JStr st))
         /\ (author_role_is last role = true ->
              exists m a, last = JDict m
                          /\ m !! "author" = Some (JDict a)
                          /\ a !! "role" = Some (JStr role))).
Proof.
  split; [ | split ]; [ | | intros issue last st role; split ].
  - intros now w id text r Hpost.
    destruct (process_issues_event now w _ Hpost)
      as [ (limit & offset & r' & H) | (page & issue & w0 & Hpage & Hin & Hev & Hsub) ];
      [ discriminate | ].
    destruct (process_issue_post issue w0 id text r Hev)
      as (Hid & Hst & payload & last & n & Hfetch & _ & _ & Hlast & Hrole).
    exists page, issue, payload, last. auto 8.
  - intros issue w. apply process_issue_not_ongoing.
  - unfold status_is, status_of. intros Hst.
    destruct issue as [ | | | | | m ]; try discriminate Hst.
    simpl in Hst.
    destruct (m !! "currentState") as [ cur | ] eqn:Hcs; simpl in Hst;
      [ | discriminate Hst ].
    destruct (truthy cur); [ | discriminate Hst ].
    destruct cur as [ | | | | | cs ]; try discriminate Hst.
    simpl in Hst.
    destruct (cs !! "status") as [ [ | | | s | | ] | ] eqn:Hs; try discriminate Hst.
    simpl in Hst. apply String.eqb_eq in Hst. subst s. eauto.
  - unfold author_role_is. intros Hrole.
    destruct last as [ | | | | | m ]; try discriminate Hrole.
    simpl in Hrole.
    destruct (m !! "author") as [ author | ] eqn:Ha; simpl in Hrole;
      [ | rewrite lookup_empty in Hrole; discriminate Hrole ].
    destruct author as [ | | | | | a ]; try discriminate Hrole.
    simpl in Hrole.
    destruct (a !! "role") as [ [ | | | s | | ] | ] eqn:Hs; try discriminate Hrole.
    simpl in Hrole. apply String.eqb_eq in Hrole. subst s. eauto.
Qed.

(** C5: in a cycle of the issue processor, no reply is posted to an issue
    whose chat has more than two messages, whoever wrote the last one and
    whenever; the count is taken on the fetched chat before it is sorted
    and before any author is looked at, so that such a chat is left with
    nothing but its fetch done. *)
Theorem process_issues_caps_chat_length :
  (forall (now : datetime) (w : World B) (id : json),
      (forall payload,
          In (CallListIssueMessages id (Return payload))
             (trace (process_issues fromisoformat B settings now w)) ->
          exists n, chat_length payload = Some n /\ 2 < n) ->
      forall (text : string) (r : result json),
        ~ In (CallPostIssueMessage id text r)
             (trace (process_issues fromisoformat B settings now w)))
  /\ (forall (id : json) (now : datetime) (w : World B) (payload : json) (n : Z),
         fst (list_issue_messages B id w) = Return payload ->
         chat_length payload = Some n ->
         2 < n ->
         process_issue_chat fromisoformat B settings id now w
         = {| value := Return tt; world := snd (list_issue_messages B id w);
              trace := [CallListIssueMessages id (Return payload)] |}).
Proof.
  split.
  - intros now w id Hcap text r Hpost.
    destruct (process_issues_event now w _ Hpost)
      as [ (limit & offset & r' & H) | (page & issue & w0 & _ & _ & Hev & Hsub) ];
      [ discriminate | ].
    destruct (process_issue_post issue w0 id text r Hev)
      as (_ & _ & payload & last & n & Hfetch & Hlen & Hn & _ & _).
    destruct (Hcap payload (Hsub _ Hfetch)) as (n' & Hlen' & Hn').
    rewrite Hlen in Hlen'. injection Hlen' as <-. lia.
  - intros id now w payload n. apply process_issue_chat_capped.
Qed.
End issues.

(** ** Sorting on the creation time *)

Section sorting.

Lemma string_compare_lt_trans (a b c : string) :
  String.compare a b = Lt -> String.compare b c = Lt -> String.compare a c = Lt.
Proof.
  revert b c. induction a as [ | x a IH ]; intros [ | y b ] [ | z c ]; simpl;
    try congruence.
  unfold Ascii.compare.
  destruct (N.compare (N_of_ascii x) (N_of_ascii y)) eqn:Hxy;
    destruct (N.compare (N_of_ascii y) (N_of_ascii z)) eqn:Hyz;
    intros H1 H2; try discriminate.
  - apply N.compare_eq_iff in Hxy. rewrite Hxy, Hyz. eapply IH; eassumption.
  - apply N.compare_eq_iff in Hxy. rewrite Hxy, Hyz. reflexivity.
  - apply N.compare_eq_iff in Hyz. rewrite <- Hyz, Hxy. reflexivity.
  - pose proof (N.lt_trans _ _ _ Hxy Hyz) as Hxz.
    unfold N.lt in Hxz. rewrite Hxz. reflexivity.
Qed.

Lemma string_leb_refl (a : string) : String.leb a a = true.
Proof. destruct (String.leb_total a a); assumption. Qed.

Lemma string_leb_trans (a b c : string) :
  String.leb a b = true -> String.leb b c = true -> String.leb a c = true.
Proof.
  unfold String.leb.
  destruct (String.compare a b) eqn:Hab; try discriminate;
    destruct (String.compare b c) eqn:Hbc; try discriminate; intros _ _.
  - apply String.compare_eq_iff in Hab. subst. rewrite Hbc. reflexivity.
  - apply String.compare_eq_iff in Hab. subst. rewrite Hbc. reflexivity.
  - apply String.compare_eq_iff in Hbc. subst. rewrite Hab. reflexivity.
  - rewrite (string_compare_lt_trans a b c Hab Hbc). reflexivity.
Qed.

Lemma string_ltb_leb (a b : string) : String.ltb a b = true -> String.leb a b = true.
Proof. unfold String.ltb, String.leb. destruct (String.compare a b); congruence. Qed.

Lemma string_not_ltb_leb (a b : string) :
  String.ltb a b = false -> String.leb b a = true.
Proof.
  unfold String.ltb, String.leb. rewrite (String.compare_antisym b a).
  destruct (String.compare a b); simpl; congruence.
Qed.

Lemma string_leb_empty (s : string) : String.leb "" s = true.
Proof. destruct s; reflexivity. Qed.

Lemma ts_le_trans (a b c : json) : ts_le a b -> ts_le b c -> ts_le a c.
Proof.
  intros (s & t & Hs & Ht & Hst) (t' & u & Ht' & Hu & Htu).
  rewrite Ht in Ht'. injection Ht' as <-.
  exists s, u. split; [ exact Hs | ]. split; [ exact Hu | ].
  eapply string_leb_trans; eassumption.
Qed.

Lemma sort_insert_decorated (x : json * json) (l : list (json * json)) :
  decorated x -> Forall decorated l ->
  exists r,
    sort_insert x l = Return r
    /\ Permutation (x :: l) r
    /\ Forall decorated r
    /\ (Sorted dec_le l -> Sorted dec_le r)
    /\ (forall y, dec_le y x -> HdRel dec_le y l -> HdRel dec_le y r).
Proof.
  intros Hx Hl. induction Hl as [ | y l Hy Hl IH ].
  - exists [x]. simpl. repeat split; auto.
  - destruct IH as (r & Hr & Hperm & Hdec & Hsorted & Hhd).
    destruct Hx as (sx & Hkx & Hsx). destruct Hy as (sy & Hky & Hsy).
    simpl. rewrite Hky, Hkx. simpl.
    destruct (String.ltb sy sx) eqn:Hlt.
    + rewrite Hr. simpl. exists (y :: r).
      split; [ reflexivity | ].
      split; [ rewrite perm_swap; constructor; exact Hperm | ].
      split; [ constructor; [ exists sy; auto | exact Hdec ] | ].
      split.
      * intros Hs. inversion Hs; subst. constructor; [ auto | ].
        apply Hhd; [ | assumption ].
        exists sy, sx. auto using string_ltb_leb.
      * intros z Hzx Hz. inversion Hz; subst. constructor. assumption.
    + exists (x :: y :: l).
      split; [ reflexivity | ].
      split; [ reflexivity | ].
      split; [ constructor; [ exists sx; auto | constructor; [ exists sy; auto | exact Hl ] ] | ].
      split.
      * intros Hs. constructor; [ exact Hs | ]. constructor.
        exists sx, sy. auto using string_not_ltb_leb.
      * intros z Hzx _. constructor. exact Hzx.
Qed.

Lemma sort_decorated_sorted (l : list (json * json)) :
  Forall decorated l ->
  exists r,
    sort_decorated l = Return r
    /\ Permutation l r /\ Forall decorated r /\ Sorted dec_le r.
Proof.
  intros Hl. induction Hl as [ | x l Hx Hl IH ].
  - exists []. simpl. repeat split; auto.
  - destruct IH as (r & Hr & Hperm & Hdec & Hsorted).
    destruct (sort_insert_decorated x r Hx Hdec) as (r' & Hr' & Hperm' & Hdec' & Hs' & _).
    simpl. rewrite Hr. simpl. exists r'.
    split; [ exact Hr' | ].
    split; [ rewrite <- Hperm'; constructor; exact Hperm | ].
    split; [ exact Hdec' | auto ].
Qed.

Lemma map_result_ts (msgs : list json) :
  Forall (fun m => ts_string m <> None) msgs ->
  exists keys,
    map_result _ts msgs = Return keys
    /\ Forall decorated (combine keys msgs)
    /\ map snd (combine keys msgs) = msgs.
Proof.
  intros H. induction H as [ | m msgs Hm H IH ].
  - exists []. simpl. auto.
  - destruct IH as (keys & Hkeys & Hdec & Hsnd).
    unfold ts_string in Hm.
    destruct (_ts m) as [ k | ] eqn:Hk; [ | congruence ].
    destruct k as [ | | | s | | ]; try congruence.
    exists (JStr s :: keys). simpl. rewrite Hk, Hkeys. simpl.
    split; [ reflexivity | ].
    split; [ | rewrite Hsnd; reflexivity ].
    constructor; [ | exact Hdec ].
    exists s. simpl. unfold ts_string. rewrite Hk. auto.
Qed.

Lemma sorted_map_snd (r : list (json * json)) :
  Sorted dec_le r -> Sorted ts_le (map snd r).
Proof.
  induction 1 as [ | p r Hs IH Hhd ]; simpl; constructor; [ exact IH | ].
  destruct Hhd; simpl; constructor. assumption.
Qed.

(** In a list in the order of the keys, every message is before the last. *)
Lemma sorted_last_is_greatest (l : list json) (last : json) :
  Sorted ts_le l ->
  Forall (fun m => ts_string m <> None) l ->
  py_last l = Return last ->
  forall m, In m l -> ts_le m last.
Proof.
  intros Hs Hall Hlast.
  apply Sorted_StronglySorted in Hs; [ | intros a b c; apply ts_le_trans ].
  induction Hs as [ | x l Hs IH Hx ]; [ discriminate | ].
  inversion Hall as [ | ? ? Hkx Hall' ]; subst.
  destruct l as [ | y l ].
  - injection Hlast as <-. intros m [ <- | [] ].
    destruct (ts_string x) as [ s | ] eqn:E; [ | congruence ].
    exists s, s. auto using string_leb_refl.
  - change (py_last (y :: l) = Return last) in Hlast.
    assert (Hin : In last (y :: l)).
    { clear - Hlast. revert y Hlast. induction l as [ | z l IHl ]; intros y Hlast.
      - injection Hlast as <-. left. reflexivity.
      - right. apply (IHl z). exact Hlast. }
    intros m [ <- | Hm ].
    + rewrite Forall_forall in Hx. apply Hx. exact Hin.
    + apply IH; assumption.
Qed.

(** Sorting messages whose keys are strings returns them all in the order
    of the keys, so that the last one has the greatest key. *)
Lemma list_sort_ts (msgs : list json) :
  Forall (fun m => ts_string m <> None) msgs ->
  exists sorted,
    list_sort _ts msgs = Return sorted
    /\ Permutation msgs sorted
    /\ Sorted ts_le sorted
    /\ forall last, py_last sorted = Return last ->
                    forall m, In m msgs -> ts_le m last.
Proof.
  intros H.
  destruct (map_result_ts msgs H) as (keys & Hkeys & Hdec & Hsnd).
  destruct (sort_decorated_sorted _ Hdec) as (r & Hr & Hperm & Hdec' & Hsorted).
  exists (map snd r). unfold list_sort. rewrite Hkeys. simpl. rewrite Hr. simpl.
  assert (Hp : Permutation msgs (map snd r)).
  { rewrite <- Hsnd at 1. apply Permutation_map. exact Hperm. }
  split; [ reflexivity | ]. split; [ exact Hp | ].
  split; [ apply sorted_map_snd; exact Hsorted | ].
  intros last Hlast m Hm.
  apply (sorted_last_is_greatest (map snd r)).
  - apply sorted_map_snd. exact Hsorted.
  - rewrite Forall_forall in H |- *. intros x Hx. apply H.
    rewrite Hp. exact Hx.
  - exact Hlast.
  - apply (Permutation_in _ Hp). exact Hm.
Qed.

(** A message without any of the three time entries has the empty key. *)
Lemma ts_missing (m : gmap string json) :
  m !! "createdAt" = None -> m !! "created" = None -> m !! "creationDate" = None ->
  _ts (JDict m) = Return (JStr "").
Proof. intros H1 H2 H3. unfold _ts. simpl. rewrite H1, H2, H3. reflexivity. Qed.

End sorting.

(** ** Cycles and the poll loop *)

Section cycles.
Variable fromisoformat : string -> option datetime.
Variable B : Backend.
Variable settings : Settings.

Lemma try_except_print (m : M (World B) unit) (line : string) (w : World B) :
  trace (try_except m (fun e => emit (Print line e)) w)
  = (trace (m w) ++ print_of line (value (m w)))%list
  /\ world (try_except m (fun e => emit (Print line e)) w) = world (m w).
Proof.
  unfold try_except, emit.
  destruct (m w) as [ [ [] | e ] w' tr ]; simpl; [ | auto ].
  rewrite app_nil_r. auto.
Qed.

Lemma process_threads_starts (now : datetime) (w : World B) :
  exists r rest,
    trace (process_threads fromisoformat B settings now w)
    = CallListThreads (max_threads_per_poll settings) 0 r :: rest.
Proof.
  unfold process_threads. rewrite bindM_call.
  destruct (fst (list_threads B _ 0 w)); simpl; eauto.
Qed.

Lemma process_once_starts (w : World B) :
  exists r rest,
    trace (process_once fromisoformat B settings w)
    = CallListThreads (max_threads_per_poll settings) 0 r :: rest.
Proof.
  unfold process_once. rewrite bindM_now. unfold bindM.
  destruct (process_threads_starts (fst (utcnow B w)) (snd (utcnow B w)))
    as (r & rest & Htr).
  destruct (value (process_threads _ _ _ _ _)); simpl; rewrite Htr; simpl; eauto.
Qed.

Lemma poll_iteration_run (interval : Z) (w : World B) :
  value (poll_iteration fromisoformat B settings interval w) = Return tt
  /\ trace (poll_iteration fromisoformat B settings interval w)
     = (trace (process_once fromisoformat B settings w)
        ++ print_of "[poll] error" (value (process_once fromisoformat B settings w))
        ++ [Sleep interval])%list
  /\ world (poll_iteration fromisoformat B settings interval w)
     = sleep B interval (world (process_once fromisoformat B settings w)).
Proof.
  unfold poll_iteration, bindM.
  rewrite try_except_value.
  destruct (try_except_print (process_once fromisoformat B settings) "[poll] error" w)
    as (Htr & Hw).
  simpl. rewrite Htr, Hw, <- app_assoc. auto.
Qed.

Lemma poll_turns_value (interval : Z) (turns : nat) (w : World B) :
  value (poll_turns fromisoformat B settings interval turns w) = Return tt.
Proof.
  revert w. induction turns as [ | n IH ]; intros w; [ reflexivity | ].
  simpl. unfold bindM.
  destruct (poll_iteration_run interval w) as (Hv & _ & _).
  rewrite Hv. simpl. apply IH.
Qed.

Lemma poll_turns_step (interval : Z) (turns : nat) (w : World B) :
  trace (poll_turns fromisoformat B settings interval (S turns) w)
  = (trace (process_once fromisoformat B settings w)
     ++ print_of "[poll] error" (value (process_once fromisoformat B settings w))
     ++ [Sleep interval]
     ++ trace (poll_turns fromisoformat B settings interval turns
                 (sleep B interval (world (process_once fromisoformat B settings w)))))%list.
Proof.
  simpl. unfold bindM.
  destruct (poll_iteration_run interval w) as (Hv & Htr & Hw).
  rewrite Hv. simpl. rewrite Htr, Hw, <- !app_assoc. reflexivity.
Qed.

(** The turn of an eligible thread: the fetch, then the reply the decision
    engine decides, asked with the [now] read at the start of the turn and
    with the message time of the last message. *)
Lemma process_thread_reply (th : json) (w : World B) (id payload last : json) :
  thread_id_of th = Return id -> truthy id = true ->
  fst (list_messages B id (snd (utcnow B w))) = Return payload ->
  thread_last_message payload = Some last ->
  flagged_as_interlocutor last = true ->
  has_type last "ASK_QUESTION" = true ->
  process_thread fromisoformat B settings th w
  = prepend [CallListMessages id (Return payload)]
      (post_reply B
         (decide_autoreply (fst (utcnow B w))
            (msg_time_spec fromisoformat (created_at_of last) (fst (utcnow B w)))
            settings false)
         (fun text => call (post_message B id text) (CallPostMessage id text))
         "post_message error"
         (snd (list_messages B id (snd (utcnow B w))))).
Proof.
  intros Hid Htruthy Hfetch Hlast Hflag Htype.
  rewrite (process_thread_run fromisoformat B settings th w id payload last)
    by assumption.
  rewrite thread_reply_eligible by assumption. reflexivity.
Qed.

(** The same for an eligible issue; nothing is left for the outer [try]
    to catch. *)
Lemma process_issue_reply (issue : json) (w : World B) (id payload last : json) (n : Z) :
  py_get issue "id" JNull = Return id -> truthy id = true ->
  status_is issue "DISPUTE_ONGOING" = true ->
  fst (list_issue_messages B id (snd (utcnow B w))) = Return payload ->
  chat_length payload = Some n -> n <= 2 ->
  issue_last_message payload = Some last ->
  author_role_is last "BUYER" = true ->
  process_issue fromisoformat B settings issue w
  = prepend [CallListIssueMessages id (Return payload)]
      (post_reply B
         (decide_autoreply (fst (utcnow B w))
            (msg_time_spec fromisoformat (created_at_of last) (fst (utcnow B w)))
            settings true)
         (fun text => call (post_issue_message B id text) (CallPostIssueMessage id text))
         "post_issue_message error"
         (snd (list_issue_messages B id (snd (utcnow B w))))).
Proof.
  intros Hid Htruthy Hst Hfetch Hlen Hn Hlast Hrole.
  unfold status_is in Hst. unfold process_issue.
  rewrite bindM_now, Hid, bindM_lift_Return, Htruthy. simpl.
  destruct (status_of issue) as [ status | ]; [ | discriminate ].
  rewrite bindM_lift_Return, Hst. simpl.
  unfold try_except.
  rewrite (process_issue_chat_run fromisoformat B settings id _ _ payload last n)
    by assumption.
  rewrite issue_reply_eligible by assumption. simpl.
  rewrite post_reply_value. reflexivity.
Qed.

(** C6: both processors sort the fetched messages on the creation-time
    string, ascending, before they take the last one, and inspect that
    one only.  A message without a timestamp has the empty key, which is
    first; sorting returns the same messages in the order of the keys,
    the last being the greatest; and a list dated 2024-01-02 then
    2024-01-01 is read with the message of 2024-01-01 first. *)
Theorem messages_sorted_by_creation_time :
  (forall m : gmap string json,
      m !! "createdAt" = None -> m !! "created" = None ->
      m !! "creationDate" = None ->
      _ts (JDict m) = Return (JStr "") /\ forall s, String.leb "" s = true)
  /\ (forall msgs : list json,
         Forall (fun m => ts_string m <> None) msgs ->
         exists sorted,
           list_sort _ts msgs = Return sorted
           /\ Permutation msgs sorted
           /\ Sorted ts_le sorted
           /\ forall last, py_last sorted = Return last ->
                           forall m, In m msgs -> ts_le m last)
  /\ list_sort _ts [samples.dated "2024-01-02"; samples.dated "2024-01-01"]
     = Return [samples.dated "2024-01-01"; samples.dated "2024-01-02"]
  /\ (forall (th : json) (w : World B) (id payload : json) (msgs sorted : list json)
             (last : json),
         thread_id_of th = Return id -> truthy id = true ->
         fst (list_messages B id (snd (utcnow B w))) = Return payload ->
         get_or_get payload "messages" "items" = Return (JList msgs) ->
         msgs <> [] ->
         list_sort _ts msgs = Return sorted ->
         py_last sorted = Return last ->
         process_thread fromisoformat B settings th w
         = prepend [CallListMessages id (Return payload)]
             (thread_reply fromisoformat B settings id (fst (utcnow B w)) last
                (snd (list_messages B id (snd (utcnow B w))))))
  /\ (forall (id : json) (now : datetime) (w : World B) (payload : json)
             (msgs sorted : list json) (last : json),
         fst (list_issue_messages B id w) = Return payload ->
         chat_of payload = Return (JList msgs) ->
         msgs <> [] -> (length msgs <= 2)%nat ->
         list_sort _ts msgs = Return sorted ->
         py_last sorted = Return last ->
         process_issue_chat fromisoformat B settings id now w
         = prepend [CallListIssueMessages id (Return payload)]
             (issue_reply fromisoformat B settings id now last
                (snd (list_issue_messages B id w)))).
Proof.
  split; [ | split; [ | split; [ | split ] ] ].
  - intros m H1 H2 H3. split; [ apply ts_missing; assumption | ].
    apply string_leb_empty.
  - apply list_sort_ts.
  - vm_compute. reflexivity.
  - intros th w id payload msgs sorted last Hid Htruthy Hfetch Hmsgs Hne Hsort Hlast.
    apply process_thread_run; try assumption.
    unfold thread_last_message, last_message_of. rewrite Hmsgs.
    destruct msgs; [ congruence | ]. simpl truthy. cbv iota.
    unfold py_sort. rewrite Hsort, Hlast. reflexivity.
  - intros id now w payload msgs sorted last Hfetch Hchat Hne Hlen Hsort Hlast.
    apply (process_issue_chat_run fromisoformat B settings id now w payload last
             (Z.of_nat (length msgs))); try assumption.
    + unfold chat_length. rewrite Hchat. reflexivity.
    + lia.
    + unfold issue_last_message, last_message_of. rewrite Hchat.
      destruct msgs; [ congruence | ]. simpl truthy. cbv iota.
      unfold py_sort. rewrite Hsort, Hlast. reflexivity.
Qed.

(** C7, as the code has it: a failure of the post of a reply never
    leaves the turn of its thread, so that the loop goes on with the
    remaining threads; in the issue processor no failure of the fetch,
    the inspection or the post leaves the turn of an issue whose
    identifier and status were read; and no failure of a cycle leaves
    the turn of the poll loop, which prints it, sleeps for the configured
    interval and runs the next cycle, starting with a fetch of threads. *)
Theorem failures_are_contained :
  (forall (th : json) (rest : list json) (w : World B)
          (id : json) (text : string) (e : exn),
      In (CallPostMessage id text (Raise e))
         (trace (process_thread fromisoformat B settings th w)) ->
      value (process_thread fromisoformat B settings th w) = Return tt
      /\ trace (for_each (process_thread fromisoformat B settings) (th :: rest) w)
         = (trace (process_thread fromisoformat B settings th w)
            ++ trace (for_each (process_thread fromisoformat B settings) rest
                        (world (process_thread fromisoformat B settings th w))))%list)
  /\ (forall (issue : json) (w : World B) (id status : json),
         py_get issue "id" JNull = Return id ->
         status_of issue = Return status ->
         value (process_issue fromisoformat B settings issue w) = Return tt)
  /\ (forall (turns : nat) (w : World B),
         value (poll_loop fromisoformat B settings turns w) = Return tt
         /\ trace (poll_loop fromisoformat B settings (S turns) w)
            = (trace (process_once fromisoformat B settings w)
               ++ print_of "[poll] error" (value (process_once fromisoformat B settings w))
               ++ [Sleep (poll_interval_seconds settings)]
               ++ trace (poll_loop fromisoformat B settings turns
                           (sleep B (poll_interval_seconds settings)
                              (world (process_once fromisoformat B settings w)))))%list
         /\ exists r rest,
              trace (process_once fromisoformat B settings w)
              = CallListThreads (max_threads_per_poll settings) 0 r :: rest).
Proof.
  split; [ | split ].
  - intros th rest w id text e H.
    apply process_thread_post in H. destruct H as (Hv & _).
    split; [ exact Hv | ]. apply for_each_cons. exact Hv.
  - intros issue w id status Hid Hst. unfold process_issue.
    rewrite bindM_now, Hid, bindM_lift_Return.
    destruct (truthy id); [ | reflexivity ]. simpl.
    rewrite Hst, bindM_lift_Return.
    destruct (eq_str status "DISPUTE_ONGOING"); [ | reflexivity ]. simpl.
    apply try_except_value.
  - intros turns w. unfold poll_loop.
    split; [ apply poll_turns_value | ].
    split; [ apply poll_turns_step | apply process_once_starts ].
Qed.

(** C8, as the code has it: for an eligible thread or issue, when the
    decision engine returns should_reply with a text that is not empty,
    that text is posted to the thread or issue, in exactly one call of
    the post method: the turn does nothing else after the fetch but to
    print the exception when the post raised. *)
Theorem reply_posted_once :
  (forall (th : json) (w : World B) (id payload last : json)
          (msg_time : datetime) (text : string),
      thread_id_of th = Return id -> truthy id = true ->
      fst (list_messages B id (snd (utcnow B w))) = Return payload ->
      thread_last_message payload = Some last ->
      flagged_as_interlocutor last = true ->
      has_type last "ASK_QUESTION" = true ->
      parse_timestamp fromisoformat (created_at_of last) (fst (utcnow B w))
      = Return msg_time ->
      should_reply (decide_autoreply (fst (utcnow B w)) msg_time settings false) = true ->
      message (decide_autoreply (fst (utcnow B w)) msg_time settings false) = Some text ->
      text <> "" ->
      trace (process_thread fromisoformat B settings th w)
      = CallListMessages id (Return payload)
        :: CallPostMessage id text
             (fst (post_message B id text (snd (list_messages B id (snd (utcnow B w))))))
        :: print_of "post_message error"
             (fst (post_message B id text (snd (list_messages B id (snd (utcnow B w)))))))
  /\ (forall (issue : json) (w : World B) (id payload last : json) (n : Z)
             (msg_time : datetime) (text : string),
         py_get issue "id" JNull = Return id -> truthy id = true ->
         status_is issue "DISPUTE_ONGOING" = true ->
         fst (list_issue_messages B id (snd (utcnow B w))) = Return payload ->
         chat_length payload = Some n -> n <= 2 ->
         issue_last_message payload = Some last ->
         author_role_is last "BUYER" = true ->
         parse_timestamp fromisoformat (created_at_of last) (fst (utcnow B w))
         = Return msg_time ->
         should_reply (decide_autoreply (fst (utcnow B w)) msg_time settings true) = true ->
         message (decide_autoreply (fst (utcnow B w)) msg_time settings true) = Some text ->
         text <> "" ->
         trace (process_issue fromisoformat B settings issue w)
         = CallListIssueMessages id (Return payload)
           :: CallPostIssueMessage id text
                (fst (post_issue_message B id text
                        (snd (list_issue_messages B id (snd (utcnow B w))))))
           :: print_of "post_issue_message error"
                (fst (post_issue_message B id text
                        (snd (list_issue_messages B id (snd (utcnow B w))))))).
Proof.
  split.
  - intros th w id payload last msg_time text Hid Htruthy Hfetch Hlast Hflag Htype
           Htime Hreply Htext Hne.
    rewrite parse_timestamp_msg_time in Htime. injection Htime as <-.
    rewrite (process_thread_reply th w id payload last) by assumption. simpl.
    rewrite post_reply_trace, Htext, Hreply.
    apply String.eqb_neq in Hne. rewrite Hne. reflexivity.
  - intros issue w id payload last n msg_time text Hid Htruthy Hst Hfetch Hlen Hn
           Hlast Hrole Htime Hreply Htext Hne.
    rewrite parse_timestamp_msg_time in Htime. injection Htime as <-.
    rewrite (process_issue_reply issue w id payload last n) by assumption. simpl.
    rewrite post_reply_trace, Htext, Hreply.
    apply String.eqb_neq in Hne. rewrite Hne. reflexivity.
Qed.




(** C10: a last message that has its time under [created] or
    [creationDate] only is sorted on that time, but its message time is
    the [now] of the turn, so that the decision engine never finds it too
    old, whatever the time it carries: when it is the question of an
    interlocutor, the first-contact template is posted. *)
Theorem legacy_timestamp_never_stale :
  forall (m : gmap string json) (s : string),
    m !! "createdAt" = None ->
    m !! "created" = Some (JStr s)
    \/ (m !! "created" = None /\ m !! "creationDate" = Some (JStr s)) ->
    s <> "" ->
    _ts (JDict m) = Return (JStr s)
    /\ (forall now : datetime,
           parse_timestamp fromisoformat (created_at_of (JDict m)) now = Return now
           /\ forall is_issue : bool,
               should_reply (decide_autoreply now now settings is_issue) = true)
    /\ (forall (th : json) (w : World B) (id payload : json),
           thread_id_of th = Return id -> truthy id = true ->
           fst (list_messages B id (snd (utcnow B w))) = Return payload ->
           thread_last_message payload = Some (JDict m) ->
           flagged_as_interlocutor (JDict m) = true ->
           has_type (JDict m) "ASK_QUESTION" = true ->
           autoresponse_message settings <> "" ->
           trace (process_thread fromisoformat B settings th w)
           = CallListMessages id (Return payload)
             :: CallPostMessage id (autoresponse_message settings)
                  (fst (post_message B id (autoresponse_message settings)
                          (snd (list_messages B id (snd (utcnow B w))))))
             :: print_of "post_message error"
                  (fst (post_message B id (autoresponse_message settings)
                          (snd (list_messages B id (snd (utcnow B w))))))).
Proof.
  intros m s Hcreated Hlegacy Hne.
  assert (Hs : truthy (JStr s) = true).
  { simpl. apply String.eqb_neq in Hne. rewrite Hne. reflexivity. }
  assert (Hat : created_at_of (JDict m) = JNull).
  { unfold created_at_of. simpl. rewrite Hcreated. reflexivity. }
  assert (Hfresh : forall (now : datetime) (is_issue : bool),
             decide_autoreply now now settings is_issue
             = mkDecision true
                 (Some (if is_issue then autoresponse_issue settings
                        else autoresponse_message settings))
                 (if is_issue then "issue" else "ask message")).
  { intros now is_issue. unfold decide_autoreply.
    replace (now - now) with 0 by lia. destruct is_issue; reflexivity. }
  split; [ | split ].
  - unfold _ts. simpl. rewrite Hcreated. simpl.
    destruct Hlegacy as [ H | [ H1 H2 ] ].
    + rewrite H. simpl default. cbv beta. rewrite Hs. reflexivity.
    + rewrite H1, H2. simpl. unfold py_or. rewrite Hs. reflexivity.
  - intros now. split; [ rewrite Hat; reflexivity | ].
    intros is_issue. rewrite Hfresh. reflexivity.
  - intros th w id payload Hid Htruthy Hfetch Hlast Hflag Htype Htemplate.
    rewrite (process_thread_reply th w id payload (JDict m)) by assumption.
    rewrite Hat. change (msg_time_spec fromisoformat JNull ?n) with n.
    rewrite Hfresh. simpl. rewrite post_reply_trace. simpl.
    apply String.eqb_neq in Htemplate. rewrite Htemplate. reflexivity.
Qed.
End cycles.

(** ** The sample shop *)

Section shop.
Import samples.

(** Five minutes after the question of thread [t1], the question is
    answered with the first-contact template; thread [t2], whose last
    message is the seller's, is left alone. *)
Example shop_threads_trace :
  trace (run_threads shop sample_settings five_past)
  = [ CallListThreads 5 0 (threads_answer shop);
      CallListMessages (JStr "t1") (messages_answer shop (JStr "t1"));
      CallPostMessage (JStr "t1") "Dziekujemy za kontakt!" posted;
      CallListMessages (JStr "t2") (messages_answer shop (JStr "t2")) ].
Proof. vm_compute. reflexivity. Qed.

(** Fifteen minutes after it, the question is too old. *)
Example shop_threads_trace_late :
  trace (run_threads shop sample_settings (noon + timedelta_minutes 15))
  = [ CallListThreads 5 0 (threads_answer shop);
      CallListMessages (JStr "t1") (messages_answer shop (JStr "t1"));
      CallListMessages (JStr "t2") (messages_answer shop (JStr "t2")) ].
Proof. vm_compute. reflexivity. Qed.

(** The ongoing dispute [i1], opened by the buyer, is answered with the
    issue template; the chat of the closed dispute [i2] is not fetched. *)
Example shop_issues_trace :
  trace (run_issues shop sample_settings five_past)
  = [ CallListIssues 5 0 (issues_answer shop);
      CallListIssueMessages (JStr "i1") (chat_answer shop (JStr "i1"));
      CallPostIssueMessage (JStr "i1") "Dziekujemy za zgloszenie problemu." posted ].
Proof. vm_compute. reflexivity. Qed.

Example shop_long_chat_trace :
  trace (run_issues shop_long_chat sample_settings five_past)
  = [ CallListIssues 5 0 (issues_answer shop);
      CallListIssueMessages (JStr "i1") (chat_answer shop_long_chat (JStr "i1")) ].
Proof. vm_compute. reflexivity. Qed.
End shop.

Lemma process_threads_skips_ineligible_witness :
  (forall payload last,
      In (CallListMessages (JStr "t2") (Return payload))
         (trace (process_threads samples.sample_fromisoformat
                   (samples.scripted samples.shop) samples.sample_settings
                   samples.five_past samples.five_past)) ->
      thread_last_message payload = Some last ->
      flagged_as_interlocutor last = false \/ has_type last "ASK_QUESTION" = false)
  /\ forall (text : string) (r : result json),
      ~ In (CallPostMessage (JStr "t2") text r)
           (trace (process_threads samples.sample_fromisoformat
                     (samples.scripted samples.shop) samples.sample_settings
                     samples.five_past samples.five_past)).
Proof.
  assert (H : forall payload last,
             In (CallListMessages (JStr "t2") (Return payload))
                (trace (process_threads samples.sample_fromisoformat
                          (samples.scripted samples.shop) samples.sample_settings
                          samples.five_past samples.five_past)) ->
             thread_last_message payload = Some last ->
             flagged_as_interlocutor last = false
             \/ has_type last "ASK_QUESTION" = false).
  { intros payload last Hin Hlast.
    pose proof shop_threads_trace as Htr. unfold samples.run_threads in Htr.
    rewrite Htr in Hin. clear Htr.
    destruct Hin as [ Hin | [ Hin | [ Hin | [ Hin | [] ] ] ] ]; try discriminate Hin.
    injection Hin as <-.
    vm_compute in Hlast. injection Hlast as <-.
    left. vm_compute. reflexivity. }
  split; [ exact H | ].
  exact (proj1 (process_threads_skips_ineligible samples.sample_fromisoformat
                  (samples.scripted samples.shop) samples.sample_settings)
           samples.five_past samples.five_past (JStr "t2") H).
Defined.

Lemma process_issues_caps_chat_length_witness :
  (forall payload,
      In (CallListIssueMessages (JStr "i1") (Return payload))
         (trace (process_issues samples.sample_fromisoformat
                   (samples.scripted samples.shop_long_chat) samples.sample_settings
                   samples.five_past samples.five_past)) ->
      exists n, chat_length payload = Some n /\ 2 < n)
  /\ forall (text : string) (r : result json),
      ~ In (CallPostIssueMessage (JStr "i1") text r)
           (trace (process_issues samples.sample_fromisoformat
                     (samples.scripted samples.shop_long_chat) samples.sample_settings
                     samples.five_past samples.five_past)).
Proof.
  assert (H : forall payload,
             In (CallListIssueMessages (JStr "i1") (Return payload))
                (trace (process_issues samples.sample_fromisoformat
                          (samples.scripted samples.shop_long_chat)
                          samples.sample_settings samples.five_past samples.five_past)) ->
             exists n, chat_length payload = Some n /\ 2 < n).
  { intros payload Hin.
    pose proof shop_long_chat_trace as Htr. unfold samples.run_issues in Htr.
    rewrite Htr in Hin. clear Htr.
    destruct Hin as [ Hin | [ Hin | [] ] ]; try discriminate Hin.
    injection Hin as <-.
    exists 3. split; [ vm_compute; reflexivity | lia ]. }
  split; [ exact H | ].
  exact (proj1 (process_issues_caps_chat_length samples.sample_fromisoformat
                  (samples.scripted samples.shop_long_chat) samples.sample_settings)
           samples.five_past samples.five_past (JStr "i1") H).
Defined.

(** C7, as the claim has it, fails: when the messages of thread [t1]
    cannot be fetched, the failure leaves the turn of [t1] and the loop of
    [process_threads], and thread [t2] is not looked at in that cycle. *)
Lemma fetch_failure_leaves_the_thread_loop :
  value (process_thread samples.sample_fromisoformat
           (samples.scripted samples.shop_fetch_down) samples.sample_settings
           (samples.thread "t1") samples.five_past)
  = Raise (HTTPError 500)
  /\ value (process_threads samples.sample_fromisoformat
              (samples.scripted samples.shop_fetch_down) samples.sample_settings
              samples.five_past samples.five_past)
     = Raise (HTTPError 500)
  /\ trace (process_threads samples.sample_fromisoformat
              (samples.scripted samples.shop_fetch_down) samples.sample_settings
              samples.five_past samples.five_past)
     = [ CallListThreads 5 0 (samples.threads_answer samples.shop);
         CallListMessages (JStr "t1") (Raise (HTTPError 500)) ].
Proof. repeat split; vm_compute; reflexivity. Qed.

(** When the post to thread [t1] is refused, the refusal is printed and
    thread [t2] is looked at all the same. *)
Lemma failures_are_contained_witness :
  In (CallPostMessage (JStr "t1") "Dziekujemy za kontakt!" (Raise (HTTPError 503)))
     (trace (process_thread samples.sample_fromisoformat
               (samples.scripted samples.shop_post_down) samples.sample_settings
               (samples.thread "t1") samples.five_past))
  /\ value (process_thread samples.sample_fromisoformat
              (samples.scripted samples.shop_post_down) samples.sample_settings
              (samples.thread "t1") samples.five_past)
     = Return tt
  /\ trace (for_each (process_thread samples.sample_fromisoformat
                        (samples.scripted samples.shop_post_down) samples.sample_settings)
              [samples.thread "t1"; samples.thread "t2"] samples.five_past)
     = [ CallListMessages (JStr "t1") (samples.messages_answer samples.shop (JStr "t1"));
         CallPostMessage (JStr "t1") "Dziekujemy za kontakt!" (Raise (HTTPError 503));
         Print "post_message error" (HTTPError 503);
         CallListMessages (JStr "t2") (samples.messages_answer samples.shop (JStr "t2")) ].
Proof.
  assert (H : In (CallPostMessage (JStr "t1") "Dziekujemy za kontakt!"
                    (Raise (HTTPError 503)))
                 (trace (process_thread samples.sample_fromisoformat
                           (samples.scripted samples.shop_post_down)
                           samples.sample_settings
                           (samples.thread "t1") samples.five_past))).
  { vm_compute. right. left. reflexivity. }
  split; [ exact H | ].
  destruct (proj1 (failures_are_contained samples.sample_fromisoformat
                     (samples.scripted samples.shop_post_down) samples.sample_settings)
              (samples.thread "t1") [samples.thread "t2"] samples.five_past
              _ _ _ H) as [ Hv Htr ].
  split; [ exact Hv | ].
  rewrite Htr. vm_compute. reflexivity.
Defined.

(** C8, as the claim has it, fails: with an empty first-contact template
    the decision engine returns should_reply for the question of thread
    [t1], and nothing is posted. *)
Lemma empty_template_is_not_posted :
  thread_last_message
    (JDict {[ "messages" :=
       JList [samples.question "2024-01-01T12:00:00Z" true;
              samples.question "2024-01-01T11:00:00Z" false] ]})
  = Some (samples.question "2024-01-01T12:00:00Z" true)
  /\ flagged_as_interlocutor (samples.question "2024-01-01T12:00:00Z" true) = true
  /\ has_type (samples.question "2024-01-01T12:00:00Z" true) "ASK_QUESTION" = true
  /\ parse_timestamp samples.sample_fromisoformat
       (created_at_of (samples.question "2024-01-01T12:00:00Z" true)) samples.five_past
     = Return samples.noon
  /\ decide_autoreply samples.five_past samples.noon samples.silent_settings false
     = {| should_reply := true; message := Some ""; reason := "ask message" |}
  /\ trace (process_thread samples.sample_fromisoformat
              (samples.scripted samples.shop) samples.silent_settings
              (samples.thread "t1") samples.five_past)
     = [ CallListMessages (JStr "t1") (samples.messages_answer samples.shop (JStr "t1")) ].
Proof. repeat split; vm_compute; reflexivity. Qed.

Lemma reply_posted_once_witness :
  trace (process_thread samples.sample_fromisoformat
           (samples.scripted samples.shop) samples.sample_settings
           (samples.thread "t1") samples.five_past)
  = [ CallListMessages (JStr "t1") (samples.messages_answer samples.shop (JStr "t1"));
      CallPostMessage (JStr "t1") "Dziekujemy za kontakt!" samples.posted ].
Proof.
  refine (proj1 (reply_posted_once samples.sample_fromisoformat
                   (samples.scripted samples.shop) samples.sample_settings)
            (samples.thread "t1") samples.five_past (JStr "t1")
            (JDict {[ "messages" :=
               JList [samples.question "2024-01-01T12:00:00Z" true;
                      samples.question "2024-01-01T11:00:00Z" false] ]})
            (samples.question "2024-01-01T12:00:00Z" true)
            samples.noon "Dziekujemy za kontakt!" _ _ _ _ _ _ _ _ _ _);
    try (vm_compute; reflexivity).
  discriminate.
Defined.

Lemma legacy_timestamp_never_stale_witness :
  _ts (samples.legacy_question "1999-12-31T23:59:59Z")
  = Return (JStr "1999-12-31T23:59:59Z")
  /\ parse_timestamp samples.sample_fromisoformat
       (created_at_of (samples.legacy_question "1999-12-31T23:59:59Z")) samples.five_past
     = Return samples.five_past
  /\ trace (process_thread samples.sample_fromisoformat
              (samples.scripted samples.shop_legacy) samples.sample_settings
              (samples.thread "t1") samples.five_past)
     = [ CallListMessages (JStr "t1")
           (samples.messages_answer samples.shop_legacy (JStr "t1"));
         CallPostMessage (JStr "t1") "Dziekujemy za kontakt!" samples.posted ].
Proof.
  destruct (legacy_timestamp_never_stale samples.sample_fromisoformat
              (samples.scripted samples.shop_legacy) samples.sample_settings
              (samples.legacy_fields "1999-12-31T23:59:59Z") "1999-12-31T23:59:59Z")
    as (Hts & Hnow & Hpost).
  - vm_compute. reflexivity.
  - left. vm_compute. reflexivity.
  - discriminate.
  - split; [ exact Hts | ]. split; [ apply (Hnow samples.five_past) | ].
    refine (Hpost (samples.thread "t1") samples.five_past (JStr "t1")
              (JDict {[ "messages" :=
                 JList [samples.legacy_question "1999-12-31T23:59:59Z"] ]})
              _ _ _ _ _ _ _);
      try (vm_compute; reflexivity).
    discriminate.
Defined.


(** The reply to issue [i1] of the sample shop. *)
Lemma process_issues_requires_ongoing_buyer_witness :
  In (CallPostIssueMessage (JStr "i1") "Dziekujemy za zgloszenie problemu." samples.posted)
     (trace (process_issues samples.sample_fromisoformat
               (samples.scripted samples.shop) samples.sample_settings
               samples.five_past samples.five_past))
  /\ exists page issue payload last,
      In (CallListIssues 5 0 (Return page))
         (trace (process_issues samples.sample_fromisoformat
                   (samples.scripted samples.shop) samples.sample_settings
                   samples.five_past samples.five_past))
      /\ In issue (issues_of page)
      /\ py_get issue "id" JNull = Return (JStr "i1")
      /\ status_is issue "DISPUTE_ONGOING" = true
      /\ In (CallListIssueMessages (JStr "i1") (Return payload))
            (trace (process_issues samples.sample_fromisoformat
                      (samples.scripted samples.shop) samples.sample_settings
                      samples.five_past samples.five_past))
      /\ issue_last_message payload = Some last
      /\ author_role_is last "BUYER" = true.
Proof.
  assert (H : In (CallPostIssueMessage (JStr "i1") "Dziekujemy za zgloszenie problemu."
                    samples.posted)
                 (trace (process_issues samples.sample_fromisoformat
                           (samples.scripted samples.shop) samples.sample_settings
                           samples.five_past samples.five_past))).
  { pose proof shop_issues_trace as Htr. unfold samples.run_issues in Htr.
    rewrite Htr. right. right. left. reflexivity. }
  split; [ exact H | ].
  exact (proj1 (process_issues_requires_ongoing_buyer samples.sample_fromisoformat
                  (samples.scripted samples.shop) samples.sample_settings)
           samples.five_past samples.five_past _ _ _ H).
Defined.

(** The two messages of thread [t1], fetched latest first, are put in the
    order of their times, and the question asked at noon is the one the
    turn replies to. *)
Lemma messages_sorted_by_creation_time_witness :
  list_sort _ts [samples.question "2024-01-01T12:00:00Z" true;
                 samples.question "2024-01-01T11:00:00Z" false]
  = Return [samples.question "2024-01-01T11:00:00Z" false;
            samples.question "2024-01-01T12:00:00Z" true]
  /\ process_thread samples.sample_fromisoformat (samples.scripted samples.shop)
       samples.sample_settings (samples.thread "t1") samples.five_past
     = prepend
         [CallListMessages (JStr "t1") (samples.messages_answer samples.shop (JStr "t1"))]
         (thread_reply samples.sample_fromisoformat (samples.scripted samples.shop)
            samples.sample_settings (JStr "t1") samples.five_past
            (samples.question "2024-01-01T12:00:00Z" true) samples.five_past).
Proof.
  assert (Hsort : list_sort _ts [samples.question "2024-01-01T12:00:00Z" true;
                                 samples.question "2024-01-01T11:00:00Z" false]
                  = Return [samples.question "2024-01-01T11:00:00Z" false;
                            samples.question "2024-01-01T12:00:00Z" true]).
  { vm_compute. reflexivity. }
  split; [ exact Hsort | ].
  refine (proj1 (proj2 (proj2 (proj2
            (messages_sorted_by_creation_time samples.sample_fromisoformat
               (samples.scripted samples.shop) samples.sample_settings))))
            (samples.thread "t1") samples.five_past (JStr "t1")
            (JDict {[ "messages" :=
               JList [samples.question "2024-01-01T12:00:00Z" true;
                      samples.question "2024-01-01T11:00:00Z" false] ]})
            _ _ _ _ _ _ _ _ Hsort _);
    try (vm_compute; reflexivity).
  discriminate.
Defined.


(** * Further properties of the code *)

Import observations triggers.

(** ** app/rules.py *)

(** X1: a message dated at or after [now] (a clock ahead of ours) is never
    too old, and a message that is answered at some [now] is answered at
    every earlier one: the cutoff only ever turns replies off as time
    passes. *)
Theorem decide_autoreply_only_ages :
  (forall (now msg_time : datetime) (settings : Settings) (is_issue : bool),
      now <= msg_time ->
      should_reply (decide_autoreply now msg_time settings is_issue) = true)
  /\ (forall (now now' msg_time : datetime) (settings : Settings) (is_issue : bool),
         now' <= now ->
         should_reply (decide_autoreply now msg_time settings is_issue) = true ->
         decide_autoreply now' msg_time settings is_issue
         = decide_autoreply now msg_time settings is_issue).
Proof.
  split.
  - intros now msg_time settings is_issue Hfuture. unfold decide_autoreply.
    change (timedelta_minutes 10) with 600000000.
    destruct (Z.ltb_spec 600000000 (now - msg_time)) as [ Hold | _ ]; [ lia | ].
    destruct is_issue; reflexivity.
  - intros now now' msg_time settings is_issue Hle. unfold decide_autoreply.
    change (timedelta_minutes 10) with 600000000.
    destruct (Z.ltb_spec 600000000 (now - msg_time)) as [ Hold | Hfresh ];
      [ discriminate | ].
    intros _.
    destruct (Z.ltb_spec 600000000 (now' - msg_time)) as [ Hold | _ ]; [ lia | ].
    reflexivity.
Qed.

Lemma decide_autoreply_only_ages_witness :
  should_reply
    (decide_autoreply samples.noon samples.five_past samples.sample_settings false)
  = true
  /\ decide_autoreply samples.noon samples.noon samples.sample_settings true
     = decide_autoreply samples.five_past samples.noon samples.sample_settings true.
Proof.
  split.
  - apply (proj1 decide_autoreply_only_ages). vm_compute. discriminate.
  - apply (proj2 decide_autoreply_only_ages).
    + vm_compute. discriminate.
    + vm_compute. reflexivity.
Defined.


(** ** app/main.py: [parse_timestamp] *)

Section timestamps.
Variable fromisoformat : string -> option datetime.


End timestamps.

(** ** Traces of the processors *)

Section closed_traces.
Context {W : Type}.

(** A property of traces that holds of the empty trace and of the traces
    of the turns, and that appending keeps, holds of the trace of a loop. *)
Lemma for_each_trace_closed (P : list event -> Prop) (body : json -> M W unit) :
  P [] -> (forall a b, P a -> P b -> P (a ++ b)%list) ->
  (forall x w, P (trace (body x w))) ->
  forall l w, P (trace (for_each body l w)).
Proof.
  intros Hnil Happ Hbody l. induction l as [ | x l IH ]; intros w; [ exact Hnil | ].
  simpl. unfold bindM. destruct (value (body x w)); simpl.
  - apply Happ; [ apply Hbody | apply IH ].
  - apply Hbody.
Qed.

Lemma for_each_returns (body : json -> M W unit) (l : list json) :
  (forall x w, In x l -> value (body x w) = Return tt) ->
  forall w, value (for_each body l w) = Return tt.
Proof.
  induction l as [ | x l IH ]; intros Hbody w; [ reflexivity | ].
  simpl. unfold bindM. rewrite (Hbody x w (or_introl eq_refl)). simpl.
  apply IH. intros y w' Hy. apply Hbody. right. exact Hy.
Qed.

Lemma count_app (p : event -> bool) (a b : list event) :
  count p (a ++ b) = (count p a + count p b)%nat.
Proof. unfold count. rewrite filter_app, length_app. reflexivity. Qed.
End closed_traces.

Section shapes.
Variable fromisoformat : string -> option datetime.
Variable B : Backend.
Variable settings : Settings.

(** The reply to a last message leaves nothing in the trace, or one post
    of the first-contact template, which is then not empty and answers a
    message at most ten minutes old. *)
Lemma thread_reply_shape (id : json) (now : datetime) (last : json) (w : World B) :
  trace (thread_reply fromisoformat B settings id now last w) = []
  \/ exists r,
       trace (thread_reply fromisoformat B settings id now last w)
       = CallPostMessage id (autoresponse_message settings) r
         :: print_of "post_message error" r
       /\ autoresponse_message settings <> ""
       /\ value (thread_reply fromisoformat B settings id now last w) = Return tt
       /\ now - msg_time_spec fromisoformat (created_at_of last) now <= 600000000.
Proof.
  destruct (flagged_as_interlocutor last) eqn:Hflag;
    [ | left; apply thread_reply_ineligible; left; exact Hflag ].
  destruct (has_type last "ASK_QUESTION") eqn:Htype;
    [ | left; apply thread_reply_ineligible; right; exact Htype ].
  rewrite thread_reply_eligible by assumption.
  rewrite post_reply_trace, post_reply_value. unfold decide_autoreply.
  change (timedelta_minutes 10) with 600000000.
  destruct (Z.ltb_spec 600000000
              (now - msg_time_spec fromisoformat (created_at_of last) now))
    as [ Hold | Hfresh ]; [ left; reflexivity | ].
  simpl. destruct (autoresponse_message settings =? "")%string eqn:Hempty; simpl;
    [ left; reflexivity | right ].
  apply String.eqb_neq in Hempty. eauto.
Qed.

Lemma issue_reply_shape (id : json) (now : datetime) (last : json) (w : World B) :
  trace (issue_reply fromisoformat B settings id now last w) = []
  \/ exists r,
       trace (issue_reply fromisoformat B settings id now last w)
       = CallPostIssueMessage id (autoresponse_issue settings) r
         :: print_of "post_issue_message error" r
       /\ autoresponse_issue settings <> ""
       /\ value (issue_reply fromisoformat B settings id now last w) = Return tt
       /\ now - msg_time_spec fromisoformat (created_at_of last) now <= 600000000.
Proof.
  destruct (author_role_is last "BUYER") eqn:Hrole;
    [ | left; apply issue_reply_ineligible; exact Hrole ].
  rewrite issue_reply_eligible by assumption.
  rewrite post_reply_trace, post_reply_value. unfold decide_autoreply.
  change (timedelta_minutes 10) with 600000000.
  destruct (Z.ltb_spec 600000000
              (now - msg_time_spec fromisoformat (created_at_of last) now))
    as [ Hold | Hfresh ]; [ left; reflexivity | ].
  simpl. destruct (autoresponse_issue settings =? "")%string eqn:Hempty; simpl;
    [ left; reflexivity | right ].
  apply String.eqb_neq in Hempty. eauto.
Qed.

(** The turn of a thread: nothing; or the fetch of its messages under its
    identifier, alone; or that fetch, successful, and one post of the
    first-contact template to the same thread. *)
Lemma process_thread_shape (th : json) (w : World B) :
  trace (process_thread fromisoformat B settings th w) = []
  \/ exists id r,
       thread_id_of th = Return id /\ truthy id = true
       /\ (trace (process_thread fromisoformat B settings th w)
           = [CallListMessages id r]
           \/ exists payload r',
                r = Return payload
                /\ trace (process_thread fromisoformat B settings th w)
                   = CallListMessages id r
                     :: CallPostMessage id (autoresponse_message settings) r'
                     :: print_of "post_message error" r'
                /\ autoresponse_message settings <> ""
                /\ value (process_thread fromisoformat B settings th w) = Return tt).
Proof.
  unfold process_thread. rewrite bindM_now.
  destruct (thread_id_of th) as [ id | ] eqn:Hid; [ | left; reflexivity ].
  rewrite bindM_lift_Return.
  destruct (truthy id) eqn:Htruthy; [ | left; reflexivity ]. simpl.
  right. exists id, (fst (list_messages B id (snd (utcnow B w)))).
  split; [ reflexivity | ]. split; [ exact Htruthy | ].
  rewrite bindM_call.
  destruct (fst (list_messages B id (snd (utcnow B w)))) as [ payload | e ];
    [ | left; reflexivity ].
  destruct (get_or_get payload "messages" "items") as [ messages | ];
    [ | left; reflexivity ].
  rewrite bindM_lift_Return.
  destruct (truthy messages); [ | left; reflexivity ]. simpl.
  destruct (py_sort _ts messages) as [ sorted | ]; [ | left; reflexivity ].
  rewrite bindM_lift_Return.
  destruct (py_last sorted) as [ last | ]; [ | left; reflexivity ].
  rewrite bindM_lift_Return. simpl.
  destruct (thread_reply_shape id (fst (utcnow B w)) last
              (snd (list_messages B id (snd (utcnow B w)))))
    as [ Hnone | (r' & Htr & Hne & Hv & _) ].
  - left. rewrite Hnone. reflexivity.
  - right. exists payload, r'. rewrite Htr, Hv. auto.
Qed.

(** The inspection of a chat: its fetch, alone; or that fetch,
    successful, and one post of the issue template to the same issue. *)
Lemma process_issue_chat_shape (id : json) (now : datetime) (w : World B) :
  exists r,
    trace (process_issue_chat fromisoformat B settings id now w)
    = [CallListIssueMessages id r]
    \/ exists payload r',
         r = Return payload
         /\ trace (process_issue_chat fromisoformat B settings id now w)
            = CallListIssueMessages id r
              :: CallPostIssueMessage id (autoresponse_issue settings) r'
              :: print_of "post_issue_message error" r'
         /\ autoresponse_issue settings <> ""
         /\ value (process_issue_chat fromisoformat B settings id now w) = Return tt.
Proof.
  exists (fst (list_issue_messages B id w)).
  unfold process_issue_chat. rewrite bindM_call.
  destruct (fst (list_issue_messages B id w)) as [ payload | e ];
    [ | left; reflexivity ].
  destruct (chat_of payload) as [ messages | ]; [ | left; reflexivity ].
  rewrite bindM_lift_Return.
  destruct (truthy messages); [ | left; reflexivity ]. simpl.
  destruct (py_len messages) as [ n | ]; [ | left; reflexivity ].
  rewrite bindM_lift_Return.
  destruct (2 <? n)%Z; [ left; reflexivity | ].
  destruct (py_sort _ts messages) as [ sorted | ]; [ | left; reflexivity ].
  rewrite bindM_lift_Return.
  destruct (py_last sorted) as [ last | ]; [ | left; reflexivity ].
  rewrite bindM_lift_Return. simpl.
  destruct (issue_reply_shape id now last (snd (list_issue_messages B id w)))
    as [ Hnone | (r' & Htr & Hne & Hv & _) ].
  - left. rewrite Hnone. reflexivity.
  - right. exists payload, r'. rewrite Htr, Hv. auto.
Qed.

(** The turn of an issue: nothing, or the inspection of its chat under its
    identifier, followed by the print of what the outer [try] caught. *)
Lemma process_issue_shape (issue : json) (w : World B) :
  trace (process_issue fromisoformat B settings issue w) = []
  \/ exists id,
       py_get issue "id" JNull = Return id /\ truthy id = true
       /\ status_is issue "DISPUTE_ONGOING" = true
       /\ trace (process_issue fromisoformat B settings issue w)
          = (trace (process_issue_chat fromisoformat B settings id
                      (fst (utcnow B w)) (snd (utcnow B w)))
             ++ print_of "processing error"
                  (value (process_issue_chat fromisoformat B settings id
                            (fst (utcnow B w)) (snd (utcnow B w)))))%list.
Proof.
  unfold process_issue, status_is. rewrite bindM_now.
  destruct (py_get issue "id" JNull) as [ id | ]; [ | left; reflexivity ].
  rewrite bindM_lift_Return.
  destruct (truthy id) eqn:Htruthy; [ | left; reflexivity ]. simpl.
  destruct (status_of issue) as [ status | ]; [ | left; reflexivity ].
  rewrite bindM_lift_Return.
  destruct (eq_str status "DISPUTE_ONGOING") eqn:Hst; [ | left; reflexivity ]. simpl.
  right. exists id. split; [ reflexivity | ]. split; [ exact Htruthy | ].
  split; [ reflexivity | ].
  apply try_except_print.
Qed.

(** A property of traces kept by appending holds of the trace of
    [process_threads] when it holds of the fetch of the page and of the
    turns, and likewise for [process_issues]. *)
Lemma process_threads_trace_closed (P : list event -> Prop) :
  P [] -> (forall a b, P a -> P b -> P (a ++ b)%list) ->
  (forall r, P [CallListThreads (max_threads_per_poll settings) 0 r]) ->
  (forall th w, P (trace (process_thread fromisoformat B settings th w))) ->
  forall now w, P (trace (process_threads fromisoformat B settings now w)).
Proof.
  intros Hnil Happ Hlist Hturn now w. unfold process_threads. rewrite bindM_call.
  destruct (fst (list_threads B _ 0 w)) as [ page | e ]; [ | apply Hlist ].
  destruct (get_or_get page "threads" "items") as [ threads | e ]; [ | apply Hlist ].
  rewrite bindM_lift_Return.
  destruct (py_len threads) as [ n | e ]; [ | apply Hlist ].
  rewrite bindM_lift_Return.
  destruct (py_iter threads) as [ items | e ]; [ | apply Hlist ].
  rewrite bindM_lift_Return.
  apply (Happ [_]); [ apply Hlist | ].
  apply for_each_trace_closed; assumption.
Qed.

Lemma process_issues_trace_closed (P : list event -> Prop) :
  P [] -> (forall a b, P a -> P b -> P (a ++ b)%list) ->
  (forall r, P [CallListIssues (max_issues_per_poll settings) 0 r]) ->
  (forall issue w, P (trace (process_issue fromisoformat B settings issue w))) ->
  forall now w, P (trace (process_issues fromisoformat B settings now w)).
Proof.
  intros Hnil Happ Hlist Hturn now w. unfold process_issues. rewrite bindM_call.
  destruct (fst (list_issues B _ 0 w)) as [ page | e ]; [ | apply Hlist ].
  destruct (py_get page "issues" (JList [])) as [ got | e ]; [ | apply Hlist ].
  rewrite bindM_lift_Return.
  destruct (py_len (py_or got (JList []))) as [ n | e ]; [ | apply Hlist ].
  rewrite bindM_lift_Return.
  destruct (py_iter (py_or got (JList []))) as [ items | e ]; [ | apply Hlist ].
  rewrite bindM_lift_Return.
  apply (Happ [_]); [ apply Hlist | ].
  apply for_each_trace_closed; assumption.
Qed.

(** The trace of a cycle is the trace of the thread processor, followed,
    when that one returned and the toggle is on, by the trace of the issue
    processor. *)
Lemma process_once_trace (w : World B) :
  trace (process_once fromisoformat B settings w)
  = (trace (process_threads fromisoformat B settings (fst (utcnow B w)) (snd (utcnow B w)))
     ++ match value (process_threads fromisoformat B settings
                       (fst (utcnow B w)) (snd (utcnow B w))) with
        | Return _ =>
            if config.process_issues settings
            then trace (process_issues fromisoformat B settings (fst (utcnow B w))
                          (world (process_threads fromisoformat B settings
                                    (fst (utcnow B w)) (snd (utcnow B w)))))
            else []
        | Raise _ => []
        end)%list.
Proof.
  unfold process_once. rewrite bindM_now. unfold bindM.
  destruct (value (process_threads _ _ _ _ _)); simpl.
  - destruct (config.process_issues settings); reflexivity.
  - rewrite app_nil_r. reflexivity.
Qed.

Lemma process_once_trace_closed (P : list event -> Prop) :
  P [] -> (forall a b, P a -> P b -> P (a ++ b)%list) ->
  (forall now w, P (trace (process_threads fromisoformat B settings now w))) ->
  (forall now w, P (trace (process_issues fromisoformat B settings now w))) ->
  forall w, P (trace (process_once fromisoformat B settings w)).
Proof.
  intros Hnil Happ Hthreads Hissues w. rewrite process_once_trace.
  apply Happ; [ apply Hthreads | ].
  destruct (value _); [ | exact Hnil ].
  destruct (config.process_issues settings); [ apply Hissues | exact Hnil ].
Qed.

Lemma poll_turns_trace_closed (P : list event -> Prop) (interval : Z) :
  P [] -> (forall a b, P a -> P b -> P (a ++ b)%list) ->
  (forall w, P (trace (process_once fromisoformat B settings w))) ->
  (forall e, P [Print "[poll] error" e]) ->
  P [Sleep interval] ->
  forall turns w, P (trace (poll_turns fromisoformat B settings interval turns w)).
Proof.
  intros Hnil Happ Honce Hprint Hsleep turns.
  induction turns as [ | n IH ]; intros w; [ exact Hnil | ].
  rewrite poll_turns_step.
  apply Happ; [ apply Honce | ].
  apply Happ; [ destruct (value _); [ exact Hnil | apply Hprint ] | ].
  apply (Happ [_]); [ exact Hsleep | apply IH ].
Qed.
End shapes.

(** ** app/main.py: the thread processor *)

Section thread_turns.
Variable fromisoformat : string -> option datetime.
Variable B : Backend.
Variable settings : Settings.


(** X5: a thread whose fetched page holds no message (no [messages] and
    no [items] entry, or empty ones) costs its fetch and nothing else:
    nothing is posted and the turn ends normally. *)
Theorem thread_without_messages :
  forall (th : json) (w : World B) (id : json) (m : gmap string json),
    thread_id_of th = Return id -> truthy id = true ->
    fst (list_messages B id (snd (utcnow B w))) = Return (JDict m) ->
    m !! "messages" = None \/ m !! "messages" = Some (JList []) ->
    m !! "items" = None \/ m !! "items" = Some (JList []) ->
    process_thread fromisoformat B settings th w
    = {| value := Return tt;
         world := snd (list_messages B id (snd (utcnow B w)));
         trace := [CallListMessages id (Return (JDict m))] |}.
Proof.
  intros th w id m Hid Htruthy Hfetch Hmessages Hitems.
  unfold process_thread.
  rewrite bindM_now, Hid, bindM_lift_Return, Htruthy. simpl.
  rewrite bindM_call, Hfetch.
  assert (Hget : get_or_get (JDict m) "messages" "items" = Return (JList [])).
  { unfold get_or_get. simpl.
    destruct Hmessages as [ -> | -> ]; destruct Hitems as [ -> | -> ]; reflexivity. }
  rewrite Hget, bindM_lift_Return. reflexivity.
Qed.

(** X6: a thread whose last message has a [createdAt] that parses to
    more than ten minutes before the [now] of the turn gets no reply,
    whoever wrote it; and neither does an issue whose last message, the
    buyer's, is that old. *)
Theorem stale_last_message_gets_no_reply :
  (forall (th : json) (w : World B) (id payload last : json) (s : string) (t : datetime),
      thread_id_of th = Return id -> truthy id = true ->
      fst (list_messages B id (snd (utcnow B w))) = Return payload ->
      thread_last_message payload = Some last ->
      created_at_of last = JStr s -> s <> "" ->
      fromisoformat (str_replace "Z" "+00:00" s) = Some t ->
      600000000 < fst (utcnow B w) - t ->
      trace (process_thread fromisoformat B settings th w)
      = [CallListMessages id (Return payload)])
  /\ (forall (issue : json) (w : World B) (id payload last : json) (n : Z)
             (s : string) (t : datetime),
         py_get issue "id" JNull = Return id -> truthy id = true ->
         status_is issue "DISPUTE_ONGOING" = true ->
         fst (list_issue_messages B id (snd (utcnow B w))) = Return payload ->
         chat_length payload = Some n -> n <= 2 ->
         issue_last_message payload = Some last ->
         author_role_is last "BUYER" = true ->
         created_at_of last = JStr s -> s <> "" ->
         fromisoformat (str_replace "Z" "+00:00" s) = Some t ->
         600000000 < fst (utcnow B w) - t ->
         trace (process_issue fromisoformat B settings issue w)
         = [CallListIssueMessages id (Return payload)]).
Proof.
  assert (Hold : forall (last : json) (s : string) (t now : datetime) (is_issue : bool),
             created_at_of last = JStr s -> s <> "" ->
             fromisoformat (str_replace "Z" "+00:00" s) = Some t ->
             600000000 < now - t ->
             decide_autoreply now (msg_time_spec fromisoformat (created_at_of last) now)
               settings is_issue
             = mkDecision false None "message too old").
  { intros last s t now is_issue Hat Hne Hparse Hlate. rewrite Hat.
    destruct s as [ | c s ]; [ congruence | ].
    unfold msg_time_spec. rewrite Hparse. unfold decide_autoreply.
    change (timedelta_minutes 10) with 600000000.
    apply Z.ltb_lt in Hlate. rewrite Hlate. reflexivity. }
  split.
  - intros th w id payload last s t Hid Htruthy Hfetch Hlast Hat Hne Hparse Hlate.
    rewrite (process_thread_run fromisoformat B settings th w id payload last)
      by assumption.
    simpl.
    destruct (flagged_as_interlocutor last) eqn:Hflag;
      [ | rewrite thread_reply_ineligible by (left; exact Hflag); reflexivity ].
    destruct (has_type last "ASK_QUESTION") eqn:Htype;
      [ | rewrite thread_reply_ineligible by (right; exact Htype); reflexivity ].
    rewrite thread_reply_eligible by assumption.
    rewrite (Hold last s t) by assumption. reflexivity.
  - intros issue w id payload last n s t Hid Htruthy Hst Hfetch Hlen Hn Hlast Hrole
           Hat Hne Hparse Hlate.
    rewrite (process_issue_reply fromisoformat B settings issue w id payload last n)
      by assumption.
    rewrite (Hold last s t) by assumption. reflexivity.
Qed.
End thread_turns.

(** ** app/main.py: what a cycle does and never does *)

Section cycle_invariants.
Variable fromisoformat : string -> option datetime.
Variable B : Backend.
Variable settings : Settings.

Lemma print_of_Forall {A : Type} (P : event -> Prop) (line : string) (r : result A) :
  (forall e, P (Print line e)) -> Forall P (print_of line r).
Proof. intros H. destruct r; simpl; auto. Qed.

Lemma process_thread_events (th : json) (w : World B) :
  Forall (thread_turn_event settings)
    (trace (process_thread fromisoformat B settings th w)).
Proof.
  destruct (process_thread_shape fromisoformat B settings th w)
    as [ -> | (id & r & _ & _ & [ -> | (p & r' & _ & -> & Hne & _) ]) ].
  - constructor.
  - constructor; [ exact I | constructor ].
  - constructor; [ exact I | ]. constructor; [ split; [ reflexivity | exact Hne ] | ].
    apply print_of_Forall. intros e. reflexivity.
Qed.

Lemma process_issue_events (issue : json) (w : World B) :
  Forall (issue_turn_event settings)
    (trace (process_issue fromisoformat B settings issue w)).
Proof.
  destruct (process_issue_shape fromisoformat B settings issue w)
    as [ -> | (id & _ & _ & _ & ->) ]; [ constructor | ].
  apply Forall_app. split.
  - destruct (process_issue_chat_shape fromisoformat B settings id
                (fst (utcnow B w)) (snd (utcnow B w)))
      as (r & [ -> | (p & r' & _ & -> & Hne & _) ]).
    + constructor; [ exact I | constructor ].
    + constructor; [ exact I | ].
      constructor; [ split; [ reflexivity | exact Hne ] | ].
      apply print_of_Forall. intros e. left. reflexivity.
  - apply print_of_Forall. intros e. right. reflexivity.
Qed.

Lemma Forall_impl_turn (P Q : event -> Prop) (tr : list event) :
  (forall ev, P ev -> Q ev) -> Forall P tr -> Forall Q tr.
Proof. intros H HP. induction HP; constructor; auto. Qed.

Lemma thread_turn_is_cycle (ev : event) :
  thread_turn_event settings ev -> cycle_event settings ev.
Proof. destruct ev; simpl; auto; intros []. Qed.

Lemma issue_turn_is_cycle (ev : event) :
  issue_turn_event settings ev -> cycle_event settings ev.
Proof. destruct ev; simpl; auto; intros []. Qed.

Lemma process_threads_events (now : datetime) (w : World B) :
  Forall (fun ev => cycle_event settings ev /\ is_thread_event ev = true)
    (trace (process_threads fromisoformat B settings now w)).
Proof.
  apply process_threads_trace_closed.
  - constructor.
  - intros a b Ha Hb. apply Forall_app. auto.
  - intros r. constructor; [ | constructor ]. simpl. auto.
  - intros th w'.
    apply (Forall_impl_turn (thread_turn_event settings));
      [ | apply process_thread_events ].
    intros ev Hev. split; [ apply thread_turn_is_cycle; exact Hev | ].
    destruct ev; simpl in Hev |- *; try reflexivity; try contradiction.
    subst line. reflexivity.
Qed.

Lemma process_issues_events (now : datetime) (w : World B) :
  Forall (fun ev => cycle_event settings ev /\ is_issue_event ev = true)
    (trace (process_issues fromisoformat B settings now w)).
Proof.
  apply process_issues_trace_closed.
  - constructor.
  - intros a b Ha Hb. apply Forall_app. auto.
  - intros r. constructor; [ | constructor ]. simpl. auto.
  - intros issue w'.
    apply (Forall_impl_turn (issue_turn_event settings));
      [ | apply process_issue_events ].
    intros ev Hev. split; [ apply issue_turn_is_cycle; exact Hev | ].
    destruct ev; simpl in Hev |- *; try reflexivity; try contradiction.
    destruct Hev as [ -> | -> ]; reflexivity.
Qed.

Lemma process_once_events (w : World B) :
  Forall (cycle_event settings) (trace (process_once fromisoformat B settings w)).
Proof.
  apply process_once_trace_closed.
  - constructor.
  - intros a b Ha Hb. apply Forall_app. auto.
  - intros now w'.
    apply (Forall_impl_turn _ _ _ (fun ev H => proj1 H) (process_threads_events now w')).
  - intros now w'.
    apply (Forall_impl_turn _ _ _ (fun ev H => proj1 H) (process_issues_events now w')).
Qed.

Lemma cycle_is_poll (ev : event) : cycle_event settings ev -> poll_event settings ev.
Proof. destruct ev; simpl; auto; intros []. Qed.


Lemma thread_events_are_not_issue_events (ev : event) :
  is_thread_event ev = true -> is_issue_event ev = false.
Proof.
  destruct ev as [ | | | | | | line e | ]; simpl; try reflexivity; try discriminate.
  intros Hline. apply String.eqb_eq in Hline. subst line. reflexivity.
Qed.

Lemma process_threads_only_threads (now : datetime) (w : World B) (ev : event) :
  In ev (trace (process_threads fromisoformat B settings now w)) ->
  is_thread_event ev = true /\ is_issue_event ev = false.
Proof.
  intros Hin. pose proof (process_threads_events now w) as Hall.
  rewrite Forall_forall in Hall. destruct (Hall ev Hin) as [ _ Hev ].
  auto using thread_events_are_not_issue_events.
Qed.

Lemma process_issues_only_issues (now : datetime) (w : World B) (ev : event) :
  In ev (trace (process_issues fromisoformat B settings now w)) ->
  is_issue_event ev = true /\ is_thread_event ev = false.
Proof.
  intros Hin. pose proof (process_issues_events now w) as Hall.
  rewrite Forall_forall in Hall. destruct (Hall ev Hin) as [ _ Hev ].
  split; [ exact Hev | ].
  destruct (is_thread_event ev) eqn:Hth; [ | reflexivity ].
  rewrite (thread_events_are_not_issue_events ev Hth) in Hev. discriminate Hev.
Qed.

(** X8: the thread processor only calls the messaging endpoints and the
    issue processor only the issue endpoints; the two kinds are apart. *)
Theorem processors_keep_to_their_endpoints :
  (forall (now : datetime) (w : World B) (ev : event),
      In ev (trace (process_threads fromisoformat B settings now w)) ->
      is_thread_event ev = true /\ is_issue_event ev = false)
  /\ (forall (now : datetime) (w : World B) (ev : event),
         In ev (trace (process_issues fromisoformat B settings now w)) ->
         is_issue_event ev = true /\ is_thread_event ev = false).
Proof.
  split; [ apply process_threads_only_threads | apply process_issues_only_issues ].
Qed.

(** X9: the issue processor runs in a cycle only when its toggle is on and
    the thread processor returned: with the toggle off, or after a failure
    of the thread processor, the cycle touches no issue endpoint. *)
Theorem issues_need_toggle_and_threads :
  forall (w : World B),
    config.process_issues settings = false
    \/ (exists e, value (process_threads fromisoformat B settings
                           (fst (utcnow B w)) (snd (utcnow B w))) = Raise e) ->
    trace (process_once fromisoformat B settings w)
    = trace (process_threads fromisoformat B settings (fst (utcnow B w)) (snd (utcnow B w)))
    /\ forall ev, In ev (trace (process_once fromisoformat B settings w)) ->
                  is_issue_event ev = false.
Proof.
  intros w Hoff.
  assert (Htr : trace (process_once fromisoformat B settings w)
                = trace (process_threads fromisoformat B settings
                           (fst (utcnow B w)) (snd (utcnow B w)))).
  { rewrite process_once_trace.
    destruct Hoff as [ Hoff | (e & He) ].
    - rewrite Hoff. destruct (value _); apply app_nil_r.
    - rewrite He. apply app_nil_r. }
  split; [ exact Htr | ].
  intros ev Hin. rewrite Htr in Hin.
  apply (process_threads_only_threads _ _ _ Hin).
Qed.
End cycle_invariants.

Section cycle_counts.
Variable fromisoformat : string -> option datetime.
Variable B : Backend.
Variable settings : Settings.

Lemma count_none (P : event -> Prop) (p : event -> bool) (tr : list event) :
  (forall ev, P ev -> p ev = false) -> Forall P tr -> count p tr = 0%nat.
Proof.
  intros Hp Hall. unfold count. induction Hall as [ | ev tr Hev Hall IH ];
    [ reflexivity | ].
  simpl. rewrite (Hp ev Hev). exact IH.
Qed.

Lemma count_print_of {A : Type} (p : event -> bool) (line : string) (r : result A) :
  (forall e, p (Print line e) = false) -> count p (print_of line r) = 0%nat.
Proof. intros Hp. destruct r; unfold count; simpl; [ | rewrite Hp ]; reflexivity. Qed.

Lemma process_thread_posts (th : json) (w : World B) :
  (count is_post (trace (process_thread fromisoformat B settings th w)) <= 1)%nat
  /\ (count is_post (trace (process_thread fromisoformat B settings th w))
      <= count is_fetch (trace (process_thread fromisoformat B settings th w)))%nat.
Proof.
  destruct (process_thread_shape fromisoformat B settings th w)
    as [ -> | (id & r & _ & _ & [ -> | (p & r' & _ & -> & _ & _) ]) ].
  - split; unfold count; simpl; lia.
  - split; unfold count; simpl; lia.
  - change (CallListMessages id r :: CallPostMessage id (autoresponse_message settings) r'
              :: print_of "post_message error" r')
      with ([CallListMessages id r; CallPostMessage id (autoresponse_message settings) r']
            ++ print_of "post_message error" r')%list.
    rewrite !count_app, !count_print_of by reflexivity.
    split; unfold count; simpl; lia.
Qed.

Lemma process_issue_posts (issue : json) (w : World B) :
  (count is_post (trace (process_issue fromisoformat B settings issue w)) <= 1)%nat
  /\ (count is_post (trace (process_issue fromisoformat B settings issue w))
      <= count is_fetch (trace (process_issue fromisoformat B settings issue w)))%nat.
Proof.
  destruct (process_issue_shape fromisoformat B settings issue w)
    as [ -> | (id & _ & _ & _ & ->) ]; [ split; unfold count; simpl; lia | ].
  rewrite !count_app, !count_print_of by reflexivity.
  destruct (process_issue_chat_shape fromisoformat B settings id
              (fst (utcnow B w)) (snd (utcnow B w)))
    as (r & [ -> | (p & r' & _ & -> & _ & _) ]).
  - split; unfold count; simpl; lia.
  - change (CallListIssueMessages id r
              :: CallPostIssueMessage id (autoresponse_issue settings) r'
              :: print_of "post_issue_message error" r')
      with ([CallListIssueMessages id r;
             CallPostIssueMessage id (autoresponse_issue settings) r']
            ++ print_of "post_issue_message error" r')%list.
    rewrite !count_app, !count_print_of by reflexivity.
    split; unfold count; simpl; lia.
Qed.

(** X10: a turn posts at most one reply, and over any number of turns of
    the poll loop there are never more replies than fetches of messages
    and chats: a reply is always paid for by a fetch of its conversation
    in the same turn. *)
Theorem at_most_one_reply_per_fetch :
  (forall (th : json) (w : World B),
      (count is_post (trace (process_thread fromisoformat B settings th w)) <= 1)%nat)
  /\ (forall (issue : json) (w : World B),
         (count is_post (trace (process_issue fromisoformat B settings issue w)) <= 1)%nat)
  /\ (forall (turns : nat) (w : World B),
         (count is_post (trace (poll_loop fromisoformat B settings turns w))
          <= count is_fetch (trace (poll_loop fromisoformat B settings turns w)))%nat).
Proof.
  split; [ intros th w; apply process_thread_posts | ].
  split; [ intros issue w; apply process_issue_posts | ].
  intros turns w. unfold poll_loop.
  set (P := fun tr : list event => (count is_post tr <= count is_fetch tr)%nat).
  assert (Hnil : P []) by (unfold P, count; simpl; lia).
  assert (Happ : forall a b, P a -> P b -> P (a ++ b)%list).
  { unfold P. intros a b Ha Hb. rewrite !count_app. lia. }
  apply (poll_turns_trace_closed fromisoformat B settings P); try assumption.
  - apply process_once_trace_closed; try assumption.
    + apply process_threads_trace_closed; try assumption.
      * intros r. unfold P, count. simpl. lia.
      * intros th w'. apply process_thread_posts.
    + apply process_issues_trace_closed; try assumption.
      * intros r. unfold P, count. simpl. lia.
      * intros issue w'. apply process_issue_posts.
  - intros e. unfold P, count. simpl. lia.
Qed.

Lemma process_threads_head (now : datetime) (w : World B) :
  exists r rest,
    trace (process_threads fromisoformat B settings now w)
    = CallListThreads (max_threads_per_poll settings) 0 r :: rest
    /\ Forall (thread_turn_event settings) rest.
Proof.
  unfold process_threads. rewrite bindM_call.
  destruct (fst (list_threads B _ 0 w)) as [ page | e ]; [ | simpl; eauto ].
  destruct (get_or_get page "threads" "items") as [ threads | e ]; [ | simpl; eauto ].
  rewrite bindM_lift_Return.
  destruct (py_len threads) as [ n | e ]; [ | simpl; eauto ].
  rewrite bindM_lift_Return.
  destruct (py_iter threads) as [ items | e ]; [ | simpl; eauto ].
  rewrite bindM_lift_Return. simpl.
  eexists _, _. split; [ reflexivity | ].
  apply (for_each_trace_closed (Forall (thread_turn_event settings))).
  - constructor.
  - intros a b Ha Hb. apply Forall_app. auto.
  - intros th w'. apply process_thread_events.
Qed.

Lemma process_once_counts (w : World B) :
  count is_sleep (trace (process_once fromisoformat B settings w)) = 0%nat
  /\ count is_list_threads (trace (process_once fromisoformat B settings w)) = 1%nat.
Proof.
  split.
  - apply (count_none (cycle_event settings)); [ | apply process_once_events ].
    intros [ | | | | | | | ]; simpl; try reflexivity. intros [].
  - rewrite process_once_trace, count_app.
    destruct (process_threads_head (fst (utcnow B w)) (snd (utcnow B w)))
      as (r & rest & -> & Hrest).
    change (CallListThreads (max_threads_per_poll settings) 0 r :: rest)
      with ([CallListThreads (max_threads_per_poll settings) 0 r] ++ rest)%list.
    rewrite count_app.
    rewrite (count_none (thread_turn_event settings) is_list_threads rest);
      [ | intros [ | | | | | | | ]; simpl; try reflexivity; intros [] | exact Hrest ].
    assert (Hissues : forall now w',
               count is_list_threads
                 (trace (process_issues fromisoformat B settings now w')) = 0%nat).
    { intros now w'.
      apply (count_none (fun ev => cycle_event settings ev /\ is_issue_event ev = true));
        [ | apply process_issues_events ].
      intros [ | | | | | | | ]; simpl; try reflexivity. intros [ _ H ]. discriminate H. }
    destruct (value _); [ | reflexivity ].
    destruct (config.process_issues settings); [ rewrite Hissues | ]; reflexivity.
Qed.

(** X11: whatever fails, [turns] turns of the poll loop fetch the page of
    threads exactly [turns] times and sleep exactly [turns] times. *)
Theorem poll_loop_keeps_its_pace :
  forall (turns : nat) (w : World B),
    count is_list_threads (trace (poll_loop fromisoformat B settings turns w)) = turns
    /\ count is_sleep (trace (poll_loop fromisoformat B settings turns w)) = turns.
Proof.
  intros turns. unfold poll_loop.
  induction turns as [ | n IH ]; intros w; [ split; reflexivity | ].
  rewrite poll_turns_step, !count_app.
  destruct (process_once_counts w) as [ Hsleep Hlist ].
  destruct (IH (sleep B (poll_interval_seconds settings)
                  (world (process_once fromisoformat B settings w)))) as [ IHl IHs ].
  rewrite Hsleep, Hlist, IHl, IHs, !count_print_of by reflexivity.
  split; reflexivity.
Qed.

(** X12: the turns of the poll loop compose: [n + m] turns are [n] turns
    followed by [m] turns from where the first [n] left the world. *)
Theorem poll_loop_turns_compose :
  forall (n m : nat) (w : World B),
    trace (poll_loop fromisoformat B settings (n + m) w)
    = (trace (poll_loop fromisoformat B settings n w)
       ++ trace (poll_loop fromisoformat B settings m
                   (world (poll_loop fromisoformat B settings n w))))%list
    /\ world (poll_loop fromisoformat B settings (n + m) w)
       = world (poll_loop fromisoformat B settings m
                  (world (poll_loop fromisoformat B settings n w))).
Proof.
  intros n m. unfold poll_loop.
  induction n as [ | n IH ]; intros w; [ split; reflexivity | ].
  change (S n + m)%nat with (S (n + m)).
  destruct (poll_iteration_run fromisoformat B settings
              (poll_interval_seconds settings) w) as (Hv & _ & _).
  simpl. unfold bindM. rewrite Hv. simpl.
  destruct (IH (world (poll_iteration fromisoformat B settings
                         (poll_interval_seconds settings) w))) as [ IHt IHw ].
  rewrite IHt, IHw, app_assoc. split; reflexivity.
Qed.

(** X13: the on-demand trigger makes the calls of one cycle, answers
    [{"ran": true}] when the cycle returned, and lets the exception of a
    failed cycle out to its caller, where a turn of the poll loop prints it
    and goes to sleep. *)
Theorem run_once_lets_failures_out :
  forall (w : World B),
    trace (run_once fromisoformat B settings w)
    = trace (process_once fromisoformat B settings w)
    /\ world (run_once fromisoformat B settings w)
       = world (process_once fromisoformat B settings w)
    /\ (forall e, value (process_once fromisoformat B settings w) = Raise e ->
                  value (run_once fromisoformat B settings w) = Raise e
                  /\ value (poll_iteration fromisoformat B settings
                              (poll_interval_seconds settings) w) = Return tt)
    /\ (value (process_once fromisoformat B settings w) = Return tt ->
        value (run_once fromisoformat B settings w)
        = Return (JDict {[ "ran" := JBool true ]})).
Proof.
  intros w. unfold run_once, bindM.
  destruct (poll_iteration_run fromisoformat B settings
              (poll_interval_seconds settings) w) as (Hpoll & _ & _).
  destruct (value (process_once fromisoformat B settings w)) as [ [] | e ]; simpl.
  - rewrite app_nil_r.
    split; [ reflexivity | ]. split; [ reflexivity | ].
    split; [ intros e' He; discriminate He | reflexivity ].
  - split; [ reflexivity | ]. split; [ reflexivity | ].
    split; [ | intros He; discriminate He ].
    intros e' He. injection He as <-. split; [ reflexivity | exact Hpoll ].
Qed.
End cycle_counts.

(** ** app/main.py: the issue processor *)

Section issue_turns.
Variable fromisoformat : string -> option datetime.
Variable B : Backend.
Variable settings : Settings.

Lemma process_issue_returns (issue : json) (w : World B) :
  readable_issue issue ->
  value (process_issue fromisoformat B settings issue w) = Return tt.
Proof.
  intros (id & status & Hid & Hst). unfold process_issue.
  rewrite bindM_now, Hid, bindM_lift_Return.
  destruct (truthy id); [ | reflexivity ]. simpl.
  rewrite Hst, bindM_lift_Return.
  destruct (eq_str status "DISPUTE_ONGOING"); [ | reflexivity ]. simpl.
  apply try_except_value.
Qed.

(** X14: once the page of issues is fetched, the issue processor returns
    normally whatever the fetches of chats and the posts do, provided every
    issue of the page is an object whose [currentState] is an object or
    absent: no failure of the collaborator ends its loop. *)
Theorem process_issues_survives_failures :
  forall (now : datetime) (w : World B) (page : json) (items : list json),
    fst (list_issues B (max_issues_per_poll settings) 0 w) = Return page ->
    py_get page "issues" (JList []) = Return (JList items) ->
    Forall readable_issue items ->
    value (process_issues fromisoformat B settings now w) = Return tt.
Proof.
  intros now w page items Hpage Hitems Hreadable.
  assert (Hor : py_or (JList items) (JList []) = JList items).
  { destruct items; reflexivity. }
  unfold process_issues. rewrite bindM_call, Hpage, Hitems, bindM_lift_Return.
  cbv zeta. rewrite Hor.
  change (py_len (JList items)) with (Return (Z.of_nat (length items))).
  rewrite bindM_lift_Return.
  change (py_iter (JList items)) with (Return items).
  rewrite bindM_lift_Return.
  unfold prepend. cbn [value].
  apply for_each_returns. intros issue w' Hin.
  apply process_issue_returns.
  rewrite Forall_forall in Hreadable. apply Hreadable. exact Hin.
Qed.
End issue_turns.

(** ** The order of the fetched messages *)

Section fetched_order.

Lemma sorted_decorated (r : list (json * json)) :
  Sorted ts_le (map snd r) -> Sorted dec_le r.
Proof.
  induction r as [ | p r IH ]; intros Hs; [ constructor | ].
  simpl in Hs. inversion Hs as [ | ? ? Hs' Hhd ]; subst.
  constructor; [ apply IH; exact Hs' | ].
  destruct r as [ | q r ]; constructor.
  simpl in Hhd. inversion Hhd; subst. assumption.
Qed.

Lemma sort_decorated_fixed (r : list (json * json)) :
  Forall decorated r -> Sorted dec_le r -> sort_decorated r = Return r.
Proof.
  intros Hdec. induction Hdec as [ | x r Hx Hdec IH ]; intros Hs; [ reflexivity | ].
  inversion Hs as [ | ? ? Hs' Hhd ]; subst.
  simpl. rewrite (IH Hs'). simpl.
  destruct r as [ | y r ]; [ reflexivity | ].
  inversion Hhd as [ | ? ? Hxy ]; subst.
  destruct Hxy as (sx & sy & Hsx & Hsy & Hle).
  destruct Hx as (kx & Hkx & Hkx').
  inversion Hdec as [ | ? ? Hy _ ]; subst. destruct Hy as (ky & Hky & Hky').
  rewrite Hsx in Hkx'. injection Hkx' as <-.
  rewrite Hsy in Hky'. injection Hky' as <-.
  simpl. rewrite Hky, Hkx. simpl.
  assert (Hlt : String.ltb sy sx = false).
  { unfold String.ltb, String.leb in *. rewrite (String.compare_antisym sy sx).
    destruct (String.compare sx sy); simpl; congruence. }
  rewrite Hlt. reflexivity.
Qed.

(** X15: messages that are fetched already in the order of their creation
    times, ties included, are left in that order by the sort, so the
    message inspected is the last one of the fetched list. *)
Theorem fetched_in_order_keeps_last :
  forall (msgs : list json) (last : json),
    Forall (fun m => ts_string m <> None) msgs ->
    Sorted ts_le msgs ->
    py_last msgs = Return last ->
    list_sort _ts msgs = Return msgs
    /\ last_message_of (JList msgs) = Some last.
Proof.
  intros msgs last Hkeys Hsorted Hlast.
  assert (Hsort : list_sort _ts msgs = Return msgs).
  { destruct (map_result_ts msgs Hkeys) as (keys & Hmap & Hdec & Hsnd).
    unfold list_sort. rewrite Hmap. simpl.
    rewrite (sort_decorated_fixed _ Hdec);
      [ simpl; rewrite Hsnd; reflexivity | ].
    apply sorted_decorated. rewrite Hsnd. exact Hsorted. }
  split; [ exact Hsort | ].
  unfold last_message_of, py_sort. rewrite Hsort, Hlast. reflexivity.
Qed.
End fetched_order.

(** ** The further properties on the sample shop *)


(** Thread [t1] of the shop where no thread has a message yet. *)
Lemma thread_without_messages_witness :
  process_thread samples.sample_fromisoformat (samples.scripted more_samples.shop_quiet)
    samples.sample_settings (samples.thread "t1") samples.five_past
  = {| value := Return tt;
       world := samples.five_past;
       trace := [CallListMessages (JStr "t1")
                   (Return (JDict {[ "messages" := JList [] ]}))] |}.
Proof.
  refine (thread_without_messages samples.sample_fromisoformat
            (samples.scripted more_samples.shop_quiet) samples.sample_settings
            (samples.thread "t1") samples.five_past (JStr "t1")
            {[ "messages" := JList [] ]} _ _ _ _ _).
  - vm_compute. reflexivity.
  - vm_compute. reflexivity.
  - vm_compute. reflexivity.
  - right. vm_compute. reflexivity.
  - left. vm_compute. reflexivity.
Defined.

(** The question asked at noon in thread [t1] and the message of the buyer
    in issue [i1], looked at a quarter past noon. *)
Lemma stale_last_message_gets_no_reply_witness :
  trace (process_thread samples.sample_fromisoformat (samples.scripted samples.shop)
           samples.sample_settings (samples.thread "t1") more_samples.quarter_past)
  = [CallListMessages (JStr "t1") (samples.messages_answer samples.shop (JStr "t1"))]
  /\ trace (process_issue samples.sample_fromisoformat (samples.scripted samples.shop)
              samples.sample_settings (samples.issue "i1" "DISPUTE_ONGOING")
              more_samples.quarter_past)
     = [CallListIssueMessages (JStr "i1") (samples.chat_answer samples.shop (JStr "i1"))].
Proof.
  split.
  - refine (proj1 (stale_last_message_gets_no_reply samples.sample_fromisoformat
                     (samples.scripted samples.shop) samples.sample_settings)
              (samples.thread "t1") more_samples.quarter_past (JStr "t1")
              (JDict {[ "messages" :=
                 JList [samples.question "2024-01-01T12:00:00Z" true;
                        samples.question "2024-01-01T11:00:00Z" false] ]})
              (samples.question "2024-01-01T12:00:00Z" true)
              "2024-01-01T12:00:00Z" samples.noon _ _ _ _ _ _ _ _);
      try (vm_compute; reflexivity).
    discriminate.
  - refine (proj2 (stale_last_message_gets_no_reply samples.sample_fromisoformat
                     (samples.scripted samples.shop) samples.sample_settings)
              (samples.issue "i1" "DISPUTE_ONGOING") more_samples.quarter_past (JStr "i1")
              (JDict {[ "chat" :=
                 JList [samples.chat_message "2024-01-01T12:00:00Z" "BUYER"] ]})
              (samples.chat_message "2024-01-01T12:00:00Z" "BUYER") 1
              "2024-01-01T12:00:00Z" samples.noon _ _ _ _ _ _ _ _ _ _ _ _);
      try (vm_compute; reflexivity).
    + vm_compute. discriminate.
    + discriminate.
Defined.

(** A cycle over the sample shop with the issue processor switched off. *)
Lemma issues_need_toggle_and_threads_witness :
  trace (process_once samples.sample_fromisoformat (samples.scripted samples.shop)
           more_samples.threads_only_settings samples.five_past)
  = trace (process_threads samples.sample_fromisoformat (samples.scripted samples.shop)
             more_samples.threads_only_settings samples.five_past samples.five_past)
  /\ forall ev,
      In ev (trace (process_once samples.sample_fromisoformat
                      (samples.scripted samples.shop)
                      more_samples.threads_only_settings samples.five_past)) ->
      is_issue_event ev = false.
Proof.
  apply (issues_need_toggle_and_threads samples.sample_fromisoformat
           (samples.scripted samples.shop) more_samples.threads_only_settings
           samples.five_past).
  left. reflexivity.
Defined.

(** The issue processor over the shop whose chats cannot be fetched. *)
Lemma process_issues_survives_failures_witness :
  value (process_issues samples.sample_fromisoformat
           (samples.scripted more_samples.shop_chat_down) samples.sample_settings
           samples.five_past samples.five_past)
  = Return tt.
Proof.
  refine (process_issues_survives_failures samples.sample_fromisoformat
            (samples.scripted more_samples.shop_chat_down) samples.sample_settings
            samples.five_past samples.five_past
            (JDict {[ "issues" := JList [samples.issue "i1" "DISPUTE_ONGOING";
                                         samples.issue "i2" "DISPUTE_CLOSED"] ]})
            [samples.issue "i1" "DISPUTE_ONGOING"; samples.issue "i2" "DISPUTE_CLOSED"]
            _ _ _).
  - vm_compute. reflexivity.
  - vm_compute. reflexivity.
  - repeat constructor.
    + exists (JStr "i1"), (JStr "DISPUTE_ONGOING"). split; vm_compute; reflexivity.
    + exists (JStr "i2"), (JStr "DISPUTE_CLOSED"). split; vm_compute; reflexivity.
Defined.

(** The two messages of thread [t1], had they been fetched oldest first. *)
Lemma fetched_in_order_keeps_last_witness :
  list_sort _ts [samples.question "2024-01-01T11:00:00Z" false;
                 samples.question "2024-01-01T12:00:00Z" true]
  = Return [samples.question "2024-01-01T11:00:00Z" false;
            samples.question "2024-01-01T12:00:00Z" true]
  /\ last_message_of (JList [samples.question "2024-01-01T11:00:00Z" false;
                             samples.question "2024-01-01T12:00:00Z" true])
     = Some (samples.question "2024-01-01T12:00:00Z" true).
Proof.
  refine (fetched_in_order_keeps_last
            [samples.question "2024-01-01T11:00:00Z" false;
             samples.question "2024-01-01T12:00:00Z" true]
            (samples.question "2024-01-01T12:00:00Z" true) _ _ _).
  - repeat constructor; vm_compute; discriminate.
  - repeat constructor.
    exists "2024-01-01T11:00:00Z", "2024-01-01T12:00:00Z".
    repeat split; vm_compute; reflexivity.
  - vm_compute. reflexivity.
Defined.

(** ** app/config.py: the settings read from the environment *)

Import environment client_observations.

Lemma lower_byte_letter (a c : ascii) :
  (97 <= N_of_ascii a <= 122)%N ->
  lower_byte c = a <-> (c = a \/ (N_of_ascii c + 32 = N_of_ascii a)%N).
Proof.
  intros Ha. unfold lower_byte.
  pose proof (N_ascii_bounded c) as Hc.
  destruct (N.leb_spec 65 (N_of_ascii c)) as [ Hlo | Hlo ]; simpl.
  - destruct (N.leb_spec (N_of_ascii c) 90) as [ Hhi | Hhi ].
    + split.
      * intros <-. right. rewrite N_ascii_embedding by lia. reflexivity.
      * intros [ -> | Heq ]; [ lia | ].
        rewrite Heq. apply ascii_N_embedding.
    + split; [ intros ->; left; reflexivity | ].
      intros [ -> | Heq ]; [ reflexivity | lia ].
  - split; [ intros ->; left; reflexivity | ].
    intros [ -> | Heq ]; [ reflexivity | lia ].
Qed.

Lemma lower_any_case (word s : string) :
  lower_case_word word = true -> lower s = word <-> any_case word s.
Proof.
  revert s. induction word as [ | a word IH ]; intros s Hword.
  - destruct s; simpl; [ tauto | split; [ discriminate | tauto ] ].
  - destruct s as [ | c s ]; [ simpl; split; [ discriminate | tauto ] | ].
    simpl in Hword. apply andb_prop in Hword as [ Ha Hword ].
    apply andb_prop in Ha as [ Hlo Hhi ].
    apply N.leb_le in Hlo. apply N.leb_le in Hhi.
    simpl. rewrite <- (IH s Hword), <- (lower_byte_letter a c) by lia.
    split; [ intros H; injection H; auto | intros [ -> -> ]; reflexivity ].
Qed.

Section settings_from_environment.
Variable py_int : string -> option Z.

Lemma flag_getenv_says_true (env : environ) (key : string) :
  flag_getenv env key = true <-> says_true (env !! key).
Proof.
  unfold flag_getenv, getenv, says_true.
  destruct (env !! key) as [ v | ]; simpl; [ | split; [ tauto | reflexivity ] ].
  rewrite String.eqb_eq. apply lower_any_case. reflexivity.
Qed.

Lemma get_settings_returns (tz : string) (env : environ) (s : Settings) :
  get_settings py_int tz env = Return s ->
  environment s = getenv env "ALLEGRO_ENV" "production"
  /\ refresh_token s = getenv env "ALLEGRO_REFRESH_TOKEN" ""
  /\ py_int (getenv env "POLL_INTERVAL" "60") = Some (poll_interval_seconds s)
  /\ autoresponse_message s = getenv env "TEMPLATE_FIRST_CONTACT" default_autoresponse_message
  /\ autoresponse_issue s = getenv env "TEMPLATE_ISSUE" default_autoresponse_issue
  /\ reply_outside_working_hours s = flag_getenv env "REPLY_AFTER_HOURS"
  /\ reply_only_first_message s = flag_getenv env "REPLY_ONLY_FIRST"
  /\ config.process_issues s = flag_getenv env "PROCESS_ISSUES".
Proof.
  unfold get_settings, int_getenv.
  destruct (py_int (getenv env "POLL_INTERVAL" "60")); [ | discriminate ].
  destruct (py_int (getenv env "MAX_THREADS" "5")); [ | discriminate ].
  destruct (py_int (getenv env "MAX_ISSUES" "5")); [ | discriminate ].
  destruct (py_int (getenv env "WORK_START_H" "9")); [ | discriminate ].
  destruct (py_int (getenv env "WORK_END_H" "17")); [ | discriminate ].
  simpl. intros H. injection H as <-. simpl. repeat split; reflexivity.
Qed.

(** X16: each of the three switches is on exactly when its variable is
    unset or holds the four letters of [true], in any case: every other
    text, the empty one, [1] and [yes] included, switches it off. *)
Theorem switches_are_on_unless_told_otherwise :
  forall (tz : string) (env : environ) (s : Settings),
    get_settings py_int tz env = Return s ->
    (reply_outside_working_hours s = true <-> says_true (env !! "REPLY_AFTER_HOURS"))
    /\ (reply_only_first_message s = true <-> says_true (env !! "REPLY_ONLY_FIRST"))
    /\ (config.process_issues s = true <-> says_true (env !! "PROCESS_ISSUES")).
Proof.
  intros tz env s Hs.
  destruct (get_settings_returns tz env s Hs) as (_ & _ & _ & _ & _ & -> & -> & ->).
  split; [ | split ]; apply flag_getenv_says_true.
Qed.

(** X17: the settings are made exactly when each of the five numeric
    variables, or its default when the variable is unset, is read as a
    number by [int]; one that is not stops [get_settings] with
    [ValueError], whatever the others hold. *)
Theorem get_settings_needs_its_numbers :
  forall (tz : string) (env : environ),
    ((forall key dflt, In (key, dflt) numeric_variables ->
                       py_int (getenv env key dflt) <> None) ->
     exists s, get_settings py_int tz env = Return s)
    /\ (forall key dflt, In (key, dflt) numeric_variables ->
                         py_int (getenv env key dflt) = None ->
                         get_settings py_int tz env = Raise ValueError).
Proof.
  intros tz env. split.
  - intros Hall. unfold get_settings, int_getenv.
    destruct (py_int (getenv env "POLL_INTERVAL" "60")) eqn:H1;
      [ | exfalso; apply (Hall "POLL_INTERVAL" "60"); simpl; auto ].
    destruct (py_int (getenv env "MAX_THREADS" "5")) eqn:H2;
      [ | exfalso; apply (Hall "MAX_THREADS" "5"); simpl; auto ].
    destruct (py_int (getenv env "MAX_ISSUES" "5")) eqn:H3;
      [ | exfalso; apply (Hall "MAX_ISSUES" "5"); simpl; auto ].
    destruct (py_int (getenv env "WORK_START_H" "9")) eqn:H4;
      [ | exfalso; apply (Hall "WORK_START_H" "9"); simpl; auto 6 ].
    destruct (py_int (getenv env "WORK_END_H" "17")) eqn:H5;
      [ | exfalso; apply (Hall "WORK_END_H" "17"); simpl; auto 7 ].
    simpl. eauto.
  - intros key dflt Hin Hnone. unfold get_settings, int_getenv.
    simpl in Hin.
    destruct Hin as [ H | [ H | [ H | [ H | [ H | [] ] ] ] ] ];
      injection H as <- <-; rewrite ?Hnone;
      repeat (destruct (py_int _); simpl; try reflexivity); rewrite ?Hnone; reflexivity.
Qed.

Section deployed.
Variable fromisoformat : string -> option datetime.
Variable B : Backend.

Lemma poll_loop_without_issues (s : Settings) :
  config.process_issues s = false ->
  forall turns w ev,
    In ev (trace (poll_loop fromisoformat B s turns w)) -> is_issue_event ev = false.
Proof.
  intros Hoff turns w ev Hin.
  assert (Hall : Forall (fun ev => is_issue_event ev = false)
                   (trace (poll_loop fromisoformat B s turns w))).
  { unfold poll_loop. apply poll_turns_trace_closed.
    - constructor.
    - intros a b Ha Hb. apply Forall_app. auto.
    - intros w'. rewrite process_once_trace, Hoff.
      apply Forall_app. split.
      + apply Forall_forall. intros ev' Hev'.
        apply (process_threads_only_threads fromisoformat B s _ _ ev' Hev').
      + destruct (value _); constructor.
    - intros e. constructor; [ reflexivity | constructor ].
    - constructor; [ reflexivity | constructor ]. }
  rewrite Forall_forall in Hall. apply Hall. exact Hin.
Qed.

Lemma poll_loop_posts (s : Settings) :
  forall turns w id text r,
    In (CallPostMessage id text r) (trace (poll_loop fromisoformat B s turns w)) ->
    text = autoresponse_message s /\ text <> "".
Proof.
  intros turns w id text r Hin.
  assert (Hall : Forall (poll_event s) (trace (poll_loop fromisoformat B s turns w))).
  { unfold poll_loop. apply poll_turns_trace_closed.
    - constructor.
    - intros a b Ha Hb. apply Forall_app. auto.
    - intros w'. apply (Forall_impl_turn (cycle_event s));
        [ apply cycle_is_poll | apply process_once_events ].
    - intros e. constructor; [ left; reflexivity | constructor ].
    - constructor; [ reflexivity | constructor ]. }
  rewrite Forall_forall in Hall. apply (Hall _ Hin).
Qed.

(** X18: what the environment switches off stays off in every turn of the
    poll loop: with [PROCESS_ISSUES] set to anything but [true] no issue
    endpoint is ever called, and with [TEMPLATE_FIRST_CONTACT] set to the
    empty text no reply is ever posted to a thread. *)
Theorem environment_switches_off :
  forall (tz : string) (env : environ) (s : Settings),
    get_settings py_int tz env = Return s ->
    (forall v, env !! "PROCESS_ISSUES" = Some v -> ~ any_case "true" v ->
               forall turns w ev,
                 In ev (trace (poll_loop fromisoformat B s turns w)) ->
                 is_issue_event ev = false)
    /\ (env !! "TEMPLATE_FIRST_CONTACT" = Some "" ->
        forall turns w id text r,
          ~ In (CallPostMessage id text r) (trace (poll_loop fromisoformat B s turns w))).
Proof.
  intros tz env s Hs.
  destruct (get_settings_returns tz env s Hs) as (_ & _ & _ & Hmsg & _ & _ & _ & Hflag).
  split.
  - intros v Hv Hnot. apply poll_loop_without_issues.
    rewrite Hflag. destruct (flag_getenv env "PROCESS_ISSUES") eqn:Hon; [ | reflexivity ].
    apply flag_getenv_says_true in Hon. rewrite Hv in Hon. contradiction.
  - intros Hempty turns w id text r Hin.
    destruct (poll_loop_posts s turns w id text r Hin) as [ Htext Hne ].
    apply Hne. rewrite Htext, Hmsg. unfold getenv. rewrite Hempty. reflexivity.
Qed.
End deployed.
End settings_from_environment.

(** ** app/allegro.py: the client and its access token *)

Import allegro.

Section methods.
Context {W : Type}.

Lemma and_then_pure {A B : Type} (a : A) (k : A -> Method W B) (c : AllegroClient)
    (w : W) :
  and_then (pure a) k c w = k a c w.
Proof. unfold and_then, pure. simpl. destruct (k a c w). reflexivity. Qed.

Lemma and_then_raise {A B : Type} (f : failure) (k : A -> Method W B)
    (c : AllegroClient) (w : W) :
  and_then (raise f) k c w = raise f c w.
Proof. reflexivity. Qed.

Lemma and_then_get {A B : Type} (field : AllegroClient -> A) (k : A -> Method W B)
    (c : AllegroClient) (w : W) :
  and_then (get field) k c w = k (field c) c w.
Proof. unfold and_then, get. simpl. destruct (k (field c) c w). reflexivity. Qed.

Lemma and_then_set_token {B : Type} (token : json) (k : unit -> Method W B)
    (c : AllegroClient) (w : W) :
  and_then (set_token token) k c w
  = k tt (with_token c token (_token_expiry c) (settings_refresh_token c)) w.
Proof.
  unfold and_then, set_token, with_token. simpl.
  destruct (k tt _ w). reflexivity.
Qed.

Lemma and_then_set_token_expiry {B : Type} (expiry : datetime) (k : unit -> Method W B)
    (c : AllegroClient) (w : W) :
  and_then (set_token_expiry expiry) k c w
  = k tt (with_token c (_token c) expiry (settings_refresh_token c)) w.
Proof.
  unfold and_then, set_token_expiry, with_token. simpl.
  destruct (k tt _ w). reflexivity.
Qed.

Lemma and_then_set_refresh_token {B : Type} (value : json) (k : unit -> Method W B)
    (c : AllegroClient) (w : W) :
  and_then (set_refresh_token value) k c w
  = k tt (with_token c (_token c) (_token_expiry c) value) w.
Proof.
  unfold and_then, set_refresh_token, with_token. simpl.
  destruct (k tt _ w). reflexivity.
Qed.

Lemma and_then_log_info {B : Type} (line : string) (k : unit -> Method W B)
    (c : AllegroClient) (w : W) :
  and_then (log_info line) k c w = preceded [LogInfo line] (k tt c w).
Proof. reflexivity. Qed.

Lemma and_then_assoc {A B C : Type} (m : Method W A) (k : A -> Method W B)
    (h : B -> Method W C) (c : AllegroClient) (w : W) :
  and_then (and_then m k) h c w = and_then m (fun a => and_then (k a) h) c w.
Proof.
  unfold and_then. destruct (m c w) as [ [ f | a ] c1 w1 efs ]; simpl; [ reflexivity | ].
  destruct (k a c1 w1) as [ [ f | b ] c2 w2 efs' ]; simpl; [ reflexivity | ].
  rewrite app_assoc. reflexivity.
Qed.

End methods.

Section token.
Variable py_int : string -> option Z.
Variable O : Outside.

Lemma and_then_now_utc {B : Type} (k : datetime -> Method (State O) B)
    (c : AllegroClient) (w : State O) :
  and_then (now_utc O) k c w = k (fst (datetime_now O w)) c (snd (datetime_now O w)).
Proof. unfold and_then, now_utc. simpl. destruct (k _ c _). reflexivity. Qed.

Lemma and_then_post_token {B : Type} (url authorization : string) (value : json)
    (k : json -> Method (State O) B) (c : AllegroClient) (w : State O) :
  and_then (post_token O url authorization value) k c w
  = match fst (client_post O url authorization value w) with
    | Return payload =>
        preceded [PostToken url authorization value (Return payload)]
          (k payload c (snd (client_post O url authorization value w)))
    | Raise e =>
        {| answer := inl (Raised e); self := c;
           outside := snd (client_post O url authorization value w);
           effects := [PostToken url authorization value (Raise e)] |}
    end.
Proof.
  unfold and_then, post_token. simpl.
  destruct (fst (client_post O url authorization value w)); reflexivity.
Qed.

Lemma and_then_persist {B : Type} (value : json) (k : unit -> Method (State O) B)
    (c : AllegroClient) (w : State O) :
  and_then (persist O value) k c w
  = preceded
      [SetKey value (fst (set_key O value w));
       match fst (set_key O value w) with
       | inr _ => LogInfo "_ensure_token: Updated refresh token in .env file"
       | inl f => LogWarning "_ensure_token: Failed to update refresh token in .env" f
       end]
      (k tt c (snd (set_key O value w))).
Proof. reflexivity. Qed.

Ltac step :=
  first [ rewrite and_then_get | rewrite and_then_pure | rewrite and_then_raise
        | rewrite and_then_set_token_expiry | rewrite and_then_set_token
        | rewrite and_then_set_refresh_token | rewrite and_then_now_utc
        | rewrite and_then_log_info | rewrite and_then_persist
        | rewrite and_then_assoc ];
  cbv beta.

Lemma request_token_refused (c : AllegroClient) (w : State O) (e : exn) :
  fst (exchange O c w) = Raise e ->
  request_token py_int O c w
  = {| answer := inl (Raised e); self := c; outside := snd (exchange O c w);
       effects := [sent O c w] |}.
Proof.
  intros Hpost. unfold sent. unfold exchange in *. unfold request_token.
  do 3 step. rewrite and_then_post_token. fold (token_url c) (token_authorization c).
  rewrite Hpost. reflexivity.
Qed.

Lemma request_token_no_token (c : AllegroClient) (w : State O) (payload : json)
    (f : failure) :
  fst (exchange O c w) = Return payload ->
  getitem payload "access_token" = inl f ->
  request_token py_int O c w
  = {| answer := inl f; self := c; outside := snd (exchange O c w);
       effects := [sent O c w] |}.
Proof.
  intros Hpost Hitem. unfold sent. unfold exchange in *. unfold request_token.
  do 3 step. rewrite and_then_post_token. fold (token_url c) (token_authorization c).
  rewrite Hpost, Hitem. reflexivity.
Qed.

Lemma getitem_dict (payload token : json) :
  getitem payload "access_token" = inr token ->
  exists m, payload = JDict m /\ m !! "access_token" = Some token.
Proof.
  destruct payload as [ | | | | | m ]; try discriminate. simpl.
  destruct (m !! "access_token") eqn:Hm; [ | discriminate ].
  intros H. injection H as <-. eauto.
Qed.

Lemma request_token_no_expiry (c : AllegroClient) (w : State O)
    (m : gmap string json) (token : json) (f : failure) :
  fst (exchange O c w) = Return (JDict m) ->
  m !! "access_token" = Some token ->
  good_until py_int m (fst (issued O c w)) = inl f ->
  request_token py_int O c w
  = {| answer := inl f;
       self := with_token c token (_token_expiry c) (settings_refresh_token c);
       outside := snd (issued O c w);
       effects := [sent O c w] |}.
Proof.
  intros Hpost Hitem Hgood. unfold sent, issued in *. unfold exchange in *.
  unfold request_token.
  do 3 step. rewrite and_then_post_token. fold (token_url c) (token_authorization c).
  rewrite Hpost. cbn [getitem]. rewrite Hitem. cbn [of_sum].
  do 3 step. cbn [py_get of_result]. step.
  unfold good_until, expires_in_of in Hgood.
  destruct (int_of py_int (default (JInt 3600) (m !! "expires_in"))) as [ f1 | seconds ];
    cbn [of_sum]; [ injection Hgood as <-; reflexivity | ].
  step.
  destruct (timedelta_seconds (seconds - 120)) as [ f2 | delta ];
    cbn [of_sum]; [ injection Hgood as <-; reflexivity | ].
  step. rewrite Hgood. reflexivity.
Qed.

Lemma request_token_renewed (c : AllegroClient) (w : State O)
    (m : gmap string json) (token : json) (expiry : datetime) :
  fst (exchange O c w) = Return (JDict m) ->
  m !! "access_token" = Some token ->
  good_until py_int m (fst (issued O c w)) = inr expiry ->
  request_token py_int O c w
  = {| answer := if truthy token then inr token
                 else inl (AssertionError "Failed to obtain access token");
       self := with_token c token expiry
                 (if rotates m c then refresh_token_of m else settings_refresh_token c);
       outside := if rotates m c
                  then snd (set_key O (refresh_token_of m) (snd (issued O c w)))
                  else snd (issued O c w);
       effects :=
         (sent O c w
          :: (if rotates m c
              then [SetKey (refresh_token_of m)
                      (fst (set_key O (refresh_token_of m) (snd (issued O c w))));
                    match fst (set_key O (refresh_token_of m) (snd (issued O c w))) with
                    | inr _ => LogInfo "_ensure_token: Updated refresh token in .env file"
                    | inl f =>
                        LogWarning "_ensure_token: Failed to update refresh token in .env" f
                    end]
              else [])
          ++ (if truthy token then [LogInfo "_ensure_token: Obtained new access token"]
              else []))%list |}.
Proof.
  intros Hpost Hitem Hgood. unfold sent, issued in *. unfold exchange in *.
  unfold request_token.
  do 3 step. rewrite and_then_post_token. fold (token_url c) (token_authorization c).
  rewrite Hpost. cbn [getitem]. rewrite Hitem. cbn [of_sum].
  do 3 step. cbn [py_get of_result]. step.
  unfold good_until, expires_in_of in Hgood.
  destruct (int_of py_int (default (JInt 3600) (m !! "expires_in"))) as [ f1 | seconds ];
    [ discriminate | ].
  cbn [of_sum]. step.
  destruct (timedelta_seconds (seconds - 120)) as [ f2 | delta ]; [ discriminate | ].
  cbn [of_sum]. step. rewrite Hgood. cbn [of_sum]. do 4 step.
  unfold rotates, refresh_token_of, with_token.
  cbn [settings settings_refresh_token _token _token_expiry api_base oauth_base].
  destruct (truthy (default JNull (m !! "refresh_token"))
            && negb (py_eq (default JNull (m !! "refresh_token"))
                       (settings_refresh_token c))).
  - do 4 step. unfold with_token. cbn [_token]. destruct (truthy token).
    + step. reflexivity.
    + reflexivity.
  - do 2 step. cbn [_token]. destruct (truthy token).
    + step. reflexivity.
    + reflexivity.
Qed.

Lemma request_token_cases (c : AllegroClient) (w : State O) :
  (exists e, fst (exchange O c w) = Raise e)
  \/ (exists payload f,
         fst (exchange O c w) = Return payload /\ getitem payload "access_token" = inl f)
  \/ (exists m token f,
         fst (exchange O c w) = Return (JDict m) /\ m !! "access_token" = Some token
         /\ good_until py_int m (fst (issued O c w)) = inl f)
  \/ (exists m token expiry,
         fst (exchange O c w) = Return (JDict m) /\ m !! "access_token" = Some token
         /\ good_until py_int m (fst (issued O c w)) = inr expiry).
Proof.
  destruct (fst (exchange O c w)) as [ payload | e ] eqn:Hpost; [ | left; eauto ].
  right. destruct (getitem payload "access_token") as [ f | token ] eqn:Hitem;
    [ left; eauto | ].
  right. destruct (getitem_dict payload token Hitem) as (m & -> & Hm).
  destruct (good_until py_int m (fst (issued O c w))) as [ f | expiry ] eqn:Hgood;
    [ left | right ]; eauto 7.
Qed.

Lemma ensure_token_cached (c : AllegroClient) (w : State O) :
  truthy (_token c) = true ->
  fst (datetime_now O w) < _token_expiry c ->
  _ensure_token py_int O c w
  = {| answer := inr (_token c); self := c; outside := snd (datetime_now O w);
       effects := [] |}.
Proof.
  intros Htoken Hfresh. unfold _ensure_token, token_is_fresh.
  do 2 step. rewrite Htoken. do 4 step.
  apply Z.ltb_lt in Hfresh. rewrite Hfresh. reflexivity.
Qed.

Lemma ensure_token_stale (c : AllegroClient) (w : State O) :
  truthy (_token c) = true ->
  _token_expiry c <= fst (datetime_now O w) ->
  _ensure_token py_int O c w = request_token py_int O c (snd (datetime_now O w)).
Proof.
  intros Htoken Hstale. unfold _ensure_token, token_is_fresh.
  do 2 step. rewrite Htoken. do 4 step.
  apply Z.ltb_ge in Hstale. rewrite Hstale. reflexivity.
Qed.

Lemma ensure_token_none (c : AllegroClient) (w : State O) :
  truthy (_token c) = false ->
  _ensure_token py_int O c w = request_token py_int O c w.
Proof.
  intros Htoken. unfold _ensure_token, token_is_fresh.
  do 2 step. rewrite Htoken. step. reflexivity.
Qed.

Lemma ensure_token_cases (c : AllegroClient) (w : State O) :
  (truthy (_token c) = true /\ fst (datetime_now O w) < _token_expiry c
   /\ _ensure_token py_int O c w
      = {| answer := inr (_token c); self := c; outside := snd (datetime_now O w);
           effects := [] |})
  \/ (exists w', _ensure_token py_int O c w = request_token py_int O c w').
Proof.
  destruct (truthy (_token c)) eqn:Htoken;
    [ | right; exists w; apply ensure_token_none; exact Htoken ].
  destruct (Z.lt_ge_cases (fst (datetime_now O w)) (_token_expiry c)) as [ Hfresh | Hstale ].
  - left. split; [ reflexivity | ]. split; [ exact Hfresh | ].
    apply ensure_token_cached; assumption.
  - right. exists (snd (datetime_now O w)). apply ensure_token_stale; assumption.
Qed.

(** A property of the runs of [request_token] holds when it holds of the
    four ways it can go. *)
Lemma request_token_run (P : run (State O) json -> Prop) (c : AllegroClient)
    (w : State O) :
  (forall e, fst (exchange O c w) = Raise e ->
             P {| answer := inl (Raised e); self := c; outside := snd (exchange O c w);
                  effects := [sent O c w] |}) ->
  (forall payload f,
      fst (exchange O c w) = Return payload -> getitem payload "access_token" = inl f ->
      P {| answer := inl f; self := c; outside := snd (exchange O c w);
           effects := [sent O c w] |}) ->
  (forall m token f,
      fst (exchange O c w) = Return (JDict m) -> m !! "access_token" = Some token ->
      good_until py_int m (fst (issued O c w)) = inl f ->
      P {| answer := inl f;
           self := with_token c token (_token_expiry c) (settings_refresh_token c);
           outside := snd (issued O c w);
           effects := [sent O c w] |}) ->
  (forall m token expiry,
      fst (exchange O c w) = Return (JDict m) -> m !! "access_token" = Some token ->
      good_until py_int m (fst (issued O c w)) = inr expiry ->
      P {| answer := if truthy token then inr token
                     else inl (AssertionError "Failed to obtain access token");
           self := with_token c token expiry
                     (if rotates m c then refresh_token_of m
                      else settings_refresh_token c);
           outside := if rotates m c
                      then snd (set_key O (refresh_token_of m) (snd (issued O c w)))
                      else snd (issued O c w);
           effects :=
             (sent O c w
              :: (if rotates m c
                  then [SetKey (refresh_token_of m)
                          (fst (set_key O (refresh_token_of m) (snd (issued O c w))));
                        match fst (set_key O (refresh_token_of m)
                                     (snd (issued O c w))) with
                        | inr _ =>
                            LogInfo "_ensure_token: Updated refresh token in .env file"
                        | inl f =>
                            LogWarning
                              "_ensure_token: Failed to update refresh token in .env" f
                        end]
                  else [])
              ++ (if truthy token
                  then [LogInfo "_ensure_token: Obtained new access token"]
                  else []))%list |}) ->
  P (request_token py_int O c w).
Proof.
  intros Hrefused Hnone Hexpiry Hrenewed.
  destruct (request_token_cases c w)
    as [ (e & Hpost)
       | [ (payload & f & Hpost & Hitem)
         | [ (m & token & f & Hpost & Hitem & Hgood)
           | (m & token & expiry & Hpost & Hitem & Hgood) ] ] ].
  - rewrite (request_token_refused c w e Hpost). auto.
  - rewrite (request_token_no_token c w payload f Hpost Hitem). eauto.
  - rewrite (request_token_no_expiry c w m token f Hpost Hitem Hgood). eauto.
  - rewrite (request_token_renewed c w m token expiry Hpost Hitem Hgood). eauto.
Qed.

(** The same for [_ensure_token], with the run that finds the token in the
    cache. *)
Lemma ensure_token_run (P : run (State O) json -> Prop) (c : AllegroClient)
    (w : State O) :
  (truthy (_token c) = true -> fst (datetime_now O w) < _token_expiry c ->
   P {| answer := inr (_token c); self := c; outside := snd (datetime_now O w);
        effects := [] |}) ->
  (forall w', P (request_token py_int O c w')) ->
  P (_ensure_token py_int O c w).
Proof.
  intros Hcached Hrequest.
  destruct (ensure_token_cases c w) as [ (Htoken & Hfresh & ->) | (w' & ->) ]; auto.
Qed.



Lemma prefix_lower_any_case (word s : string) :
  lower_case_word word = true ->
  startswith (lower s) word = true
  <-> exists p rest, s = p ++ rest /\ any_case word p.
Proof.
  unfold startswith. revert s. induction word as [ | a word IH ]; intros s Hword.
  - split; [ intros _; exists "", s; split; [ reflexivity | exact I ] | ].
    intros _. destruct (lower s); reflexivity.
  - simpl in Hword. apply andb_prop in Hword as [ Ha Hword ].
    apply andb_prop in Ha as [ Hlo Hhi ].
    apply N.leb_le in Hlo. apply N.leb_le in Hhi.
    destruct s as [ | c s ].
    + split; [ discriminate | ].
      intros (p & rest & Hs & Hp). destruct p; [ destruct Hp | discriminate Hs ].
    + change (lower (String c s)) with (String (lower_byte c) (lower s)).
      change (String.prefix (String a word) (String (lower_byte c) (lower s)))
        with (if ascii_dec a (lower_byte c) then String.prefix word (lower s) else false).
      destruct (ascii_dec a (lower_byte c)) as [ Heq | Hne ].
      * rewrite (IH s Hword). symmetry in Heq.
        apply (lower_byte_letter a c) in Heq; [ | lia ].
        split.
        -- intros (p & rest & -> & Hp). exists (String c p), rest.
           split; [ reflexivity | split; assumption ].
        -- intros (p & rest & Hs & Hp). destruct p as [ | c' p ]; [ destruct Hp | ].
           injection Hs as <- ->. destruct Hp as [ _ Hp ]. eauto.
      * split; [ discriminate | ].
        intros (p & rest & Hs & Hp). destruct p as [ | c' p ]; [ destruct Hp | ].
        injection Hs as <- ->. destruct Hp as [ Hc _ ].
        apply (lower_byte_letter a c) in Hc; [ | lia ]. congruence.
Qed.

(** X19: a client is made for the sandbox exactly when the name of the
    environment starts with the letters of [sandbox], in any case and
    whatever follows them, and for production otherwise; both addresses are
    always of the same environment, and the client starts without a token,
    with the refresh token of the settings. *)
Theorem client_environment :
  forall (st : Settings) (w : State O),
    _token (fst (__init__ O st w)) = JNull
    /\ settings_refresh_token (fst (__init__ O st w)) = JStr (refresh_token st)
    /\ ((exists p rest, environment st = p ++ rest /\ any_case "sandbox" p) ->
        api_base (fst (__init__ O st w)) = "https://api.allegro.pl.allegrosandbox.pl"
        /\ oauth_base (fst (__init__ O st w))
           = "https://allegro.pl.allegrosandbox.pl/auth/oauth")
    /\ (~ (exists p rest, environment st = p ++ rest /\ any_case "sandbox" p) ->
        api_base (fst (__init__ O st w)) = "https://api.allegro.pl"
        /\ oauth_base (fst (__init__ O st w)) = "https://allegro.pl/auth/oauth").
Proof.
  intros st w. unfold __init__. cbn [fst _token settings_refresh_token api_base oauth_base].
  split; [ reflexivity | ]. split; [ reflexivity | ].
  pose proof (prefix_lower_any_case "sandbox" (environment st) eq_refl) as Hsandbox.
  fold (sandbox st) in Hsandbox.
  split.
  - intros Hyes. apply Hsandbox in Hyes. rewrite Hyes. split; reflexivity.
  - intros Hno. destruct (sandbox st); [ | split; reflexivity ].
    exfalso. apply Hno, Hsandbox. reflexivity.
Qed.

(** X20: [_ensure_token] answers from the cache, without any effect and
    without changing the client, when the client has a token and the clock
    is before its expiry; in every other case it sends one request to the
    token endpoint, and never more than one, whether the request succeeds
    or not. *)
Theorem token_is_asked_for_unless_cached :
  forall (c : AllegroClient) (w : State O),
    (truthy (_token c) = true -> fst (datetime_now O w) < _token_expiry c ->
     _ensure_token py_int O c w
     = {| answer := inr (_token c); self := c; outside := snd (datetime_now O w);
          effects := [] |})
    /\ (truthy (_token c) = false \/ _token_expiry c <= fst (datetime_now O w) ->
        length (filter is_post_token (effects (_ensure_token py_int O c w))) = 1%nat)
    /\ (length (filter is_post_token (effects (_ensure_token py_int O c w))) <= 1)%nat.
Proof.
  intros c w.
  assert (Hone : forall w', length (filter is_post_token
                                      (effects (request_token py_int O c w'))) = 1%nat).
  { intros w'. apply (request_token_run
      (fun r => length (filter is_post_token (effects r)) = 1%nat)).
    - reflexivity.
    - reflexivity.
    - reflexivity.
    - intros m token expiry _ _ _. cbn [effects]. unfold sent.
      destruct (rotates m c); destruct (truthy token); simpl;
        try destruct (fst (set_key O _ _)); reflexivity. }
  split; [ apply ensure_token_cached | ].
  split.
  - intros [ Hnone | Hstale ].
    + rewrite ensure_token_none by exact Hnone. apply Hone.
    + destruct (truthy (_token c)) eqn:Htoken.
      * rewrite ensure_token_stale by assumption. apply Hone.
      * rewrite ensure_token_none by exact Htoken. apply Hone.
  - apply (ensure_token_run
      (fun r => (length (filter is_post_token (effects r)) <= 1)%nat)).
    + intros _ _. simpl. lia.
    + intros w'. rewrite Hone. lia.
Qed.

(** X21: a token that [_ensure_token] returns is a true value and is the
    one the client holds afterwards; and when the call fails on its
    [assert], the client holds the empty token of the response, so the
    next call asks again. *)
Theorem returned_token_is_kept :
  forall (c : AllegroClient) (w : State O),
    (forall token, answer (_ensure_token py_int O c w) = inr token ->
                   truthy token = true
                   /\ _token (self (_ensure_token py_int O c w)) = token)
    /\ (forall message,
           answer (_ensure_token py_int O c w) = inl (AssertionError message) ->
           truthy (_token (self (_ensure_token py_int O c w))) = false
           /\ forall w', _ensure_token py_int O (self (_ensure_token py_int O c w)) w'
                         = request_token py_int O (self (_ensure_token py_int O c w)) w').
Proof.
  intros c w.
  apply (ensure_token_run
    (fun r => (forall token, answer r = inr token ->
                             truthy token = true /\ _token (self r) = token)
              /\ (forall message, answer r = inl (AssertionError message) ->
                    truthy (_token (self r)) = false
                    /\ forall w', _ensure_token py_int O (self r) w'
                                  = request_token py_int O (self r) w'))).
  - intros Htoken _. cbn [answer self]. split.
    + intros token H. injection H as <-. auto.
    + intros message H. discriminate H.
  - intros w1. apply (request_token_run
      (fun r => (forall token, answer r = inr token ->
                               truthy token = true /\ _token (self r) = token)
                /\ (forall message, answer r = inl (AssertionError message) ->
                      truthy (_token (self r)) = false
                      /\ forall w', _ensure_token py_int O (self r) w'
                                    = request_token py_int O (self r) w'))).
    + intros e _. cbn [answer self]. split; intros ? H; discriminate H.
    + intros payload f _ Hitem. cbn [answer self]. split; intros ? H; [ discriminate H | ].
      injection H as ->.
      destruct payload as [ | | | | | m ]; try discriminate Hitem.
      simpl in Hitem. destruct (m !! "access_token"); discriminate Hitem.
    + intros m token f _ _ Hgood. cbn [answer self].
      split; intros ? H; [ discriminate H | ].
      injection H as ->. unfold good_until in Hgood.
      destruct (int_of py_int (expires_in_of m)) as [ f1 | seconds ] eqn:Hint.
      * destruct (expires_in_of m); simpl in Hint; try discriminate Hint;
          try (injection Hint as <-; discriminate Hgood).
        destruct (py_int s); [ discriminate Hint | ].
        injection Hint as <-. discriminate Hgood.
      * unfold timedelta_seconds, datetime_add in Hgood.
        destruct (_ && _) in Hgood; [ | discriminate Hgood ].
        destruct (_ && _) in Hgood; discriminate Hgood.
    + intros m token expiry _ _ _. cbn [answer self].
      destruct (truthy token) eqn:Htoken.
      * split; intros ? H; [ | discriminate H ].
        injection H as <-. split; [ exact Htoken | reflexivity ].
      * split; intros ? H; [ discriminate H | ].
        split; [ exact Htoken | ].
        intros w'. apply ensure_token_none. exact Htoken.
Qed.



Lemma good_until_seconds (m : gmap string json) (now : datetime) (seconds : Z) :
  int_of py_int (expires_in_of m) = inr seconds ->
  -999999999 <= (seconds - 120) / 86400 <= 999999999 ->
  datetime_min <= now + (seconds - 120) * 1000000 <= datetime_max ->
  good_until py_int m now = inr (now + (seconds - 120) * 1000000).
Proof.
  intros Hint [ Hlo Hhi ] [ Hmin Hmax ]. unfold good_until. rewrite Hint.
  unfold timedelta_seconds.
  apply Z.leb_le in Hlo. apply Z.leb_le in Hhi. rewrite Hlo, Hhi. simpl.
  unfold datetime_add.
  apply Z.leb_le in Hmin. apply Z.leb_le in Hmax. rewrite Hmin, Hmax. reflexivity.
Qed.

(** X22: a token received with a lifetime of [seconds] is returned from
    the cache, without any request, as long as the clock is more than two
    minutes short of the end of that lifetime, counted from the read of the
    clock that follows the response; from then on the next call asks for a
    new one.  So a token that lives two minutes or less is never reused. *)
Theorem token_reused_until_two_minutes_before_expiry :
  forall (c : AllegroClient) (w : State O) (m : gmap string json) (token : json)
         (seconds : Z),
    fst (exchange O c w) = Return (JDict m) ->
    m !! "access_token" = Some token ->
    truthy token = true ->
    int_of py_int (expires_in_of m) = inr seconds ->
    -999999999 <= (seconds - 120) / 86400 <= 999999999 ->
    datetime_min <= fst (issued O c w) + (seconds - 120) * 1000000 <= datetime_max ->
    answer (request_token py_int O c w) = inr token
    /\ _token_expiry (self (request_token py_int O c w))
       = fst (issued O c w) + (seconds - 120) * 1000000
    /\ (forall w',
           fst (datetime_now O w') < fst (issued O c w) + (seconds - 120) * 1000000 ->
           _ensure_token py_int O (self (request_token py_int O c w)) w'
           = {| answer := inr token;
                self := self (request_token py_int O c w);
                outside := snd (datetime_now O w');
                effects := [] |})
    /\ (forall w',
           fst (issued O c w) + (seconds - 120) * 1000000 <= fst (datetime_now O w') ->
           _ensure_token py_int O (self (request_token py_int O c w)) w'
           = request_token py_int O (self (request_token py_int O c w))
               (snd (datetime_now O w'))).
Proof.
  intros c w m token seconds Hpost Hitem Htoken Hint Hdelta Hrange.
  rewrite (request_token_renewed c w m token
             (fst (issued O c w) + (seconds - 120) * 1000000) Hpost Hitem
             (good_until_seconds m _ seconds Hint Hdelta Hrange)).
  cbn [answer self]. rewrite Htoken.
  split; [ reflexivity | ]. split; [ reflexivity | ].
  split.
  - intros w' Hfresh.
    rewrite ensure_token_cached; [ reflexivity | exact Htoken | exact Hfresh ].
  - intros w' Hstale. apply ensure_token_stale; [ exact Htoken | exact Hstale ].
Qed.

(** What the effects of a renewal hold. *)
Lemma renewal_effects (c : AllegroClient) (w : State O) (m : gmap string json)
    (token : json) (ef : effect) :
  In ef
    (sent O c w
     :: (if rotates m c
         then [SetKey (refresh_token_of m)
                 (fst (set_key O (refresh_token_of m) (snd (issued O c w))));
               match fst (set_key O (refresh_token_of m) (snd (issued O c w))) with
               | inr _ => LogInfo "_ensure_token: Updated refresh token in .env file"
               | inl f =>
                   LogWarning "_ensure_token: Failed to update refresh token in .env" f
               end]
         else [])
     ++ (if truthy token then [LogInfo "_ensure_token: Obtained new access token"]
         else []))%list ->
  ef = sent O c w
  \/ (rotates m c = true
      /\ ef = SetKey (refresh_token_of m)
                (fst (set_key O (refresh_token_of m) (snd (issued O c w)))))
  \/ is_post_token ef = false /\ is_set_key ef = false.
Proof.
  intros [ <- | Hin ]; [ left; reflexivity | right ].
  apply in_app_or in Hin. destruct Hin as [ Hin | Hin ].
  - destruct (rotates m c); [ | destruct Hin ].
    destruct Hin as [ <- | [ <- | [] ] ]; [ left; split; reflexivity | right ].
    destruct (fst (set_key O _ _)); split; reflexivity.
  - right. destruct (truthy token); [ | destruct Hin ].
    destruct Hin as [ <- | [] ]. split; reflexivity.
Qed.

(** X23: the request always carries the refresh token the client holds.
    The client takes a new refresh token exactly when it tries to write one
    to the [.env] file: the one of the response, a true value that is not
    the one it held; what the write does never decides the call, which
    then returns the token or fails on its [assert] only.  Without such a
    write the refresh token is the one the client held. *)
Theorem refresh_token_rotation :
  forall (c : AllegroClient) (w : State O),
    (forall url authorization value r,
        In (PostToken url authorization value r) (effects (_ensure_token py_int O c w)) ->
        url = token_url c /\ authorization = token_authorization c
        /\ value = settings_refresh_token c)
    /\ (forall value r,
           In (SetKey value r) (effects (_ensure_token py_int O c w)) ->
           settings_refresh_token (self (_ensure_token py_int O c w)) = value
           /\ truthy value = true
           /\ py_eq value (settings_refresh_token c) = false
           /\ (answer (_ensure_token py_int O c w)
               = inr (_token (self (_ensure_token py_int O c w)))
               \/ answer (_ensure_token py_int O c w)
                  = inl (AssertionError "Failed to obtain access token")))
    /\ ((forall value r, ~ In (SetKey value r) (effects (_ensure_token py_int O c w))) ->
        settings_refresh_token (self (_ensure_token py_int O c w))
        = settings_refresh_token c).
Proof.
  intros c w.
  set (P := fun run : run (State O) json =>
       (forall url authorization value r,
           In (PostToken url authorization value r) (effects run) ->
           url = token_url c /\ authorization = token_authorization c
           /\ value = settings_refresh_token c)
       /\ (forall value r,
              In (SetKey value r) (effects run) ->
              settings_refresh_token (self run) = value
              /\ truthy value = true
              /\ py_eq value (settings_refresh_token c) = false
              /\ (answer run = inr (_token (self run))
                  \/ answer run = inl (AssertionError "Failed to obtain access token")))
       /\ ((forall value r, ~ In (SetKey value r) (effects run)) ->
           settings_refresh_token (self run) = settings_refresh_token c)).
  assert (Hfailed : forall f c' w',
             settings_refresh_token c' = settings_refresh_token c ->
             P {| answer := inl f; self := c'; outside := w'; effects := [sent O c w] |}).
  { intros f c' w' Hsame. unfold P. cbn [effects self answer]. unfold sent.
    split; [ intros ? ? ? ? [ H | [] ]; injection H as <- <- <- _; auto | ].
    split; [ intros ? ? [ H | [] ]; discriminate H | intros _; exact Hsame ]. }
  apply (ensure_token_run P).
  - intros _ _. unfold P. cbn [effects self answer].
    split; [ intros ? ? ? ? [] | ]. split; [ intros ? ? [] | reflexivity ].
  - intros w1.
    assert (Hfailed1 : forall f c' w',
               settings_refresh_token c' = settings_refresh_token c ->
               P {| answer := inl f; self := c'; outside := w';
                    effects := [sent O c w1] |}).
    { intros f c' w' Hsame. unfold P. cbn [effects self answer]. unfold sent.
      split; [ intros ? ? ? ? [ H | [] ]; injection H as <- <- <- _; auto | ].
      split; [ intros ? ? [ H | [] ]; discriminate H | intros _; exact Hsame ]. }
    apply (request_token_run P).
    + intros e _. apply Hfailed1. reflexivity.
    + intros payload f _ _. apply Hfailed1. reflexivity.
    + intros m token f _ _ _. apply Hfailed1. reflexivity.
    + intros m token expiry _ _ _. unfold P.
      cbn [effects self answer with_token settings_refresh_token _token].
      split; [ | split ].
      * intros url authorization value r Hin.
        apply renewal_effects in Hin.
        destruct Hin as [ H | [ [ _ H ] | [ H _ ] ] ]; [ | discriminate H | discriminate H ].
        unfold sent in H. injection H as <- <- <- _. auto.
      * intros value r Hin. apply renewal_effects in Hin.
        destruct Hin as [ H | [ [ Hrot H ] | [ _ H ] ] ];
          [ discriminate H | | discriminate H ].
        injection H as -> _. rewrite Hrot.
        unfold rotates in Hrot. apply andb_prop in Hrot as [ Htrue Hne ].
        apply negb_true_iff in Hne.
        repeat split; try assumption.
        destruct (truthy token); auto.
      * intros Hnever. destruct (rotates m c) eqn:Hrot; [ | reflexivity ].
        exfalso.
        apply (Hnever (refresh_token_of m)
                 (fst (set_key O (refresh_token_of m) (snd (issued O c w1))))).
        right. left. reflexivity.
Qed.


(** X25: when the lifetime of a response cannot be computed ([expires_in]
    is not a number, or the date is out of range) the call fails, but the
    client has taken the token of the response and kept the expiry it had:
    a later call before that expiry returns the token of the failed call
    without any request. *)
Theorem token_of_a_failed_call_is_kept :
  forall (c : AllegroClient) (w : State O) (m : gmap string json) (token : json)
         (f : failure),
    fst (exchange O c w) = Return (JDict m) ->
    m !! "access_token" = Some token ->
    truthy token = true ->
    good_until py_int m (fst (issued O c w)) = inl f ->
    answer (request_token py_int O c w) = inl f
    /\ self (request_token py_int O c w)
       = with_token c token (_token_expiry c) (settings_refresh_token c)
    /\ forall w',
        fst (datetime_now O w') < _token_expiry c ->
        answer (_ensure_token py_int O (self (request_token py_int O c w)) w') = inr token
        /\ effects (_ensure_token py_int O (self (request_token py_int O c w)) w') = [].
Proof.
  intros c w m token f Hpost Hitem Htoken Hgood.
  rewrite (request_token_no_expiry c w m token f Hpost Hitem Hgood).
  cbn [answer self]. split; [ reflexivity | ]. split; [ reflexivity | ].
  intros w' Hfresh.
  rewrite ensure_token_cached; [ split; reflexivity | exact Htoken | exact Hfresh ].
Qed.

End token.

Section first_call.
Variable py_int : string -> option Z.
Variable O : Outside.

(** X26: the first call of a new client never reads the clock and never
    answers from a cache: it goes to the token endpoint of the environment
    of the client, with the refresh token of the settings. *)
Theorem new_client_asks_for_a_token :
  forall (st : Settings) (w0 w : State O),
    _ensure_token py_int O (fst (__init__ O st w0)) w
    = request_token py_int O (fst (__init__ O st w0)) w
    /\ exists rest,
        effects (_ensure_token py_int O (fst (__init__ O st w0)) w)
        = PostToken
            ((if sandbox st then "https://allegro.pl.allegrosandbox.pl/auth/oauth"
              else "https://allegro.pl/auth/oauth") ++ "/token")
            ("Basic " ++ b64encode (client_id st ++ ":" ++ client_secret st))
            (JStr (refresh_token st))
            (fst (exchange O (fst (__init__ O st w0)) w))
          :: rest.
Proof.
  intros st w0 w.
  assert (Hnone : _ensure_token py_int O (fst (__init__ O st w0)) w
                  = request_token py_int O (fst (__init__ O st w0)) w).
  { apply ensure_token_none. reflexivity. }
  split; [ exact Hnone | ]. rewrite Hnone.
  apply (request_token_run py_int O
           (fun r => exists rest, effects r = sent O (fst (__init__ O st w0)) w :: rest));
    intros; cbn [effects]; eauto.
Qed.
End first_call.

(** ** The settings and the client on the sample deployment *)

Lemma switches_are_on_unless_told_otherwise_witness :
  (reply_outside_working_hours client_samples.sample_deployment = true
   <-> says_true (client_samples.sample_environ !! "REPLY_AFTER_HOURS"))
  /\ (reply_only_first_message client_samples.sample_deployment = true
      <-> says_true (client_samples.sample_environ !! "REPLY_ONLY_FIRST"))
  /\ (config.process_issues client_samples.sample_deployment = true
      <-> says_true (client_samples.sample_environ !! "PROCESS_ISSUES")).
Proof.
  apply (switches_are_on_unless_told_otherwise client_samples.sample_int
           "Europe/Warsaw" client_samples.sample_environ
           client_samples.sample_deployment).
  vm_compute. reflexivity.
Defined.

(** The poll loop of the sample deployment over the sample shop: no issue
    endpoint is called and nothing is posted to a thread. *)
Lemma environment_switches_off_witness :
  (forall turns w ev,
      In ev (main.trace (main.poll_loop samples.sample_fromisoformat
                           (samples.scripted samples.shop)
                           client_samples.sample_deployment turns w)) ->
      observations.is_issue_event ev = false)
  /\ (forall turns w id text r,
         ~ In (main.CallPostMessage id text r)
              (main.trace (main.poll_loop samples.sample_fromisoformat
                             (samples.scripted samples.shop)
                             client_samples.sample_deployment turns w))).
Proof.
  destruct (environment_switches_off client_samples.sample_int
              samples.sample_fromisoformat (samples.scripted samples.shop)
              "Europe/Warsaw" client_samples.sample_environ
              client_samples.sample_deployment) as [ Hissues Hposts ].
  - vm_compute. reflexivity.
  - split.
    + apply (Hissues "no"); [ vm_compute; reflexivity | ].
      simpl. intros (_ & _ & H). exact H.
    + apply Hposts. vm_compute. reflexivity.
Defined.

(** The token the new client receives at noon, good for an hour: it is
    reused until 12:58. *)
Lemma token_reused_until_two_minutes_before_expiry_witness :
  answer (request_token client_samples.sample_int
            (client_samples.scripted_outside client_samples.endpoint)
            client_samples.new_client samples.noon)
  = inr (JStr "a1")
  /\ _token_expiry
       (self (request_token client_samples.sample_int
                (client_samples.scripted_outside client_samples.endpoint)
                client_samples.new_client samples.noon))
     = samples.noon + (3600 - 120) * 1000000
  /\ (forall w' : datetime,
         w' < samples.noon + (3600 - 120) * 1000000 ->
         _ensure_token client_samples.sample_int
           (client_samples.scripted_outside client_samples.endpoint)
           (self (request_token client_samples.sample_int
                    (client_samples.scripted_outside client_samples.endpoint)
                    client_samples.new_client samples.noon)) w'
         = {| answer := inr (JStr "a1");
              self := self (request_token client_samples.sample_int
                              (client_samples.scripted_outside client_samples.endpoint)
                              client_samples.new_client samples.noon);
              outside := w';
              effects := [] |})
  /\ (forall w' : datetime,
         samples.noon + (3600 - 120) * 1000000 <= w' ->
         _ensure_token client_samples.sample_int
           (client_samples.scripted_outside client_samples.endpoint)
           (self (request_token client_samples.sample_int
                    (client_samples.scripted_outside client_samples.endpoint)
                    client_samples.new_client samples.noon)) w'
         = request_token client_samples.sample_int
             (client_samples.scripted_outside client_samples.endpoint)
             (self (request_token client_samples.sample_int
                      (client_samples.scripted_outside client_samples.endpoint)
                      client_samples.new_client samples.noon)) w').
Proof.
  refine (token_reused_until_two_minutes_before_expiry client_samples.sample_int
            (client_samples.scripted_outside client_samples.endpoint)
            client_samples.new_client samples.noon client_samples.token_fields
            (JStr "a1") 3600 _ _ _ _ _ _).
  - reflexivity.
  - vm_compute. reflexivity.
  - reflexivity.
  - vm_compute. reflexivity.
  - split; vm_compute; discriminate.
  - split; vm_compute; discriminate.
Defined.

(** The client that holds an empty token and an expiry, when the endpoint
    answers with a token without a lifetime: the call fails, and the token
    is returned from the cache afterwards. *)
Lemma token_of_a_failed_call_is_kept_witness :
  answer (request_token client_samples.sample_int
            (client_samples.scripted_outside client_samples.endpoint_timeless)
            client_samples.client_without_token samples.five_past)
  = inl (Raised ValueError)
  /\ self (request_token client_samples.sample_int
             (client_samples.scripted_outside client_samples.endpoint_timeless)
             client_samples.client_without_token samples.five_past)
     = with_token client_samples.client_without_token (JStr "a2")
         (samples.noon + 3480 * 1000000) (JStr "r1")
  /\ forall w' : datetime,
      w' < samples.noon + 3480 * 1000000 ->
      answer (_ensure_token client_samples.sample_int
                (client_samples.scripted_outside client_samples.endpoint_timeless)
                (self (request_token client_samples.sample_int
                         (client_samples.scripted_outside
                            client_samples.endpoint_timeless)
                         client_samples.client_without_token samples.five_past)) w')
      = inr (JStr "a2")
      /\ effects (_ensure_token client_samples.sample_int
                    (client_samples.scripted_outside client_samples.endpoint_timeless)
                    (self (request_token client_samples.sample_int
                             (client_samples.scripted_outside
                                client_samples.endpoint_timeless)
                             client_samples.client_without_token samples.five_past)) w')
         = [].
Proof.
  refine (token_of_a_failed_call_is_kept client_samples.sample_int
            (client_samples.scripted_outside client_samples.endpoint_timeless)
            client_samples.client_without_token samples.five_past
            client_samples.timeless_fields (JStr "a2") (Raised ValueError) _ _ _ _).
  - reflexivity.
  - vm_compute. reflexivity.
  - reflexivity.
  - vm_compute. reflexivity.
Defined.

(** The new client at an endpoint whose [.env] file cannot be written: it
    takes the new refresh token all the same, and returns the token. *)
Lemma refresh_token_rotation_witness :
  settings_refresh_token
    (self (_ensure_token client_samples.sample_int
             (client_samples.scripted_outside client_samples.endpoint_read_only)
             client_samples.new_client samples.noon))
  = JStr "r1"
  /\ answer (_ensure_token client_samples.sample_int
               (client_samples.scripted_outside client_samples.endpoint_read_only)
               client_samples.new_client samples.noon)
     = inr (JStr "a1").
Proof.
  destruct (proj1 (proj2 (refresh_token_rotation client_samples.sample_int
                            (client_samples.scripted_outside
                               client_samples.endpoint_read_only)
                            client_samples.new_client samples.noon))
              (JStr "r1") (inl (OSError "Read-only file system")))
    as (Hkept & _ & _ & Hanswer).
  - vm_compute. right. left. reflexivity.
  - split; [ exact Hkept | ].
    destruct Hanswer as [ H | H ]; [ | vm_compute in H; discriminate H ].
    rewrite H. vm_compute. reflexivity.
Defined.
